(** * The ECDL client orchestrator (client/main.cpp)

    A shallow embedding of the client's main.cpp: the verifier callback
    and the pending points cache, the submission thread, the poll loop that
    drives the search engine, and the program entry point.

    The file-scope globals of main.cpp are the fields of one record,
    [Globals].  Every function of main.cpp is a state transformer over that
    record which also returns the ordered list of the observable actions it
    performed (log lines, sleeps, lock operations, server calls with their
    replies, engine calls, thread launches).  The collaborators whose code
    is not in main.cpp (the server connection, the engine, the curve
    library, the configuration loader, the CUDA runtime) are the methods of
    the class [External]; what they answer is read from an abstract world
    that they may change.  [runningThread], whose body is the engine's
    blocking [run], appears as the launch of its thread and as the
    candidates the engine delivers to the callback. *)

From Stdlib Require Import ZArith NArith List String Bool Arith Lia.
Import ListNotations.

Local Open Scope string_scope.
Local Open Scope list_scope.
Local Open Scope Z_scope.

(** ** Data model *)

(** [BigInteger] is the arbitrary-precision integer of the curve library. *)
Definition BigInteger : Type := Z.

(** ECDLPParams: the problem parameters (curve, generator, target,
    distinguished bits). *)
Module ECDLPParams.
Record t : Type := mk {
  p : BigInteger;
  n : BigInteger;
  a : BigInteger;
  b : BigInteger;
  gx : BigInteger;
  gy : BigInteger;
  qx : BigInteger;
  qy : BigInteger;
  dBits : Z
}.
(** A default-constructed ECDLPParams. *)
Definition zero : t := mk 0 0 0 0 0 0 0 0 0.
End ECDLPParams.

(** ParamsMsg: the reply of [ServerConnection::getParameters]; the
    parameters and the X and Y values of the random walk points. *)
Module ParamsMsg.
Record t : Type := mk {
  p : BigInteger;
  n : BigInteger;
  a : BigInteger;
  b : BigInteger;
  gx : BigInteger;
  gy : BigInteger;
  qx : BigInteger;
  qy : BigInteger;
  dBits : Z;
  rx : list BigInteger;
  ry : list BigInteger
}.
End ParamsMsg.

(** struct CallbackParameters: what the engine hands to the callback. *)
Module CallbackParameters.
Record t : Type := mk {
  aStart : BigInteger;
  bStart : BigInteger;
  x : BigInteger;
  y : BigInteger;
  length : Z
}.
End CallbackParameters.

(** DistinguishedPoint, as built by
    [DistinguishedPoint p(a, b, x, y, length)]. *)
Module DistinguishedPoint.
Record t : Type := mk {
  a : BigInteger;
  b : BigInteger;
  x : BigInteger;
  y : BigInteger;
  length : Z
}.
End DistinguishedPoint.

(** [ECCurve curve(p, n, a, b, gx, gy)] and [ECPoint p(x, y)]. *)
Module ECCurve.
Record t : Type := mk {
  p : BigInteger;
  n : BigInteger;
  a : BigInteger;
  b : BigInteger;
  gx : BigInteger;
  gy : BigInteger
}.
End ECCurve.

Module ECPoint.
Record t : Type := mk { x : BigInteger; y : BigInteger }.
End ECPoint.

(** ClientConfig.  [pointCacheSize] is an unsigned count: it is compared
    with [_pointsCache.size()]. *)
Module ClientConfig.
Record t : Type := mk {
  device : Z;
  blocks : Z;
  threads : Z;
  pointsPerThread : Z;
  serverHost : string;
  serverPort : Z;
  pointCacheSize : N
}.
Definition zero : t := mk 0 0 0 0 "" 0 0%N.
End ClientConfig.

(** The client is built either with [_CUDA] or with [_CPU] defined; with
    neither, [getNewContext] would return NULL. *)
Inductive Build : Type := _CUDA | _CPU.

Definition NUM_R_POINTS : Z := 32.

(** The engine object made by [getNewContext], with the arguments its
    constructor received. *)
Inductive ECDLContext : Type :=
| ECDLCudaContext (device blocks threads pointsPerThread : Z)
    (params : ECDLPParams.t) (rx ry : list BigInteger) (numRPoints : Z)
| ECDLCpuContext (threads pointsPerThread : Z)
    (params : ECDLPParams.t) (rx ry : list BigInteger) (numRPoints : Z).

(** [new ServerConnection(host, port)]. *)
Module ServerConnection.
Record t : Type := mk { host : string; port : Z }.
End ServerConnection.

(** CUDA::DeviceInfo, as far as [cudaInit] prints it. *)
Module DeviceInfo.
Record t : Type := mk {
  name : string;
  major : Z;
  minor : Z;
  mpCount : Z;
  cores : Z;
  globalMemory : Z
}.
End DeviceInfo.

(** The two thread entry points of main.cpp. *)
Inductive ThreadEntry : Type := sendPointsThread_entry | runningThread_entry.

(** The file-scope variables of main.cpp.  The pointers [_context] and
    [_serverConnection] are [None] when NULL.  [_pointsMutex] is
    represented by the grab and release actions on it. *)
Record Globals : Type := mkGlobals {
  _context : option ECDLContext;
  _rx : list BigInteger;
  _ry : list BigInteger;
  _params : ECDLPParams.t;
  _id : string;
  _serverConnection : option ServerConnection.t;
  _config : ClientConfig.t;
  _pointsCache : list DistinguishedPoint.t;
  _running : bool;
  _ecdlThread : option ThreadEntry
}.

(** The globals as their initialisers leave them at program start. *)
Definition initial_globals : Globals :=
  {| _context := None;
     _rx := repeat 0 32;
     _ry := repeat 0 32;
     _params := ECDLPParams.zero;
     _id := "";
     _serverConnection := None;
     _config := ClientConfig.zero;
     _pointsCache := [];
     _running := true;
     _ecdlThread := None |}.

(** ** Observable actions *)

(** An argument of a printf-style log line. *)
Inductive LogArg : Type :=
| ArgStr (s : string)
| ArgInt (z : Z)
| ArgBig (v : BigInteger) (base : option Z).

(** A thrown [std::string] is [inl], a normal return is [inr]. *)
Definition Thrown (A : Type) : Type := (string + A)%type.

Inductive Event : Type :=
| EvLogInfo (fmt : string) (args : list LogArg)
| EvLogError (fmt : string) (args : list LogArg)
| EvSleep (seconds : Z)
| EvMutexGrab
| EvMutexRelease
| EvGetStatus (id : string) (reply : Thrown Z)
| EvGetParameters (id : string) (reply : Thrown ParamsMsg.t)
| EvSubmitPoints (id : string) (points : list DistinguishedPoint.t)
    (reply : Thrown unit)
| EvNewServerConnection (host : string) (port : Z)
    (reply : Thrown ServerConnection.t)
| EvNewContext (ctx : ECDLContext)
| EvContextInit (ctx : ECDLContext)
| EvContextIsRunning (ctx : ECDLContext) (reply : bool)
| EvContextStop (ctx : ECDLContext)
| EvContextDelete (ctx : ECDLContext)
| EvThreadStart (entry : ThreadEntry)
| EvSrand (seed : Z)
| EvLoadConfig (file : string) (reply : Thrown ClientConfig.t)
| EvCudaGetDeviceCount (reply : Z)
| EvCudaGetDeviceInfo (device : Z) (reply : Thrown DeviceInfo.t)
| EvDoBenchmark.

(** ** The collaborators *)

(** The code main.cpp calls but does not contain.  A method reads its
    answer from the world [W] and returns the world that follows.  The two
    status codes are constants of ServerConnection.h, known here only to
    differ.  The engine's constructor, [init], [stop] and destructor are
    actions without a reply. *)
Class External (W : Type) : Type := {
  (* ServerConnection.h *)
  SERVER_STATUS_RUNNING : Z;
  SERVER_STATUS_STOPPED : Z;
  SERVER_STATUS_distinct : SERVER_STATUS_RUNNING <> SERVER_STATUS_STOPPED;
  ServerConnection_new : string -> Z -> W -> Thrown ServerConnection.t * W;
  ServerConnection_getStatus : string -> W -> Thrown Z * W;
  ServerConnection_getParameters : string -> W -> Thrown ParamsMsg.t * W;
  ServerConnection_submitPoints :
    string -> list DistinguishedPoint.t -> W -> Thrown unit * W;
  (* ecc.h *)
  ECCurve_pointExists : ECCurve.t -> ECPoint.t -> bool;
  (* ECDLContext.h *)
  ECDLContext_isRunning : ECDLContext -> W -> bool * W;
  (* config.h, util.h *)
  loadConfig : string -> W -> Thrown ClientConfig.t * W;
  util_getSystemTime : W -> Z * W;
  (* the CUDA runtime *)
  CUDA_getDeviceCount : W -> Z * W;
  CUDA_getDeviceInfo : Z -> W -> Thrown DeviceInfo.t * W
}.

(** ** The state and trace monad *)

Section Machine.

Context {W : Type} `{Ext : External W}.

Record Result (A : Type) : Type := mkResult {
  value : A;
  globals : Globals;
  world : W;
  events : list Event
}.
Arguments mkResult {A}.
Arguments value {A}.
Arguments globals {A}.
Arguments world {A}.
Arguments events {A}.

Definition M (A : Type) : Type := Globals -> W -> Result A.

Definition ret {A : Type} (v : A) : M A :=
  fun g w => mkResult v g w [].

Definition bind {A B : Type} (m : M A) (k : A -> M B) : M B :=
  fun g w =>
    match m g w with
    | mkResult a g1 w1 evs1 =>
        match k a g1 w1 with
        | mkResult b g2 w2 evs2 => mkResult b g2 w2 (evs1 ++ evs2)
        end
    end.

Notation "x <- m ;; k" := (bind m (fun x => k))
  (at level 61, m at next level, right associativity).
Notation "m ;; k" := (bind m (fun _ => k))
  (at level 61, right associativity).

Definition get : M Globals := fun g w => mkResult g g w [].
Definition put (g' : Globals) : M unit := fun _ w => mkResult tt g' w [].
Definition emit (e : Event) : M unit := fun g w => mkResult tt g w [e].

(** Calls a collaborator and records the call with its reply. *)
Definition call {A : Type} (f : W -> A * W) (ev : A -> Event) : M A :=
  fun g w => let '(r, w') := f w in mkResult r g w' [ev r].

Definition logInfo (fmt : string) (args : list LogArg) : M unit :=
  emit (EvLogInfo fmt args).
Definition logError (fmt : string) (args : list LogArg) : M unit :=
  emit (EvLogError fmt args).
Definition sleep (seconds : Z) : M unit := emit (EvSleep seconds).

(** ** Result verifier and cache *)

Definition set_pointsCache (c : list DistinguishedPoint.t) (g : Globals)
  : Globals :=
  {| _context := _context g; _rx := _rx g; _ry := _ry g;
     _params := _params g; _id := _id g;
     _serverConnection := _serverConnection g; _config := _config g;
     _pointsCache := c; _running := _running g;
     _ecdlThread := _ecdlThread g |}.

(** [ECCurve curve(_params.p, _params.n, _params.a, _params.b, _params.gx,
    _params.gy)]. *)
Definition curve_of (params : ECDLPParams.t) : ECCurve.t :=
  ECCurve.mk (ECDLPParams.p params) (ECDLPParams.n params)
    (ECDLPParams.a params) (ECDLPParams.b params)
    (ECDLPParams.gx params) (ECDLPParams.gy params).

(** [verifyPoint]: verifies a point is on the curve. *)
Definition verifyPoint (x y : BigInteger) : M bool :=
  g <- get ;;
  let curve := curve_of (_params g) in
  let p := ECPoint.mk x y in
  ret (ECCurve_pointExists curve p).

(** [addPointToCache]: appends the point under the lock. *)
Definition addPointToCache (a b x y : BigInteger) (length : Z) : M unit :=
  let p := DistinguishedPoint.mk a b x y length in
  emit EvMutexGrab ;;
  g <- get ;;
  put (set_pointsCache (_pointsCache g ++ [p]) g) ;;
  emit EvMutexRelease.

(** [pointFoundCallback]: the callback given to the engine. *)
Definition pointFoundCallback (p : CallbackParameters.t) : M unit :=
  valid <- verifyPoint (CallbackParameters.x p) (CallbackParameters.y p) ;;
  if negb valid then
    logInfo "INVALID POINT\n" [] ;;
    logInfo "a: %s" [ArgBig (CallbackParameters.aStart p) (Some 16)] ;;
    logInfo "b: %s" [ArgBig (CallbackParameters.bStart p) (Some 16)] ;;
    logInfo "x: %s" [ArgBig (CallbackParameters.x p) (Some 16)] ;;
    logInfo "y: %s" [ArgBig (CallbackParameters.y p) (Some 16)] ;;
    logInfo "length: %d" [ArgInt (CallbackParameters.length p)] ;;
    ret tt
  else
    addPointToCache (CallbackParameters.aStart p) (CallbackParameters.bStart p)
      (CallbackParameters.x p) (CallbackParameters.y p)
      (CallbackParameters.length p).


(** ** Fetching the parameters *)

(** [a[i] = v] on an array held as a list. *)
Fixpoint array_set {A : Type} (i : nat) (v : A) (l : list A) : list A :=
  match l, i with
  | [], _ => []
  | _ :: t, O => v :: t
  | h :: t, S j => h :: array_set j v t
  end.

(** The loop
    [for(int i = 0; i < 32; i++) { rx[i] = msg.rx[i]; ry[i] = msg.ry[i]; }],
    with [count] iterations left and the index at [i].  The reply carries
    32 entries in each array; an entry that is missing reads as 0. *)
Fixpoint copy_R_points (count i : nat) (msg : ParamsMsg.t)
  (rx ry : list BigInteger) : list BigInteger * list BigInteger :=
  match count with
  | O => (rx, ry)
  | S k =>
      copy_R_points k (S i) msg
        (array_set i (nth i (ParamsMsg.rx msg) 0) rx)
        (array_set i (nth i (ParamsMsg.ry msg) 0) ry)
  end.

(** What [getParameters] leaves in its three reference arguments. *)
Record ParametersOut : Type := mkParametersOut {
  out_ok : bool;
  out_params : ECDLPParams.t;
  out_rx : list BigInteger;
  out_ry : list BigInteger
}.

(** [getParameters(params, rx, ry)]: gets the problem parameters and R
    points from the server. *)
Definition getParameters (params : ECDLPParams.t) (rx ry : list BigInteger)
  : M ParametersOut :=
  g <- get ;;
  r <- call (ServerConnection_getParameters (_id g))
         (EvGetParameters (_id g)) ;;
  match r with
  | inl e =>
      logInfo "Error: %s\n" [ArgStr e] ;;
      ret (mkParametersOut false params rx ry)
  | inr paramsMsg =>
      let params' :=
        ECDLPParams.mk (ParamsMsg.p paramsMsg) (ParamsMsg.n paramsMsg)
          (ParamsMsg.a paramsMsg) (ParamsMsg.b paramsMsg)
          (ParamsMsg.gx paramsMsg) (ParamsMsg.gy paramsMsg)
          (ParamsMsg.qx paramsMsg) (ParamsMsg.qy paramsMsg)
          (ParamsMsg.dBits paramsMsg) in
      let '(rx', ry') := copy_R_points 32 0 paramsMsg rx ry in
      ret (mkParametersOut true params' rx' ry')
  end.

(** ** The submission thread *)

(** The loop [for(int i = 0; i < _pointsCache.size(); i++)
    points.push_back(_pointsCache[i])], with [count] iterations left and the
    index at [i]; the index is exact as long as the size of the cache fits
    an [int]. *)
Fixpoint copy_points (count i : nat) (cache points : list DistinguishedPoint.t)
  : list DistinguishedPoint.t :=
  match count with
  | O => points
  | S k =>
      match nth_error cache i with
      | Some d => copy_points k (S i) cache (points ++ [d])
      | None => points
      end
  end.

(** What a loop body asks of its loop, and how a loop ended: it was never
    entered, its condition was false, it executed [break], or it is still
    running when the iterations counted by the fuel are over. *)
Inductive LoopCtl : Type := Continue | Break.
Inductive LoopExit : Type := NotEntered | ExitFlag | ExitBreak | Unfinished.

(** [while(_running) { body }]. *)
Fixpoint while_running (fuel : nat) (body : M LoopCtl) : M LoopExit :=
  match fuel with
  | O => ret Unfinished
  | S k =>
      g <- get ;;
      if _running g then
        c <- body ;;
        match c with
        | Break => ret ExitBreak
        | Continue => while_running k body
        end
      else ret ExitFlag
  end.

(** One turn of the loop of [sendPointsThread]. *)
Definition sendPointsThread_body : M unit :=
  emit EvMutexGrab ;;
  g <- get ;;
  (if (ClientConfig.pointCacheSize (_config g)
         <=? N.of_nat (List.length (_pointsCache g)))%N then
     logInfo "Sending %d points to server"
       [ArgInt (Z.of_nat (List.length (_pointsCache g)))] ;;
     let points :=
       copy_points (List.length (_pointsCache g)) 0 (_pointsCache g) [] in
     logInfo "Sending to server\n" [] ;;
     r <- call (ServerConnection_submitPoints (_id g) points)
            (EvSubmitPoints (_id g) points) ;;
     success <-
       match r with
       | inr _ => ret true
       | inl err =>
           logInfo
             "Error sending points to server: %s. Will try again later\n"
             [ArgStr err] ;;
           ret false
       end ;;
     if success : bool then
       g1 <- get ;; put (set_pointsCache [] g1)
     else ret tt
   else ret tt) ;;
  emit EvMutexRelease ;;
  sleep 30.

(** [sendPointsThread]: polls the cache of distinguished points and sends
    them to the server when there are enough. *)
Definition sendPointsThread (fuel : nat) : M LoopExit :=
  while_running fuel (sendPointsThread_body ;; ret Continue).

(** ** The poll loop *)

Variable build : Build.

Definition set_context (c : option ECDLContext) (g : Globals) : Globals :=
  {| _context := c; _rx := _rx g; _ry := _ry g;
     _params := _params g; _id := _id g;
     _serverConnection := _serverConnection g; _config := _config g;
     _pointsCache := _pointsCache g; _running := _running g;
     _ecdlThread := _ecdlThread g |}.

Definition set_parameters (params : ECDLPParams.t) (rx ry : list BigInteger)
  (g : Globals) : Globals :=
  {| _context := _context g; _rx := rx; _ry := ry;
     _params := params; _id := _id g;
     _serverConnection := _serverConnection g; _config := _config g;
     _pointsCache := _pointsCache g; _running := _running g;
     _ecdlThread := _ecdlThread g |}.

Definition set_running (r : bool) (g : Globals) : Globals :=
  {| _context := _context g; _rx := _rx g; _ry := _ry g;
     _params := _params g; _id := _id g;
     _serverConnection := _serverConnection g; _config := _config g;
     _pointsCache := _pointsCache g; _running := r;
     _ecdlThread := _ecdlThread g |}.

Definition set_serverConnection (c : option ServerConnection.t) (g : Globals)
  : Globals :=
  {| _context := _context g; _rx := _rx g; _ry := _ry g;
     _params := _params g; _id := _id g;
     _serverConnection := c; _config := _config g;
     _pointsCache := _pointsCache g; _running := _running g;
     _ecdlThread := _ecdlThread g |}.

Definition set_config (c : ClientConfig.t) (g : Globals) : Globals :=
  {| _context := _context g; _rx := _rx g; _ry := _ry g;
     _params := _params g; _id := _id g;
     _serverConnection := _serverConnection g; _config := c;
     _pointsCache := _pointsCache g; _running := _running g;
     _ecdlThread := _ecdlThread g |}.

Definition set_id (s : string) (g : Globals) : Globals :=
  {| _context := _context g; _rx := _rx g; _ry := _ry g;
     _params := _params g; _id := s;
     _serverConnection := _serverConnection g; _config := _config g;
     _pointsCache := _pointsCache g; _running := _running g;
     _ecdlThread := _ecdlThread g |}.

(** [getNewContext(params, rx, ry, numRPoints, callback)]; the callback is
    always [pointFoundCallback]. *)
Definition getNewContext (params : ECDLPParams.t) (rx ry : list BigInteger)
  (numRPoints : Z) : M ECDLContext :=
  g <- get ;;
  match build with
  | _CUDA =>
      logInfo "Creating CUDA context..." [] ;;
      let ctx :=
        ECDLCudaContext (ClientConfig.device (_config g))
          (ClientConfig.blocks (_config g)) (ClientConfig.threads (_config g))
          (ClientConfig.pointsPerThread (_config g)) params rx ry numRPoints in
      emit (EvNewContext ctx) ;;
      ret ctx
  | _CPU =>
      let ctx :=
        ECDLCpuContext (ClientConfig.threads (_config g))
          (ClientConfig.pointsPerThread (_config g)) params rx ry numRPoints in
      emit (EvNewContext ctx) ;;
      ret ctx
  end.

(** The [RUNNING] branch of the poll loop. *)
Definition poll_running : M unit :=
  g <- get ;;
  match _context g with
  | None =>
      out <- getParameters (_params g) (_rx g) (_ry g) ;;
      g1 <- get ;;
      put (set_parameters (out_params out) (out_rx out) (out_ry out) g1) ;;
      if negb (out_ok out) then
        logError "Error getting the parameters from server\n" []
      else
        g2 <- get ;;
        let P := _params g2 in
        logInfo "Received parameters from server" [] ;;
        logInfo "GF(p) = %s" [ArgBig (ECDLPParams.p P) None] ;;
        logInfo "y^2 = x^3 + %sx + %s"
          [ArgBig (ECDLPParams.a P) None; ArgBig (ECDLPParams.b P) None] ;;
        logInfo "n = %s" [ArgBig (ECDLPParams.n P) None] ;;
        logInfo "G = [%s, %s]"
          [ArgBig (ECDLPParams.gx P) None; ArgBig (ECDLPParams.gy P) None] ;;
        logInfo "Q = [%s, %s]"
          [ArgBig (ECDLPParams.qx P) None; ArgBig (ECDLPParams.qy P) None] ;;
        logInfo "%d distinguished bits" [ArgInt (ECDLPParams.dBits P)] ;;
        ctx <- getNewContext (_params g2) (_rx g2) (_ry g2) NUM_R_POINTS ;;
        g3 <- get ;;
        put (set_context (Some ctx) g3) ;;
        emit (EvContextInit ctx) ;;
        emit (EvThreadStart runningThread_entry)
  | Some ctx =>
      isRunning <- call (ECDLContext_isRunning ctx) (EvContextIsRunning ctx) ;;
      if negb isRunning then emit (EvThreadStart runningThread_entry)
      else ret tt
  end.

(** The [STOPPED] branch of the poll loop, up to its [break]. *)
Definition poll_stopped : M unit :=
  logInfo "Stopping" [] ;;
  g <- get ;;
  match _context g with
  | Some ctx => emit (EvContextStop ctx) ;; emit (EvContextDelete ctx)
  | None => ret tt
  end.

(** One turn of the loop of [pollConnections]. *)
Definition pollConnections_body : M LoopCtl :=
  logInfo "Connecting to server..." [] ;;
  g <- get ;;
  r <- call (ServerConnection_getStatus (_id g)) (EvGetStatus (_id g)) ;;
  match r with
  | inl s =>
      logInfo "Connection error: %s\n" [ArgStr s] ;;
      logInfo "Retrying in 60 seconds...\n" [] ;;
      sleep 60 ;;
      ret Continue
  | inr status =>
      logInfo "Status = %d\n" [ArgInt status] ;;
      if status =? SERVER_STATUS_RUNNING then
        poll_running ;;
        sleep 300 ;;
        ret Continue
      else if status =? SERVER_STATUS_STOPPED then
        poll_stopped ;;
        ret Break
      else
        sleep 300 ;;
        ret Continue
  end.

(** [pollConnections]: the main loop of the program. *)
Definition pollConnections (fuel : nat) : M LoopExit :=
  g <- get ;;
  put (set_running true g) ;;
  emit (EvThreadStart sendPointsThread_entry) ;;
  while_running fuel pollConnections_body.

(** ** Program entry *)

Definition enterEventLoop (fuel : nat) : M LoopExit :=
  g <- get ;;
  r <- call (ServerConnection_new (ClientConfig.serverHost (_config g))
               (ClientConfig.serverPort (_config g)))
         (EvNewServerConnection (ClientConfig.serverHost (_config g))
            (ClientConfig.serverPort (_config g))) ;;
  match r with
  | inl err =>
      logError "Error: %s" [ArgStr err] ;;
      ret NotEntered
  | inr conn =>
      g1 <- get ;;
      put (set_serverConnection (Some conn) g1) ;;
      pollConnections fuel
  end.

(** [cudaInit], of the CUDA build. *)
Definition cudaInit : M bool :=
  count <- call CUDA_getDeviceCount EvCudaGetDeviceCount ;;
  if count =? 0 then
    logError "No CUDA devices detected\n" [] ;;
    ret false
  else
    g <- get ;;
    let device := ClientConfig.device (_config g) in
    r <- call (CUDA_getDeviceInfo device) (EvCudaGetDeviceInfo device) ;;
    match r with
    | inl cudaError =>
        logError "Error getting info for device %d: %s\n"
          [ArgInt device; ArgStr cudaError] ;;
        ret false
    | inr devInfo =>
        logInfo "Device info:" [] ;;
        logInfo "Name:     %s" [ArgStr (DeviceInfo.name devInfo)] ;;
        logInfo "version:  %d.%d"
          [ArgInt (DeviceInfo.major devInfo);
           ArgInt (DeviceInfo.minor devInfo)] ;;
        logInfo "MP count: %d" [ArgInt (DeviceInfo.mpCount devInfo)] ;;
        logInfo "Cores:    %d"
          [ArgInt (DeviceInfo.mpCount devInfo * DeviceInfo.cores devInfo)] ;;
        logInfo "Memory:   %lldMB"
          [ArgInt (Z.quot (DeviceInfo.globalMemory devInfo) (Z.shiftl 2 19))] ;;
        logInfo "" [] ;;
        ret true
    end.

(** [main(argc, argv)], with [argc] the length of [argv].  The value is the
    exit status, or [None] while the poll loop is still running. *)
Definition main (fuel : nat) (argv : list string) : M (option Z) :=
  let argc := Z.of_nat (List.length argv) in
  call util_getSystemTime EvSrand ;;
  r <- call (loadConfig "settings.json") (EvLoadConfig "settings.json") ;;
  match r with
  | inl err =>
      logError ("Error loading settings: " ++ err) [] ;;
      ret (Some 1)
  | inr cfg =>
      g <- get ;;
      put (set_config cfg g) ;;
      deviceOk <- match build with
                  | _CUDA => cudaInit
                  | _CPU => ret true
                  end ;;
      if negb deviceOk then ret (Some 1)
      else if (2 <=? argc) && String.eqb (nth 1 argv "") "-b" then
        emit EvDoBenchmark ;;
        ret (Some 0)
      else if argc <? 2 then
        logInfo "usage: [options] id\n" [] ;;
        ret (Some 0)
      else
        g1 <- get ;;
        put (set_id (nth 1 argv "") g1) ;;
        e <- enterEventLoop fuel ;;
        match e with
        | Unfinished => ret None
        | _ => ret (Some 0)
        end
  end.

(** ** The three activities, one atomic action at a time

    The engine's workers deliver candidates, the submission thread turns
    its loop, and the poll loop turns its own.  The cache is touched only
    between a grab and a release of [_pointsMutex], and the poll loop
    writes only the engine handle and, before the engine that calls back
    exists, the parameters and the two arrays; this is why an execution is
    taken here as a sequence of whole actions.  The statement-by-statement
    threads further down carry the lock itself. *)
Inductive Action : Type :=
| ActCallback (p : CallbackParameters.t)
| ActPump
| ActPoll.

Definition run_action (a : Action) : M LoopCtl :=
  match a with
  | ActCallback p => pointFoundCallback p ;; ret Continue
  | ActPump => sendPointsThread_body ;; ret Continue
  | ActPoll => pollConnections_body
  end.

(** Runs a schedule; the poll loop's [break] ends the process. *)
Fixpoint run_schedule (s : list Action) : M LoopCtl :=
  match s with
  | [] => ret Continue
  | a :: s' =>
      c <- run_action a ;;
      match c with
      | Break => ret Break
      | Continue => run_schedule s'
      end
  end.

(** ** The lock, one statement at a time

    The submission thread and the engine's workers as threads that take
    one statement of main.cpp per move.  [_pointsMutex] is free or held by
    one thread; a grab of a held mutex blocks, which here is a move that is
    not enabled.  The poll loop has no part in it: it touches neither the
    mutex nor the cache. *)
Inductive Owner : Type := Free | HeldByPump | HeldByWorker (i : nat).

(** The statement of [sendPointsThread] the submission thread is about to
    execute.  [held] is the cache as it was when the thread grabbed the
    mutex, [points] the snapshot it copied. *)
Inductive PumpPc : Type :=
| PumpHead      (* while(_running) *)
| PumpGrab      (* _pointsMutex.grab() *)
| PumpTest (held : list DistinguishedPoint.t)
                (* if(_pointsCache.size() >= _config.pointCacheSize), copy *)
| PumpSubmit (held points : list DistinguishedPoint.t)
                (* _serverConnection->submitPoints(_id, points) *)
| PumpAfter (held points : list DistinguishedPoint.t) (success : bool)
                (* if(success) _pointsCache.clear() *)
| PumpRelease   (* _pointsMutex.release() *)
| PumpSleep     (* sleep(30) *)
| PumpReturned. (* return NULL *)

(** The statement of [addPointToCache] a worker is about to execute;
    [WorkerIdle] is a worker outside the callback. *)
Inductive WorkerPc : Type :=
| WorkerIdle
| WorkerGrab (p : DistinguishedPoint.t)
                (* _pointsMutex.grab() *)
| WorkerPush (p : DistinguishedPoint.t) (held : list DistinguishedPoint.t)
                (* _pointsCache.push_back(p) *)
| WorkerRelease (p : DistinguishedPoint.t) (held : list DistinguishedPoint.t).
                (* _pointsMutex.release() *)

Record Threads : Type := mkThreads {
  shared : Globals;
  mutex : Owner;
  pump : PumpPc;
  workers : nat -> WorkerPc
}.

(** A move: the submission thread takes its next statement (the reply is
    what the server answers if that statement is the call), the engine calls
    the callback on worker [i], or worker [i] takes its next statement. *)
Inductive Move : Type :=
| MovePump (reply : Thrown unit)
| MoveCallback (i : nat) (p : CallbackParameters.t)
| MoveWorker (i : nat).

Definition set_worker (i : nat) (pc : WorkerPc) (ws : nat -> WorkerPc)
  : nat -> WorkerPc :=
  fun j => if Nat.eqb j i then pc else ws j.

Definition is_free (o : Owner) : bool :=
  match o with Free => true | _ => false end.

Definition step_pump (reply : Thrown unit) (t : Threads) : option Threads :=
  let g := shared t in
  match pump t with
  | PumpHead =>
      if _running g then Some (mkThreads g (mutex t) PumpGrab (workers t))
      else Some (mkThreads g (mutex t) PumpReturned (workers t))
  | PumpGrab =>
      if is_free (mutex t) then
        Some (mkThreads g HeldByPump (PumpTest (_pointsCache g)) (workers t))
      else None
  | PumpTest held =>
      if (ClientConfig.pointCacheSize (_config g)
            <=? N.of_nat (List.length (_pointsCache g)))%N then
        let points :=
          copy_points (List.length (_pointsCache g)) 0 (_pointsCache g) [] in
        Some (mkThreads g (mutex t) (PumpSubmit held points) (workers t))
      else Some (mkThreads g (mutex t) PumpRelease (workers t))
  | PumpSubmit held points =>
      let success := match reply with inr _ => true | inl _ => false end in
      Some (mkThreads g (mutex t) (PumpAfter held points success) (workers t))
  | PumpAfter held points success =>
      if success then
        Some (mkThreads (set_pointsCache [] g) (mutex t) PumpRelease
                (workers t))
      else Some (mkThreads g (mutex t) PumpRelease (workers t))
  | PumpRelease => Some (mkThreads g Free PumpSleep (workers t))
  | PumpSleep => Some (mkThreads g (mutex t) PumpHead (workers t))
  | PumpReturned => None
  end.

Definition step_callback (i : nat) (p : CallbackParameters.t) (t : Threads)
  : option Threads :=
  let g := shared t in
  match workers t i with
  | WorkerIdle =>
      let valid :=
        ECCurve_pointExists (curve_of (_params g))
          (ECPoint.mk (CallbackParameters.x p) (CallbackParameters.y p)) in
      if negb valid then Some t
      else
        let d :=
          DistinguishedPoint.mk (CallbackParameters.aStart p)
            (CallbackParameters.bStart p) (CallbackParameters.x p)
            (CallbackParameters.y p) (CallbackParameters.length p) in
        Some (mkThreads g (mutex t) (pump t)
                (set_worker i (WorkerGrab d) (workers t)))
  | _ => None
  end.

Definition step_worker (i : nat) (t : Threads) : option Threads :=
  let g := shared t in
  match workers t i with
  | WorkerIdle => None
  | WorkerGrab p =>
      if is_free (mutex t) then
        Some (mkThreads g (HeldByWorker i) (pump t)
                (set_worker i (WorkerPush p (_pointsCache g)) (workers t)))
      else None
  | WorkerPush p held =>
      Some (mkThreads (set_pointsCache (_pointsCache g ++ [p]) g) (mutex t)
              (pump t) (set_worker i (WorkerRelease p held) (workers t)))
  | WorkerRelease p held =>
      Some (mkThreads g Free (pump t) (set_worker i WorkerIdle (workers t)))
  end.

Definition step (m : Move) (t : Threads) : option Threads :=
  match m with
  | MovePump reply => step_pump reply t
  | MoveCallback i p => step_callback i p t
  | MoveWorker i => step_worker i t
  end.

Fixpoint run_moves (ms : list Move) (t : Threads) : option Threads :=
  match ms with
  | [] => Some t
  | m :: ms' =>
      match step m t with
      | Some t' => run_moves ms' t'
      | None => None
      end
  end.

(** All threads at rest and the mutex free. *)
Definition initial_threads (g : Globals) : Threads :=
  mkThreads g Free PumpHead (fun _ => WorkerIdle).

(** ** Vocabulary of the properties *)

(** The point the callback builds from a candidate. *)
Definition point_of (p : CallbackParameters.t) : DistinguishedPoint.t :=
  DistinguishedPoint.mk (CallbackParameters.aStart p)
    (CallbackParameters.bStart p) (CallbackParameters.x p)
    (CallbackParameters.y p) (CallbackParameters.length p).

(** The answer of the curve-membership check on a candidate. *)
Definition candidate_valid (g : Globals) (p : CallbackParameters.t) : bool :=
  ECCurve_pointExists (curve_of (_params g))
    (ECPoint.mk (CallbackParameters.x p) (CallbackParameters.y p)).

(** The threshold test at the head of a turn. *)
Definition threshold_met (g : Globals) : bool :=
  (ClientConfig.pointCacheSize (_config g)
     <=? N.of_nat (List.length (_pointsCache g)))%N.

(** The three ways a turn of the submission thread can go. *)
Inductive PumpTurn (g : Globals) (w : W) : Result unit -> Prop :=
| TurnBelow :
    threshold_met g = false ->
    PumpTurn g w (mkResult tt g w [EvMutexGrab; EvMutexRelease; EvSleep 30])
| TurnSent (u : unit) (w' : W) :
    threshold_met g = true ->
    ServerConnection_submitPoints (_id g) (_pointsCache g) w = (inr u, w') ->
    PumpTurn g w
      (mkResult tt (set_pointsCache [] g) w'
         [EvMutexGrab;
          EvLogInfo "Sending %d points to server"
            [ArgInt (Z.of_nat (List.length (_pointsCache g)))];
          EvLogInfo "Sending to server\n" [];
          EvSubmitPoints (_id g) (_pointsCache g) (inr u);
          EvMutexRelease; EvSleep 30])
| TurnFailed (err : string) (w' : W) :
    threshold_met g = true ->
    ServerConnection_submitPoints (_id g) (_pointsCache g) w = (inl err, w') ->
    PumpTurn g w
      (mkResult tt g w'
         [EvMutexGrab;
          EvLogInfo "Sending %d points to server"
            [ArgInt (Z.of_nat (List.length (_pointsCache g)))];
          EvLogInfo "Sending to server\n" [];
          EvSubmitPoints (_id g) (_pointsCache g) (inl err);
          EvLogInfo
            "Error sending points to server: %s. Will try again later\n"
            [ArgStr err];
          EvMutexRelease; EvSleep 30]).


(** The parameters [getParameters] stores from a reply. *)
Definition params_of_msg (m : ParamsMsg.t) : ECDLPParams.t :=
  ECDLPParams.mk (ParamsMsg.p m) (ParamsMsg.n m) (ParamsMsg.a m)
    (ParamsMsg.b m) (ParamsMsg.gx m) (ParamsMsg.gy m) (ParamsMsg.qx m)
    (ParamsMsg.qy m) (ParamsMsg.dBits m).

(** The globals once a reply of [getParameters] is stored. *)
Definition store_msg (m : ParamsMsg.t) (g : Globals) : Globals :=
  set_parameters (params_of_msg m)
    (fst (copy_R_points 32 0 m (_rx g) (_ry g)))
    (snd (copy_R_points 32 0 m (_rx g) (_ry g))) g.

(** The engine [getNewContext] builds from the globals, and what it logs. *)
Definition built_context (g : Globals) : ECDLContext :=
  match build with
  | _CUDA =>
      ECDLCudaContext (ClientConfig.device (_config g))
        (ClientConfig.blocks (_config g)) (ClientConfig.threads (_config g))
        (ClientConfig.pointsPerThread (_config g)) (_params g) (_rx g) (_ry g)
        NUM_R_POINTS
  | _CPU =>
      ECDLCpuContext (ClientConfig.threads (_config g))
        (ClientConfig.pointsPerThread (_config g)) (_params g) (_rx g) (_ry g)
        NUM_R_POINTS
  end.

Definition built_context_log : list Event :=
  match build with
  | _CUDA => [EvLogInfo "Creating CUDA context..." []]
  | _CPU => []
  end.

(** The log lines that print the parameters received. *)
Definition parameters_log (P : ECDLPParams.t) : list Event :=
  [EvLogInfo "Received parameters from server" [];
   EvLogInfo "GF(p) = %s" [ArgBig (ECDLPParams.p P) None];
   EvLogInfo "y^2 = x^3 + %sx + %s"
     [ArgBig (ECDLPParams.a P) None; ArgBig (ECDLPParams.b P) None];
   EvLogInfo "n = %s" [ArgBig (ECDLPParams.n P) None];
   EvLogInfo "G = [%s, %s]"
     [ArgBig (ECDLPParams.gx P) None; ArgBig (ECDLPParams.gy P) None];
   EvLogInfo "Q = [%s, %s]"
     [ArgBig (ECDLPParams.qx P) None; ArgBig (ECDLPParams.qy P) None];
   EvLogInfo "%d distinguished bits" [ArgInt (ECDLPParams.dBits P)]].

(** How many events of a trace satisfy a test, and the tests used. *)
Definition count_events (f : Event -> bool) (evs : list Event) : nat :=
  List.length (filter f evs).

Definition is_new_context (e : Event) : bool :=
  match e with EvNewContext _ => true | _ => false end.
Definition is_init (e : Event) : bool :=
  match e with EvContextInit _ => true | _ => false end.
Definition is_run_launch (e : Event) : bool :=
  match e with EvThreadStart runningThread_entry => true | _ => false end.
Definition is_stop (e : Event) : bool :=
  match e with EvContextStop _ => true | _ => false end.
Definition is_fetch (e : Event) : bool :=
  match e with EvGetParameters _ _ => true | _ => false end.
Definition is_fetched (e : Event) : bool :=
  match e with EvGetParameters _ (inr _) => true | _ => false end.
Definition is_submit (e : Event) : bool :=
  match e with EvSubmitPoints _ _ _ => true | _ => false end.

(** Calls that reach the server. *)
Definition is_server_call (e : Event) : bool :=
  match e with
  | EvGetStatus _ _ | EvGetParameters _ _ | EvSubmitPoints _ _ _
  | EvNewServerConnection _ _ _ => true
  | _ => false
  end.

(** Actions on the engine: creating, initialising, launching, stopping or
    deleting it. *)
Definition is_engine_action (e : Event) : bool :=
  match e with
  | EvNewContext _ | EvContextInit _ | EvContextStop _ | EvContextDelete _
  | EvThreadStart runningThread_entry => true
  | _ => false
  end.


(** A result with more events in front: a loop's turn followed by the
    turns after it. *)
Definition after_events {A : Type} (evs : list Event) (r : Result A)
  : Result A :=
  mkResult (value r) (globals r) (world r) (evs ++ events r).


(** What holds while the threads move: the thread that stands between its
    grab and its release is the owner of the mutex, and the cache is what
    it was when that thread grabbed the mutex, plus the point a worker has
    pushed since. *)
Definition pump_inv (t : Threads) : Prop :=
  match pump t with
  | PumpTest held =>
      mutex t = HeldByPump /\ _pointsCache (shared t) = held
  | PumpSubmit held points =>
      mutex t = HeldByPump /\ _pointsCache (shared t) = held /\ points = held
  | PumpAfter held points _ =>
      mutex t = HeldByPump /\ _pointsCache (shared t) = held /\ points = held
  | PumpRelease => mutex t = HeldByPump
  | PumpHead | PumpGrab | PumpSleep | PumpReturned => mutex t <> HeldByPump
  end.

Definition worker_inv (t : Threads) (i : nat) : Prop :=
  match workers t i with
  | WorkerPush p held =>
      mutex t = HeldByWorker i /\ _pointsCache (shared t) = held
  | WorkerRelease p held =>
      mutex t = HeldByWorker i /\ _pointsCache (shared t) = held ++ [p]
  | WorkerIdle | WorkerGrab _ => mutex t <> HeldByWorker i
  end.

Definition lock_inv (t : Threads) : Prop :=
  pump_inv t /\ forall i : nat, worker_inv t i.


(** Is the action a turn of the submission thread? *)
Definition is_pump (a : Action) : bool :=
  match a with ActPump => true | _ => false end.

(** A submission carries at least [n] points. *)
Definition submits_at_least (n : N) (e : Event) : Prop :=
  match e with
  | EvSubmitPoints _ points _ => (n <= N.of_nat (List.length points))%N
  | _ => True
  end.


(** The device check of [main]: [cudaInit] on the CUDA build, nothing on
    the CPU build. *)
Definition device_check : M bool :=
  match build with
  | _CUDA => cudaInit
  | _CPU => ret true
  end.

Definition is_thread_start (e : Event) : bool :=
  match e with EvThreadStart _ => true | _ => false end.
Definition is_benchmark (e : Event) : bool :=
  match e with EvDoBenchmark => true | _ => false end.


Definition is_pump_sleep (e : Event) : bool :=
  match e with EvSleep 30 => true | _ => false end.
Definition is_usage (e : Event) : bool :=
  match e with
  | EvLogInfo fmt [] => String.eqb fmt "usage: [options] id\n"
  | _ => false
  end.


(** ** Vocabulary of the further properties *)

Definition is_status_poll (e : Event) : bool :=
  match e with EvGetStatus _ _ => true | _ => false end.
Definition is_sleep (e : Event) : bool :=
  match e with EvSleep _ => true | _ => false end.
Definition is_delete (e : Event) : bool :=
  match e with EvContextDelete _ => true | _ => false end.
Definition is_pump_start (e : Event) : bool :=
  match e with EvThreadStart sendPointsThread_entry => true | _ => false end.

(** The engine answered that it is not running. *)
Definition is_dead_reply (e : Event) : bool :=
  match e with EvContextIsRunning _ false => true | _ => false end.

(** A call that names a problem names [id]. *)
Definition uses_id (id : string) (e : Event) : Prop :=
  match e with
  | EvGetStatus i _ | EvGetParameters i _ | EvSubmitPoints i _ _ => i = id
  | _ => True
  end.


(** The points of the submissions the server accepted, in order. *)
Definition sent_ok (evs : list Event) : list DistinguishedPoint.t :=
  flat_map
    (fun e =>
       match e with
       | EvSubmitPoints _ points (inr _) => points
       | _ => []
       end)
    evs.

(** The points of the candidates of a schedule that are on the curve of
    the parameters of [g], in order of delivery. *)
Definition accepted (g : Globals) (s : list Action)
  : list DistinguishedPoint.t :=
  flat_map
    (fun a =>
       match a with
       | ActCallback p => if candidate_valid g p then [point_of p] else []
       | _ => []
       end)
    s.

Definition is_poll (a : Action) : bool :=
  match a with ActPoll => true | _ => false end.

(** A thread stands between its grab and its release. *)
Definition pump_in_section (pc : PumpPc) : bool :=
  match pc with
  | PumpTest _ | PumpSubmit _ _ | PumpAfter _ _ _ | PumpRelease => true
  | _ => false
  end.
Definition worker_in_section (pc : WorkerPc) : bool :=
  match pc with
  | WorkerPush _ _ | WorkerRelease _ _ => true
  | _ => false
  end.

(** The moves of one thread: the submission thread, or worker [i]. *)
Definition move_of_owner (o : Owner) (m : Move) : Prop :=
  match o, m with
  | HeldByPump, MovePump _ => True
  | HeldByWorker i, MoveWorker j => i = j
  | _, _ => False
  end.


Definition is_lock_action (e : Event) : bool :=
  match e with EvMutexGrab | EvMutexRelease => true | _ => false end.


(** [n] grabs of the mutex, each followed by its release. *)
Definition lock_pairs (n : nat) : list Event :=
  List.concat (repeat [EvMutexGrab; EvMutexRelease] n).

End Machine.

Arguments mkResult {W A}.
Arguments value {W A}.
Arguments globals {W A}.
Arguments world {W A}.
Arguments events {W A}.

(** ** A scripted world

    A world in which every collaborator answers from a script, to run the
    client on concrete inputs.  The status codes 0 and 1 and the curve
    equation are sample values of what the headers and the curve library
    provide. *)
Module Script.

Record World : Type := mk {
  statusReplies : list (Thrown Z);
  parametersReplies : list (Thrown ParamsMsg.t);
  submitReplies : list (Thrown unit);
  isRunningReplies : list bool;
  connectionReply : Thrown ServerConnection.t;
  configReply : Thrown ClientConfig.t;
  deviceCount : Z;
  deviceInfoReply : Thrown DeviceInfo.t;
  systemTime : Z
}.

Definition next {A : Type} (d : A) (l : list A) : A * list A :=
  match l with
  | [] => (d, [])
  | h :: t => (h, t)
  end.

Definition getStatus (id : string) (w : World) : Thrown Z * World :=
  let '(r, rest) := next (inl "timeout") (statusReplies w) in
  (r, mk rest (parametersReplies w) (submitReplies w) (isRunningReplies w)
        (connectionReply w) (configReply w) (deviceCount w)
        (deviceInfoReply w) (systemTime w)).

Definition getParameters (id : string) (w : World)
  : Thrown ParamsMsg.t * World :=
  let '(r, rest) := next (inl "timeout") (parametersReplies w) in
  (r, mk (statusReplies w) rest (submitReplies w) (isRunningReplies w)
        (connectionReply w) (configReply w) (deviceCount w)
        (deviceInfoReply w) (systemTime w)).

Definition submitPoints (id : string) (points : list DistinguishedPoint.t)
  (w : World) : Thrown unit * World :=
  let '(r, rest) := next (inl "timeout") (submitReplies w) in
  (r, mk (statusReplies w) (parametersReplies w) rest (isRunningReplies w)
        (connectionReply w) (configReply w) (deviceCount w)
        (deviceInfoReply w) (systemTime w)).

Definition isRunning (ctx : ECDLContext) (w : World) : bool * World :=
  let '(r, rest) := next false (isRunningReplies w) in
  (r, mk (statusReplies w) (parametersReplies w) (submitReplies w) rest
        (connectionReply w) (configReply w) (deviceCount w)
        (deviceInfoReply w) (systemTime w)).

(** y^2 = x^3 + ax + b over GF(p). *)
Definition pointExists (c : ECCurve.t) (pt : ECPoint.t) : bool :=
  let x := ECPoint.x pt in
  let y := ECPoint.y pt in
  ((y * y - (x * x * x + ECCurve.a c * x + ECCurve.b c)) mod ECCurve.p c =? 0).

(** The status codes of this world, and a status that is neither. *)
Definition RUNNING : Z := 0.
Definition STOPPED : Z := 1.
Definition PAUSED : Z := 7.

Definition status_codes_distinct : RUNNING <> STOPPED :=
  fun H : 0 = 1 =>
    match H in _ = z return match z with 0 => True | _ => False end with
    | eq_refl => I
    end.

#[local] Instance scripted : External World := {|
  SERVER_STATUS_RUNNING := RUNNING;
  SERVER_STATUS_STOPPED := STOPPED;
  SERVER_STATUS_distinct := status_codes_distinct;
  ServerConnection_new := fun _ _ w => (connectionReply w, w);
  ServerConnection_getStatus := getStatus;
  ServerConnection_getParameters := getParameters;
  ServerConnection_submitPoints := submitPoints;
  ECCurve_pointExists := pointExists;
  ECDLContext_isRunning := isRunning;
  loadConfig := fun _ w => (configReply w, w);
  util_getSystemTime := fun w => (systemTime w, w);
  CUDA_getDeviceCount := fun w => (deviceCount w, w);
  CUDA_getDeviceInfo := fun _ w => (deviceInfoReply w, w)
|}.

(** Sample parameters: the curve y^2 = x^3 + 2x + 3 over GF(97). *)
Definition params97 : ECDLPParams.t := ECDLPParams.mk 97 100 2 3 3 6 80 10 4.

Definition config5 : ClientConfig.t :=
  ClientConfig.mk 0 1 2 16 "localhost" 9999 5%N.

Definition quiet : World :=
  mk [] [] [] [] (inr (ServerConnection.mk "localhost" 9999)) (inr config5)
     1 (inl "no device") 0.

(** Globals of a client that has fetched [params97] under threshold 5. *)
Definition globals97 (cache : list DistinguishedPoint.t) : Globals :=
  {| _context := None;
     _rx := repeat 0 32;
     _ry := repeat 0 32;
     _params := params97;
     _id := "ecp97";
     _serverConnection := Some (ServerConnection.mk "localhost" 9999);
     _config := config5;
     _pointsCache := cache;
     _running := true;
     _ecdlThread := None |}.

(** (3, 6) is on the curve, (3, 7) is not. *)
Definition good_candidate : CallbackParameters.t :=
  CallbackParameters.mk 1 0 3 6 17.
Definition bad_candidate : CallbackParameters.t :=
  CallbackParameters.mk 1 0 3 7 17.

(** Five candidates on the curve, and the points they become. *)
Definition candidates : list CallbackParameters.t :=
  [CallbackParameters.mk 5 1 0 10 12;
   CallbackParameters.mk 2 8 1 43 31;
   CallbackParameters.mk 1 0 3 6 17;
   CallbackParameters.mk 9 4 4 47 20;
   CallbackParameters.mk 7 7 10 21 16].

Definition five_points : list DistinguishedPoint.t :=
  [DistinguishedPoint.mk 5 1 0 10 12;
   DistinguishedPoint.mk 2 8 1 43 31;
   DistinguishedPoint.mk 1 0 3 6 17;
   DistinguishedPoint.mk 9 4 4 47 20;
   DistinguishedPoint.mk 7 7 10 21 16].

(** Worlds whose server accepts, or refuses, the next submission. *)
Definition accepting : World :=
  mk [] [] [inr tt] [] (inr (ServerConnection.mk "localhost" 9999))
     (inr config5) 1 (inl "no device") 0.
Definition refusing : World :=
  mk [] [] [inl "refused"; inr tt] []
     (inr (ServerConnection.mk "localhost" 9999)) (inr config5) 1
     (inl "no device") 0.

(** A reply to [getParameters] that carries [params97]. *)
Definition msg97 : ParamsMsg.t :=
  ParamsMsg.mk 97 100 2 3 3 6 80 10 4 (map Z.of_nat (seq 1 32))
    (map Z.of_nat (seq 33 32)).

(** Worlds whose server answers the status polls with the given replies. *)
Definition polls (statuses : list (Thrown Z))
  (parameters : list (Thrown ParamsMsg.t)) (alive : list bool) : World :=
  mk statuses parameters [] alive
     (inr (ServerConnection.mk "localhost" 9999)) (inr config5) 1
     (inl "no device") 0.

(** The worlds of the runs below: every script spent; a server that
    reports RUNNING and hands out the parameters, before and after the
    status call; one that reports RUNNING to a client whose engine is
    alive; one that reports STOPPED; one that reports a third status; one
    whose first fetch fails; one that cannot be reached at first; a whole
    session; and a session in which every fetch fails. *)
Definition spent : World := polls [] [] [].
Definition launch : World := polls [inr RUNNING] [inr msg97] [].
Definition launch_polled : World := polls [] [inr msg97] [].
Definition alive : World := polls [inr RUNNING] [] [true].
Definition alive_polled : World := polls [] [] [true].
Definition stop : World := polls [inr STOPPED] [] [].
Definition paused : World := polls [inr PAUSED] [] [].
Definition busy : World :=
  polls [inr RUNNING; inr RUNNING] [inl "busy"; inr msg97] [].
Definition busy_polled : World :=
  polls [inr RUNNING] [inl "busy"; inr msg97] [].
Definition unreachable : World :=
  polls [inl "connection refused"; inr RUNNING] [] [true].
Definition session : World :=
  polls [inr RUNNING; inr RUNNING; inr STOPPED] [inr msg97] [true].
Definition always_busy : World :=
  polls [inr RUNNING; inr RUNNING; inr STOPPED] [inl "busy"; inl "busy"] [].

(** An engine of the CPU build, and the globals of a client that runs it. *)
Definition engine97 : ECDLContext :=
  ECDLCpuContext 2 16 params97 (repeat 0 32) (repeat 0 32) 32.

Definition globals97_engine : Globals :=
  {| _context := Some engine97;
     _rx := repeat 0 32;
     _ry := repeat 0 32;
     _params := params97;
     _id := "ecp97";
     _serverConnection := Some (ServerConnection.mk "localhost" 9999);
     _config := config5;
     _pointsCache := [];
     _running := true;
     _ecdlThread := None |}.

(** A world whose configuration file cannot be loaded, and one with a
    configuration but no CUDA device. *)
Definition no_settings : World :=
  mk [] [] [] [] (inr (ServerConnection.mk "localhost" 9999))
     (inl "cannot open settings.json") 1 (inl "no device") 0.
Definition no_device : World :=
  mk [] [] [] [] (inr (ServerConnection.mk "localhost" 9999))
     (inr config5) 0 (inl "no device") 0.


(** Further worlds and globals: a server that reports RUNNING to a client
    whose engine is not running, a server that cannot be connected to, and
    a client configured with a threshold of 0. *)
Definition dead : World := polls [inr RUNNING] [] [false].
Definition dead_polled : World := polls [] [] [false].
Definition unconnected : World :=
  mk [] [] [] [] (inl "connection refused") (inr config5) 1
     (inl "no device") 0.

Definition config0 : ClientConfig.t :=
  ClientConfig.mk 0 1 2 16 "localhost" 9999 0%N.

Definition globals_zero : Globals :=
  {| _context := None;
     _rx := repeat 0 32;
     _ry := repeat 0 32;
     _params := params97;
     _id := "ecp97";
     _serverConnection := Some (ServerConnection.mk "localhost" 9999);
     _config := config0;
     _pointsCache := [];
     _running := true;
     _ecdlThread := None |}.

End Script.

(** * Properties *)

Section Properties.

Context {W : Type} `{Ext : External W}.
Variable build : Build.

#[local] Arguments verifyPoint : simpl never.
#[local] Arguments addPointToCache : simpl never.
#[local] Arguments pointFoundCallback : simpl never.
#[local] Arguments copy_R_points : simpl never.
#[local] Arguments getParameters : simpl never.
#[local] Arguments getNewContext : simpl never.
#[local] Arguments sendPointsThread_body : simpl never.
#[local] Arguments poll_running : simpl never.
#[local] Arguments poll_stopped : simpl never.
#[local] Arguments pollConnections_body : simpl never.
#[local] Arguments while_running : simpl never.
#[local] Arguments pollConnections : simpl never.
#[local] Arguments enterEventLoop : simpl never.
#[local] Arguments cudaInit : simpl never.

(** Unfolds the monad down to records. *)
Ltac run_monad :=
  unfold bind, ret, get, put, emit, call, logInfo, logError, sleep; cbn.

(** ** The verifier callback *)

Lemma verifyPoint_run (x y : BigInteger) (g : Globals) (w : W) :
  verifyPoint x y g w
  = mkResult (ECCurve_pointExists (curve_of (_params g)) (ECPoint.mk x y))
      g w [].
Proof. reflexivity. Qed.

Lemma pointFoundCallback_invalid (p : CallbackParameters.t) (g : Globals)
  (w : W) :
  candidate_valid g p = false ->
  pointFoundCallback p g w
  = mkResult tt g w
      [EvLogInfo "INVALID POINT\n" [];
       EvLogInfo "a: %s" [ArgBig (CallbackParameters.aStart p) (Some 16)];
       EvLogInfo "b: %s" [ArgBig (CallbackParameters.bStart p) (Some 16)];
       EvLogInfo "x: %s" [ArgBig (CallbackParameters.x p) (Some 16)];
       EvLogInfo "y: %s" [ArgBig (CallbackParameters.y p) (Some 16)];
       EvLogInfo "length: %d" [ArgInt (CallbackParameters.length p)]].
Proof.
  unfold candidate_valid, pointFoundCallback, verifyPoint. intros Hv.
  run_monad. rewrite Hv. reflexivity.
Qed.

Lemma pointFoundCallback_valid (p : CallbackParameters.t) (g : Globals)
  (w : W) :
  candidate_valid g p = true ->
  pointFoundCallback p g w
  = mkResult tt (set_pointsCache (_pointsCache g ++ [point_of p]) g) w
      [EvMutexGrab; EvMutexRelease].
Proof.
  unfold candidate_valid, pointFoundCallback, verifyPoint. intros Hv.
  run_monad. rewrite Hv. reflexivity.
Qed.

(** ** The submission thread *)

Lemma copy_points_from (cache : list DistinguishedPoint.t) :
  forall (count i : nat) (points : list DistinguishedPoint.t),
    (i + count = List.length cache)%nat ->
    copy_points count i cache points = points ++ skipn i cache.
Proof.
  induction count as [|k IH]; intros i points Hlen; cbn.
  - rewrite skipn_all2 by lia. now rewrite app_nil_r.
  - destruct (nth_error cache i) as [d|] eqn:Hd.
    + rewrite IH by lia. rewrite <- app_assoc. f_equal. cbn.
      clear IH Hlen. revert i Hd.
      induction cache as [|c cache IHc]; intros [|i] Hd; cbn in *;
        try discriminate.
      * now inversion Hd.
      * now apply IHc.
    + apply nth_error_None in Hd. lia.
Qed.

(** The snapshot loop copies the whole cache, in order. *)
Lemma copy_points_all (cache : list DistinguishedPoint.t) :
  copy_points (List.length cache) 0 cache [] = cache.
Proof. now rewrite copy_points_from. Qed.

Lemma sendPointsThread_body_below (g : Globals) (w : W) :
  threshold_met g = false ->
  sendPointsThread_body g w
  = mkResult tt g w [EvMutexGrab; EvMutexRelease; EvSleep 30].
Proof.
  unfold threshold_met, sendPointsThread_body. intros Ht.
  run_monad. rewrite Ht. reflexivity.
Qed.

Lemma sendPointsThread_body_sent (g : Globals) (w w' : W) (u : unit) :
  threshold_met g = true ->
  ServerConnection_submitPoints (_id g) (_pointsCache g) w = (inr u, w') ->
  sendPointsThread_body g w
  = mkResult tt (set_pointsCache [] g) w'
      [EvMutexGrab;
       EvLogInfo "Sending %d points to server"
         [ArgInt (Z.of_nat (List.length (_pointsCache g)))];
       EvLogInfo "Sending to server\n" [];
       EvSubmitPoints (_id g) (_pointsCache g) (inr u);
       EvMutexRelease; EvSleep 30].
Proof.
  unfold threshold_met, sendPointsThread_body. intros Ht Hs.
  run_monad. rewrite Ht, copy_points_all, Hs. reflexivity.
Qed.

Lemma sendPointsThread_body_failed (g : Globals) (w w' : W) (err : string) :
  threshold_met g = true ->
  ServerConnection_submitPoints (_id g) (_pointsCache g) w = (inl err, w') ->
  sendPointsThread_body g w
  = mkResult tt g w'
      [EvMutexGrab;
       EvLogInfo "Sending %d points to server"
         [ArgInt (Z.of_nat (List.length (_pointsCache g)))];
       EvLogInfo "Sending to server\n" [];
       EvSubmitPoints (_id g) (_pointsCache g) (inl err);
       EvLogInfo "Error sending points to server: %s. Will try again later\n"
         [ArgStr err];
       EvMutexRelease; EvSleep 30].
Proof.
  unfold threshold_met, sendPointsThread_body. intros Ht Hs.
  run_monad. rewrite Ht, copy_points_all, Hs. reflexivity.
Qed.

Lemma sendPointsThread_body_turn (g : Globals) (w : W) :
  PumpTurn g w (sendPointsThread_body g w).
Proof.
  destruct (threshold_met g) eqn:Ht.
  - destruct (ServerConnection_submitPoints (_id g) (_pointsCache g) w)
      as [[err|u] w'] eqn:Hs.
    + rewrite (sendPointsThread_body_failed g w w' err Ht Hs).
      now apply TurnFailed.
    + rewrite (sendPointsThread_body_sent g w w' u Ht Hs).
      now apply TurnSent.
  - rewrite (sendPointsThread_body_below g w Ht). now apply TurnBelow.
Qed.


(** ** The poll loop *)

Lemma set_parameters_same (g : Globals) :
  set_parameters (_params g) (_rx g) (_ry g) g = g.
Proof. now destruct g. Qed.

Lemma getParameters_failed (params : ECDLPParams.t) (rx ry : list BigInteger)
  (g : Globals) (w w' : W) (e : string) :
  ServerConnection_getParameters (_id g) w = (inl e, w') ->
  getParameters params rx ry g w
  = mkResult (mkParametersOut false params rx ry) g w'
      [EvGetParameters (_id g) (inl e); EvLogInfo "Error: %s\n" [ArgStr e]].
Proof.
  unfold getParameters. intros Hp. run_monad. rewrite Hp. reflexivity.
Qed.

Lemma getParameters_fetched (params : ECDLPParams.t)
  (rx ry : list BigInteger) (g : Globals) (w w' : W) (m : ParamsMsg.t) :
  ServerConnection_getParameters (_id g) w = (inr m, w') ->
  getParameters params rx ry g w
  = mkResult
      (mkParametersOut true (params_of_msg m)
         (fst (copy_R_points 32 0 m rx ry)) (snd (copy_R_points 32 0 m rx ry)))
      g w' [EvGetParameters (_id g) (inr m)].
Proof.
  unfold getParameters. intros Hp. run_monad. rewrite Hp.
  destruct (copy_R_points 32 0 m rx ry) as [rx' ry']. reflexivity.
Qed.

Lemma getNewContext_run (g : Globals) (w : W) :
  getNewContext build (_params g) (_rx g) (_ry g) NUM_R_POINTS g w
  = mkResult (built_context build g) g w
      (built_context_log build ++ [EvNewContext (built_context build g)]).
Proof.
  unfold getNewContext, built_context, built_context_log.
  destruct build; reflexivity.
Qed.


(** The events that open every turn of the poll loop whose status call
    returned. *)
Lemma poll_failed (g : Globals) (w w1 : W) (s : string) :
  ServerConnection_getStatus (_id g) w = (inl s, w1) ->
  pollConnections_body build g w
  = mkResult Continue g w1
      [EvLogInfo "Connecting to server..." [];
       EvGetStatus (_id g) (inl s);
       EvLogInfo "Connection error: %s\n" [ArgStr s];
       EvLogInfo "Retrying in 60 seconds...\n" [];
       EvSleep 60].
Proof.
  unfold pollConnections_body. intros Hs. run_monad. rewrite Hs.
  reflexivity.
Qed.

Lemma poll_running_fetch_failed (g : Globals) (w w1 w2 : W) (e : string) :
  ServerConnection_getStatus (_id g) w = (inr SERVER_STATUS_RUNNING, w1) ->
  _context g = None ->
  ServerConnection_getParameters (_id g) w1 = (inl e, w2) ->
  pollConnections_body build g w
  = mkResult Continue g w2
      [EvLogInfo "Connecting to server..." [];
       EvGetStatus (_id g) (inr SERVER_STATUS_RUNNING);
       EvLogInfo "Status = %d\n" [ArgInt SERVER_STATUS_RUNNING];
       EvGetParameters (_id g) (inl e);
       EvLogInfo "Error: %s\n" [ArgStr e];
       EvLogError "Error getting the parameters from server\n" [];
       EvSleep 300].
Proof.
  unfold pollConnections_body, poll_running. intros Hs Hc Hp.
  run_monad. rewrite Hs. cbn. rewrite Z.eqb_refl. cbn. rewrite Hc.
  rewrite (getParameters_failed _ _ _ g w1 w2 e Hp). cbn.
  rewrite set_parameters_same. reflexivity.
Qed.

Lemma poll_running_fetched (g : Globals) (w w1 w2 : W) (m : ParamsMsg.t) :
  ServerConnection_getStatus (_id g) w = (inr SERVER_STATUS_RUNNING, w1) ->
  _context g = None ->
  ServerConnection_getParameters (_id g) w1 = (inr m, w2) ->
  pollConnections_body build g w
  = mkResult Continue
      (set_context (Some (built_context build (store_msg m g)))
         (store_msg m g))
      w2
      ([EvLogInfo "Connecting to server..." [];
        EvGetStatus (_id g) (inr SERVER_STATUS_RUNNING);
        EvLogInfo "Status = %d\n" [ArgInt SERVER_STATUS_RUNNING];
        EvGetParameters (_id g) (inr m)]
       ++ parameters_log (params_of_msg m)
       ++ built_context_log build
       ++ [EvNewContext (built_context build (store_msg m g));
           EvContextInit (built_context build (store_msg m g));
           EvThreadStart runningThread_entry;
           EvSleep 300]).
Proof.
  unfold pollConnections_body, poll_running. intros Hs Hc Hp.
  run_monad. rewrite Hs. cbn. rewrite Z.eqb_refl. cbn. rewrite Hc.
  rewrite (getParameters_fetched _ _ _ g w1 w2 m Hp). cbn.
  fold (store_msg m g).
  change (_params (store_msg m g)) with (params_of_msg m).
  pose proof (getNewContext_run (store_msg m g) w2) as Hn.
  cbn in Hn. rewrite Hn. cbn.
  unfold parameters_log. cbn. rewrite <- !app_assoc. reflexivity.
Qed.

Lemma poll_running_alive (g : Globals) (w w1 w2 : W) (ctx : ECDLContext) :
  ServerConnection_getStatus (_id g) w = (inr SERVER_STATUS_RUNNING, w1) ->
  _context g = Some ctx ->
  ECDLContext_isRunning ctx w1 = (true, w2) ->
  pollConnections_body build g w
  = mkResult Continue g w2
      [EvLogInfo "Connecting to server..." [];
       EvGetStatus (_id g) (inr SERVER_STATUS_RUNNING);
       EvLogInfo "Status = %d\n" [ArgInt SERVER_STATUS_RUNNING];
       EvContextIsRunning ctx true;
       EvSleep 300].
Proof.
  unfold pollConnections_body, poll_running. intros Hs Hc Hr.
  run_monad. rewrite Hs. cbn. rewrite Z.eqb_refl. cbn. rewrite Hc, Hr.
  reflexivity.
Qed.

Lemma poll_running_relaunch (g : Globals) (w w1 w2 : W) (ctx : ECDLContext) :
  ServerConnection_getStatus (_id g) w = (inr SERVER_STATUS_RUNNING, w1) ->
  _context g = Some ctx ->
  ECDLContext_isRunning ctx w1 = (false, w2) ->
  pollConnections_body build g w
  = mkResult Continue g w2
      [EvLogInfo "Connecting to server..." [];
       EvGetStatus (_id g) (inr SERVER_STATUS_RUNNING);
       EvLogInfo "Status = %d\n" [ArgInt SERVER_STATUS_RUNNING];
       EvContextIsRunning ctx false;
       EvThreadStart runningThread_entry;
       EvSleep 300].
Proof.
  unfold pollConnections_body, poll_running. intros Hs Hc Hr.
  run_monad. rewrite Hs. cbn. rewrite Z.eqb_refl. cbn. rewrite Hc, Hr.
  reflexivity.
Qed.

Lemma stopped_is_not_running :
  (SERVER_STATUS_STOPPED =? SERVER_STATUS_RUNNING) = false.
Proof.
  apply Z.eqb_neq. intros H. apply SERVER_STATUS_distinct. now symmetry.
Qed.

Lemma poll_stopped_engine (g : Globals) (w w1 : W) (ctx : ECDLContext) :
  ServerConnection_getStatus (_id g) w = (inr SERVER_STATUS_STOPPED, w1) ->
  _context g = Some ctx ->
  pollConnections_body build g w
  = mkResult Break g w1
      [EvLogInfo "Connecting to server..." [];
       EvGetStatus (_id g) (inr SERVER_STATUS_STOPPED);
       EvLogInfo "Status = %d\n" [ArgInt SERVER_STATUS_STOPPED];
       EvLogInfo "Stopping" [];
       EvContextStop ctx;
       EvContextDelete ctx].
Proof.
  unfold pollConnections_body, poll_stopped. intros Hs Hc.
  run_monad. rewrite Hs. cbn.
  rewrite stopped_is_not_running, Z.eqb_refl. cbn. rewrite Hc.
  reflexivity.
Qed.

Lemma poll_stopped_no_engine (g : Globals) (w w1 : W) :
  ServerConnection_getStatus (_id g) w = (inr SERVER_STATUS_STOPPED, w1) ->
  _context g = None ->
  pollConnections_body build g w
  = mkResult Break g w1
      [EvLogInfo "Connecting to server..." [];
       EvGetStatus (_id g) (inr SERVER_STATUS_STOPPED);
       EvLogInfo "Status = %d\n" [ArgInt SERVER_STATUS_STOPPED];
       EvLogInfo "Stopping" []].
Proof.
  unfold pollConnections_body, poll_stopped. intros Hs Hc.
  run_monad. rewrite Hs. cbn.
  rewrite stopped_is_not_running, Z.eqb_refl. cbn. rewrite Hc.
  reflexivity.
Qed.

Lemma poll_other (g : Globals) (w w1 : W) (status : Z) :
  ServerConnection_getStatus (_id g) w = (inr status, w1) ->
  status <> SERVER_STATUS_RUNNING ->
  status <> SERVER_STATUS_STOPPED ->
  pollConnections_body build g w
  = mkResult Continue g w1
      [EvLogInfo "Connecting to server..." [];
       EvGetStatus (_id g) (inr status);
       EvLogInfo "Status = %d\n" [ArgInt status];
       EvSleep 300].
Proof.
  unfold pollConnections_body. intros Hs Hr Hp.
  run_monad. rewrite Hs. cbn.
  apply Z.eqb_neq in Hr, Hp. rewrite Hr, Hp. reflexivity.
Qed.


(** Splits a turn of the poll loop into its eight ways and rewrites it. *)
Ltac poll_cases g w :=
  let s := fresh "s" in
  let status := fresh "status" in
  let w1 := fresh "w1" in
  let w2 := fresh "w2" in
  let Hs := fresh "Hs" in
  let Hc := fresh "Hc" in
  let Hr := fresh "Hr" in
  let Hp := fresh "Hp" in
  let Hnr := fresh "Hnr" in
  let Hns := fresh "Hns" in
  let ctx := fresh "ctx" in
  let e := fresh "e" in
  let m := fresh "m" in
  destruct (ServerConnection_getStatus (_id g) w) as [[s|status] w1] eqn:Hs;
  [ rewrite (poll_failed g w w1 s Hs)
  | destruct (Z.eq_dec status SERVER_STATUS_RUNNING) as [->|Hnr];
    [ destruct (_context g) as [ctx|] eqn:Hc;
      [ destruct (ECDLContext_isRunning ctx w1) as [[|] w2] eqn:Hr;
        [ rewrite (poll_running_alive g w w1 w2 ctx Hs Hc Hr)
        | rewrite (poll_running_relaunch g w w1 w2 ctx Hs Hc Hr) ]
      | destruct (ServerConnection_getParameters (_id g) w1)
          as [[e|m] w2] eqn:Hp;
        [ rewrite (poll_running_fetch_failed g w w1 w2 e Hs Hc Hp)
        | rewrite (poll_running_fetched g w w1 w2 m Hs Hc Hp) ] ]
    | destruct (Z.eq_dec status SERVER_STATUS_STOPPED) as [->|Hns];
      [ destruct (_context g) as [ctx|] eqn:Hc;
        [ rewrite (poll_stopped_engine g w w1 ctx Hs Hc)
        | rewrite (poll_stopped_no_engine g w w1 Hs Hc) ]
      | rewrite (poll_other g w w1 status Hs Hnr Hns) ] ] ].

Lemma count_events_app (f : Event -> bool) (a b : list Event) :
  count_events f (a ++ b) = (count_events f a + count_events f b)%nat.
Proof. unfold count_events. now rewrite filter_app, length_app. Qed.

Lemma count_fetched_le_fetch (evs : list Event) :
  (count_events is_fetched evs <= count_events is_fetch evs)%nat.
Proof.
  unfold count_events. induction evs as [|e evs IH]; cbn; [lia|].
  destruct e; cbn; try lia. destruct reply; cbn; lia.
Qed.

(** Evaluates event counts on the traces of the turns. *)
Ltac count_now :=
  repeat rewrite count_events_app;
  unfold parameters_log, count_events;
  try (progress unfold built_context_log; destruct build);
  cbn; try reflexivity; try lia.

(** A turn of the poll loop touches neither the cache nor the id, the
    configuration, the flag or the connection. *)
Lemma poll_frame (g : Globals) (w : W) :
  let r := pollConnections_body build g w in
  _pointsCache (globals r) = _pointsCache g
  /\ _id (globals r) = _id g
  /\ _config (globals r) = _config g
  /\ _running (globals r) = _running g
  /\ _serverConnection (globals r) = _serverConnection g
  /\ _ecdlThread (globals r) = _ecdlThread g.
Proof.
  cbn zeta. poll_cases g w; cbn; repeat split.
Qed.

(** What a turn of the poll loop does to the engine handle, with the
    number of fetches, engine creations, initialisations and stops. *)
Lemma poll_engine (g : Globals) (w : W) :
  let r := pollConnections_body build g w in
  let evs := events r in
  match _context g with
  | Some ctx =>
      _context (globals r) = Some ctx
      /\ count_events is_fetch evs = 0%nat
      /\ count_events is_new_context evs = 0%nat
      /\ count_events is_init evs = 0%nat
  | None =>
      (globals r = g
       /\ count_events is_fetched evs = 0%nat
       /\ count_events is_new_context evs = 0%nat
       /\ count_events is_init evs = 0%nat
       /\ count_events is_run_launch evs = 0%nat)
      \/ (_context (globals r) <> None
          /\ value r = Continue
          /\ count_events is_fetched evs = 1%nat
          /\ count_events is_new_context evs = 1%nat
          /\ count_events is_init evs = 1%nat
          /\ count_events is_run_launch evs = 1%nat)
  end
  /\ (count_events is_stop evs <= 1)%nat
  /\ (value r = Continue -> count_events is_stop evs = 0%nat).
Proof.
  cbn zeta. poll_cases g w; cbn [events globals value];
    try match goal with H : _context g = _ |- _ => rewrite ?H end;
    try match goal with
        | |- context [match _context g with _ => _ end] =>
            destruct (_context g)
        end;
    (split; [|split; [count_now | intros; try discriminate; count_now]]);
    solve [ repeat split; count_now
          | left; repeat split; count_now
          | right; repeat split; try discriminate; count_now ].
Qed.


(** ** Loops *)

Lemma while_running_flag (fuel : nat) (body : M LoopCtl) (g : Globals)
  (w : W) :
  _running g = false ->
  while_running (S fuel) body g w = mkResult ExitFlag g w [].
Proof.
  intros Hr. unfold while_running. run_monad. rewrite Hr. reflexivity.
Qed.

Lemma while_running_turn (fuel : nat) (body : M LoopCtl) (g : Globals)
  (w : W) :
  _running g = true ->
  while_running (S fuel) body g w
  = match value (body g w) with
    | Break =>
        mkResult ExitBreak (globals (body g w)) (world (body g w))
          (events (body g w))
    | Continue =>
        after_events (events (body g w))
          (while_running fuel body (globals (body g w)) (world (body g w)))
    end.
Proof.
  intros Hr. unfold after_events.
  change (while_running (S fuel) body g w)
    with (bind get
            (fun g0 =>
               if _running g0 then
                 bind body
                   (fun c =>
                      match c with
                      | Break => ret ExitBreak
                      | Continue => while_running fuel body
                      end)
               else ret ExitFlag) g w).
  run_monad. rewrite Hr. destruct (body g w) as [c g1 w1 e1]. cbn.
  destruct c.
  - now destruct (while_running fuel body g1 w1).
  - now rewrite app_nil_r.
Qed.

Lemma while_running_O (body : M LoopCtl) (g : Globals) (w : W) :
  while_running 0 body g w = mkResult Unfinished g w [].
Proof. reflexivity. Qed.

(** Over any number of turns the poll loop fetches the parameters with
    success, creates an engine and initialises it at most once, never
    when it starts with an engine, and stops an engine at most once. *)
Lemma poll_loop_counts (fuel : nat) :
  forall (g : Globals) (w : W),
    let evs := events (while_running fuel (pollConnections_body build) g w) in
    (_context g <> None ->
     count_events is_fetch evs = 0%nat
     /\ count_events is_new_context evs = 0%nat
     /\ count_events is_init evs = 0%nat)
    /\ (count_events is_fetched evs <= 1)%nat
    /\ (count_events is_new_context evs <= 1)%nat
    /\ (count_events is_init evs <= 1)%nat
    /\ (count_events is_stop evs <= 1)%nat.
Proof.
  induction fuel as [|k IH]; intros g w; cbn zeta.
  - rewrite while_running_O. repeat split; intros; count_now.
  - destruct (_running g) eqn:Hrun.
    2:{ rewrite while_running_flag by assumption. cbn.
        repeat split; intros; count_now. }
    rewrite while_running_turn by assumption.
    pose proof (poll_engine g w) as He. cbn zeta in He.
    destruct (pollConnections_body build g w) as [c g1 w1 e1].
    cbn [value globals world events] in *.
    specialize (IH g1 w1). cbn zeta in IH.
    destruct c; cbn [after_events events].
    + (* Continue *)
      destruct IH as (IHe & IHf & IHn & IHi & IHs).
      rewrite !count_events_app.
      destruct (_context g) as [ctx|] eqn:Hc.
      * destruct He as ((Hc1 & Hf & Hn & Hi) & Hs1 & Hs0).
        assert (Hne : _context g1 <> None) by (rewrite Hc1; discriminate).
        destruct (IHe Hne) as (IHf0 & IHn0 & IHi0).
        specialize (Hs0 eq_refl).
        pose proof (count_fetched_le_fetch e1).
        repeat split; intros; lia.
      * destruct He as (He & Hs1 & Hs0). specialize (Hs0 eq_refl).
        destruct He as [(Hg & Hf & Hn & Hi & Hl)|(Hne & _ & Hf & Hn & Hi & Hl)].
        -- subst g1. repeat split; intros; try congruence; lia.
        -- destruct (IHe Hne) as (IHf0 & IHn0 & IHi0).
           pose proof (count_fetched_le_fetch
                         (events (while_running k (pollConnections_body build)
                                    g1 w1))).
           repeat split; intros; try congruence; lia.
    + (* Break *)
      destruct (_context g) as [ctx|] eqn:Hc.
      * destruct He as ((Hc1 & Hf & Hn & Hi) & Hs1 & Hs0).
        pose proof (count_fetched_le_fetch e1).
        repeat split; intros; lia.
      * destruct He as (He & Hs1 & Hs0).
        destruct He as [(Hg & Hf & Hn & Hi & Hl)|(Hne & Hv & _)].
        -- repeat split; intros; try congruence; lia.
        -- discriminate.
Qed.


Lemma pollConnections_run (fuel : nat) (g : Globals) (w : W) :
  pollConnections build fuel g w
  = after_events [EvThreadStart sendPointsThread_entry]
      (while_running fuel (pollConnections_body build) (set_running true g) w).
Proof.
  unfold pollConnections, after_events. run_monad.
  now destruct (while_running fuel (pollConnections_body build)
                  (set_running true g) w).
Qed.

(** C7. A status poll whose transport fails is logged, followed by the
    60-second wait and nothing else: no global changes (so no engine is
    created, stopped or relaunched), the turn asks the loop to continue,
    and with the flag set the loop goes on from the same globals with a
    turn that starts by polling the status again. *)
Theorem poll_transport_failure (g : Globals) (w w1 : W) (s : string) :
  ServerConnection_getStatus (_id g) w = (inl s, w1) ->
  let r := pollConnections_body build g w in
  events r
  = [EvLogInfo "Connecting to server..." [];
     EvGetStatus (_id g) (inl s);
     EvLogInfo "Connection error: %s\n" [ArgStr s];
     EvLogInfo "Retrying in 60 seconds...\n" [];
     EvSleep 60]
  /\ globals r = g
  /\ world r = w1
  /\ value r = Continue
  /\ count_events is_engine_action (events r) = 0%nat
  /\ (forall fuel : nat,
        _running g = true ->
        while_running (S fuel) (pollConnections_body build) g w
        = after_events (events r)
            (while_running fuel (pollConnections_body build) g w1))
  /\ (exists (reply : Thrown Z) (rest : list Event),
        events (pollConnections_body build g w1)
        = EvLogInfo "Connecting to server..." []
            :: EvGetStatus (_id g) reply :: rest).
Proof.
  intros Hs r. subst r. rewrite (poll_failed g w w1 s Hs).
  cbn [events globals world value].
  do 4 (split; [reflexivity|]). split; [count_now|]. split.
  - intros fuel Hrun. rewrite while_running_turn by assumption.
    rewrite (poll_failed g w w1 s Hs). reflexivity.
  - poll_cases g w1; cbn [events app]; eauto.
Qed.

(** C5. The engine lifecycle driven by the poll loop.  A turn that
    observes RUNNING with no engine and fetches the parameters creates one
    engine, initialises it once and launches its run once, and stores its
    handle; a turn that observes RUNNING while the engine reports it is
    running takes no action on the engine and changes no global; a turn
    that observes STOPPED stops the engine once if there is one, and not
    at all otherwise, and ends the loop; a turn that observes any other
    status changes no global, takes no action on the engine, and the loop
    continues after the five-minute sleep.  Over any number of turns an
    engine is created, initialised and stopped at most once. *)
Theorem poll_loop_lifecycle (g : Globals) (w : W) :
  let r := pollConnections_body build g w in
  (forall (w1 w2 : W) (m : ParamsMsg.t),
     ServerConnection_getStatus (_id g) w = (inr SERVER_STATUS_RUNNING, w1) ->
     _context g = None ->
     ServerConnection_getParameters (_id g) w1 = (inr m, w2) ->
     count_events is_new_context (events r) = 1%nat
     /\ count_events is_init (events r) = 1%nat
     /\ count_events is_run_launch (events r) = 1%nat
     /\ count_events is_stop (events r) = 0%nat
     /\ _context (globals r) = Some (built_context build (store_msg m g))
     /\ In (EvContextInit (built_context build (store_msg m g))) (events r)
     /\ value r = Continue)
  /\ (forall (w1 w2 : W) (ctx : ECDLContext),
        ServerConnection_getStatus (_id g) w
        = (inr SERVER_STATUS_RUNNING, w1) ->
        _context g = Some ctx ->
        ECDLContext_isRunning ctx w1 = (true, w2) ->
        count_events is_engine_action (events r) = 0%nat
        /\ globals r = g
        /\ value r = Continue)
  /\ (forall w1 : W,
        ServerConnection_getStatus (_id g) w
        = (inr SERVER_STATUS_STOPPED, w1) ->
        count_events is_stop (events r)
        = match _context g with Some _ => 1%nat | None => 0%nat end
        /\ (forall ctx : ECDLContext,
              _context g = Some ctx -> In (EvContextStop ctx) (events r))
        /\ count_events is_new_context (events r) = 0%nat
        /\ count_events is_run_launch (events r) = 0%nat
        /\ globals r = g
        /\ value r = Break
        /\ (forall fuel : nat,
              _running g = true ->
              while_running (S fuel) (pollConnections_body build) g w
              = mkResult ExitBreak g w1 (events r)))
  /\ (forall (w1 : W) (status : Z),
        ServerConnection_getStatus (_id g) w = (inr status, w1) ->
        status <> SERVER_STATUS_RUNNING ->
        status <> SERVER_STATUS_STOPPED ->
        globals r = g
        /\ count_events is_engine_action (events r) = 0%nat
        /\ value r = Continue
        /\ events r
           = [EvLogInfo "Connecting to server..." [];
              EvGetStatus (_id g) (inr status);
              EvLogInfo "Status = %d\n" [ArgInt status];
              EvSleep 300])
  /\ (forall fuel : nat,
        let run := pollConnections build fuel g w in
        (count_events is_new_context (events run) <= 1)%nat
        /\ (count_events is_init (events run) <= 1)%nat
        /\ (count_events is_stop (events run) <= 1)%nat).
Proof.
  cbn zeta. split; [|split; [|split; [|split]]].
  - intros w1 w2 m Hs Hc Hp.
    rewrite (poll_running_fetched g w w1 w2 m Hs Hc Hp).
    cbn [events globals value]. repeat split; try solve [count_now].
    rewrite !in_app_iff. right. right. right. cbn. auto.
  - intros w1 w2 ctx Hs Hc Hr.
    rewrite (poll_running_alive g w w1 w2 ctx Hs Hc Hr).
    cbn [events globals value]. repeat split; count_now.
  - intros w1 Hs. destruct (_context g) as [ctx|] eqn:Hc.
    + pose proof (poll_stopped_engine g w w1 ctx Hs Hc) as Hb.
      rewrite Hb. cbn [events globals value].
      repeat split; try solve [count_now].
      * intros ctx' Hctx. inversion Hctx; subst. cbn. tauto.
      * intros fuel Hrun. rewrite while_running_turn by assumption.
        rewrite Hb. reflexivity.
    + pose proof (poll_stopped_no_engine g w w1 Hs Hc) as Hb.
      rewrite Hb. cbn [events globals value].
      repeat split; try solve [count_now].
      * intros ctx' Hctx. discriminate.
      * intros fuel Hrun. rewrite while_running_turn by assumption.
        rewrite Hb. reflexivity.
  - intros w1 status Hs Hnr Hns.
    rewrite (poll_other g w w1 status Hs Hnr Hns).
    cbn [events globals value]. repeat split; count_now.
  - intros fuel. rewrite pollConnections_run. cbn [after_events events].
    pose proof (poll_loop_counts fuel (set_running true g) w) as Hc.
    cbn zeta in Hc. destruct Hc as (_ & _ & Hn & Hi & Hs).
    rewrite !count_events_app. cbn. repeat split; lia.
Qed.


Lemma poll_running_fetches_once (g : Globals) (w w1 : W) :
  ServerConnection_getStatus (_id g) w = (inr SERVER_STATUS_RUNNING, w1) ->
  _context g = None ->
  count_events is_fetch (events (pollConnections_body build g w)) = 1%nat.
Proof.
  intros Hs Hc.
  destruct (ServerConnection_getParameters (_id g) w1) as [[e|m] w2] eqn:Hp.
  - rewrite (poll_running_fetch_failed g w w1 w2 e Hs Hc Hp). count_now.
  - rewrite (poll_running_fetched g w w1 w2 m Hs Hc Hp). count_now.
Qed.

(** C6, as the code has it.  Over any number of turns of the poll loop the
    parameters and the jump table are fetched with success at most once.
    A turn attempts the fetch only while there is no engine.  A failed
    fetch is logged as an error and changes no global, so there is still
    no engine and the next turn that observes RUNNING attempts the fetch
    again.  A successful fetch stores the parameters and both arrays and
    makes the engine handle non-null, after which no turn attempts a
    fetch. *)
Theorem parameters_fetched_at_most_once (g : Globals) (w : W) :
  let r := pollConnections_body build g w in
  (forall fuel : nat,
     (count_events is_fetched (events (pollConnections build fuel g w))
      <= 1)%nat)
  /\ (_context g <> None -> count_events is_fetch (events r) = 0%nat)
  /\ (forall (w1 w2 : W) (e : string),
        ServerConnection_getStatus (_id g) w
        = (inr SERVER_STATUS_RUNNING, w1) ->
        _context g = None ->
        ServerConnection_getParameters (_id g) w1 = (inl e, w2) ->
        In (EvLogError "Error getting the parameters from server\n" [])
          (events r)
        /\ globals r = g
        /\ _context (globals r) = None
        /\ count_events is_engine_action (events r) = 0%nat
        /\ value r = Continue
        /\ (forall w3 : W,
              ServerConnection_getStatus (_id g) (world r)
              = (inr SERVER_STATUS_RUNNING, w3) ->
              count_events is_fetch
                (events (pollConnections_body build (globals r) (world r)))
              = 1%nat))
  /\ (forall (w1 w2 : W) (m : ParamsMsg.t),
        ServerConnection_getStatus (_id g) w
        = (inr SERVER_STATUS_RUNNING, w1) ->
        _context g = None ->
        ServerConnection_getParameters (_id g) w1 = (inr m, w2) ->
        _context (globals r) <> None
        /\ _params (globals r) = params_of_msg m
        /\ _rx (globals r) = fst (copy_R_points 32 0 m (_rx g) (_ry g))
        /\ _ry (globals r) = snd (copy_R_points 32 0 m (_rx g) (_ry g))
        /\ (forall fuel : nat,
              count_events is_fetch
                (events (while_running fuel (pollConnections_body build)
                           (globals r) (world r)))
              = 0%nat)).
Proof.
  cbn zeta. split; [|split; [|split]].
  - intros fuel. rewrite pollConnections_run. cbn [after_events events].
    pose proof (poll_loop_counts fuel (set_running true g) w) as Hc.
    cbn zeta in Hc. destruct Hc as (_ & Hf & _).
    rewrite count_events_app. cbn. lia.
  - intros Hne. pose proof (poll_engine g w) as He. cbn zeta in He.
    destruct (_context g); [|congruence]. now destruct He as ((_ & Hf & _) & _).
  - intros w1 w2 e Hs Hc Hp.
    rewrite (poll_running_fetch_failed g w w1 w2 e Hs Hc Hp).
    cbn [events globals world value].
    split; [cbn; tauto|]. split; [reflexivity|]. split; [assumption|].
    split; [count_now|]. split; [reflexivity|].
    intros w3 Hs3. now apply (poll_running_fetches_once g w2 w3).
  - intros w1 w2 m Hs Hc Hp.
    rewrite (poll_running_fetched g w w1 w2 m Hs Hc Hp).
    cbn [events globals world value].
    split; [cbn; discriminate|]. do 3 (split; [reflexivity|]).
    intros fuel.
    pose proof (poll_loop_counts fuel
                  (set_context (Some (built_context build (store_msg m g)))
                     (store_msg m g)) w2) as Hl.
    cbn zeta in Hl. destruct Hl as (Hl & _).
    now destruct Hl as (Hf & _); [cbn; discriminate|].
Qed.


(** ** The lock *)

Lemma lock_inv_initial (g : Globals) : lock_inv (initial_threads g).
Proof. split; [|intros i]; cbn; discriminate. Qed.

Lemma is_free_true (o : Owner) : is_free o = true -> o = Free.
Proof. destruct o; cbn; congruence. Qed.

Ltac split_ands :=
  repeat match goal with H : _ /\ _ |- _ => destruct H end.

(** A worker that is not the owner is outside its critical section. *)
Ltac other_worker t j :=
  match goal with
  | Hw : forall i : nat, worker_inv t i |- _ =>
      let H := fresh "Hj" in
      pose proof (Hw j) as H; unfold worker_inv in H |- *;
      cbn [workers mutex shared pump] in H |- *;
      destruct (workers t j); split_ands;
      try congruence; try (split; congruence)
  end.

Lemma step_pump_inv (reply : Thrown unit) (t t' : Threads) :
  lock_inv t -> step_pump reply t = Some t' -> lock_inv t'.
Proof.
  intros [Hp Hw] Hstep. unfold step_pump in Hstep.
  unfold lock_inv, pump_inv in *.
  destruct (pump t) eqn:Hpc.
  - (* PumpHead *)
    destruct (_running (shared t)); inversion Hstep; subst; cbn;
      (split; [assumption|]); intros j; other_worker t j.
  - (* PumpGrab *)
    destruct (is_free (mutex t)) eqn:Hfree; [|discriminate].
    apply is_free_true in Hfree. inversion Hstep; subst; cbn.
    split; [auto|]. intros j. other_worker t j.
  - (* PumpTest *)
    destruct Hp as [Hm Hc].
    destruct (_ <=? _)%N; inversion Hstep; subst; cbn;
      rewrite ?copy_points_all;
      (split; [auto|]); intros j; other_worker t j.
  - (* PumpSubmit *)
    destruct Hp as (Hm & Hc & Hpts). inversion Hstep; subst; cbn.
    split; [auto|]. intros j. other_worker t j.
  - (* PumpAfter *)
    destruct Hp as (Hm & Hc & Hpts).
    destruct success; inversion Hstep; subst; cbn;
      (split; [auto|]); intros j; other_worker t j.
  - (* PumpRelease *)
    inversion Hstep; subst; cbn. split; [discriminate|].
    intros j. other_worker t j.
  - (* PumpSleep *)
    inversion Hstep; subst; cbn. split; [assumption|].
    intros j. other_worker t j.
  - discriminate.
Qed.


Lemma set_worker_same (i : nat) (pc : WorkerPc) (ws : nat -> WorkerPc) :
  set_worker i pc ws i = pc.
Proof. unfold set_worker. now rewrite Nat.eqb_refl. Qed.

Lemma set_worker_other (i j : nat) (pc : WorkerPc) (ws : nat -> WorkerPc) :
  j <> i -> set_worker i pc ws j = ws j.
Proof.
  intros Hji. unfold set_worker.
  now destruct (Nat.eqb_spec j i); [contradiction|].
Qed.

Lemma step_callback_inv (i : nat) (p : CallbackParameters.t)
  (t t' : Threads) :
  lock_inv t -> step_callback i p t = Some t' -> lock_inv t'.
Proof.
  intros [Hp Hw] Hstep. unfold step_callback in Hstep.
  destruct (workers t i) eqn:Hi; try discriminate.
  destruct (negb _); inversion Hstep; subst; [now split|].
  split; [exact Hp|]. intros j. unfold worker_inv. cbn.
  destruct (Nat.eq_dec j i) as [->|Hji].
  - rewrite set_worker_same. specialize (Hw i). unfold worker_inv in Hw.
    now rewrite Hi in Hw.
  - rewrite set_worker_other by assumption. apply Hw.
Qed.

Lemma step_worker_inv (i : nat) (t t' : Threads) :
  lock_inv t -> step_worker i t = Some t' -> lock_inv t'.
Proof.
  intros [Hp Hw] Hstep. unfold step_worker in Hstep.
  pose proof (Hw i) as Hwi. unfold worker_inv in Hwi.
  destruct (workers t i) eqn:Hi; try discriminate.
  - (* WorkerGrab *)
    destruct (is_free (mutex t)) eqn:Hfree; [|discriminate].
    apply is_free_true in Hfree. inversion Hstep; subst; clear Hstep.
    split.
    + unfold pump_inv in *. cbn.
      destruct (pump t); try discriminate; split_ands;
        congruence.
    + intros j. unfold worker_inv. cbn.
      destruct (Nat.eq_dec j i) as [->|Hji].
      * rewrite set_worker_same. auto.
      * rewrite set_worker_other by assumption.
        pose proof (Hw j) as Hj. unfold worker_inv in Hj.
        destruct (workers t j); split_ands; congruence.
  - (* WorkerPush *)
    destruct Hwi as [Hm Hc]. inversion Hstep; subst; clear Hstep.
    split.
    + unfold pump_inv in *. cbn.
      destruct (pump t); split_ands; congruence.
    + intros j. unfold worker_inv. cbn.
      destruct (Nat.eq_dec j i) as [->|Hji].
      * rewrite set_worker_same. auto.
      * rewrite set_worker_other by assumption.
        pose proof (Hw j) as Hj. unfold worker_inv in Hj.
        destruct (workers t j); split_ands; congruence.
  - (* WorkerRelease *)
    destruct Hwi as [Hm Hc]. inversion Hstep; subst; clear Hstep.
    split.
    + unfold pump_inv in *. cbn.
      destruct (pump t); try discriminate; split_ands;
        congruence.
    + intros j. unfold worker_inv. cbn.
      destruct (Nat.eq_dec j i) as [->|Hji].
      * rewrite set_worker_same. discriminate.
      * rewrite set_worker_other by assumption.
        pose proof (Hw j) as Hj. unfold worker_inv in Hj.
        destruct (workers t j); split_ands;
          try discriminate; congruence.
Qed.

Lemma step_inv (m : Move) (t t' : Threads) :
  lock_inv t -> step m t = Some t' -> lock_inv t'.
Proof.
  destruct m; cbn;
    eauto using step_pump_inv, step_callback_inv, step_worker_inv.
Qed.

(** The invariant holds in every state the threads can reach. *)
Lemma run_moves_inv (ms : list Move) :
  forall t t' : Threads,
    lock_inv t -> run_moves ms t = Some t' -> lock_inv t'.
Proof.
  induction ms as [|m ms IH]; intros t t' Hinv Hrun; cbn in Hrun.
  - now inversion Hrun; subst.
  - destruct (step m t) as [t1|] eqn:Hstep; [|discriminate].
    eapply IH; [|exact Hrun]. eapply step_inv; eassumption.
Qed.

(** No move changes a global other than the cache. *)
Lemma step_frame (m : Move) (t t' : Threads) :
  step m t = Some t' ->
  shared t' = set_pointsCache (_pointsCache (shared t')) (shared t).
Proof.
  assert (Hsame : shared t
                  = set_pointsCache (_pointsCache (shared t)) (shared t))
    by now destruct (shared t).
  destruct m as [reply|i p|i]; cbn.
  - unfold step_pump.
    destruct (pump t); try discriminate;
      repeat match goal with
             | |- context [if ?b then _ else _] => destruct b
             end;
      intros H; inversion H; subst; cbn; auto.
  - unfold step_callback.
    destruct (workers t i); try discriminate.
    destruct (negb _); intros H; inversion H; subst; cbn; auto.
  - unfold step_worker.
    destruct (workers t i); try discriminate;
      repeat match goal with
             | |- context [if ?b then _ else _] => destruct b
             end;
      intros H; inversion H; subst; cbn; auto.
Qed.

Lemma run_moves_frame (ms : list Move) :
  forall t t' : Threads,
    run_moves ms t = Some t' ->
    shared t' = set_pointsCache (_pointsCache (shared t')) (shared t).
Proof.
  induction ms as [|m ms IH]; intros t t' Hrun; cbn in Hrun.
  - inversion Hrun; subst. now destruct (shared t').
  - destruct (step m t) as [t1|] eqn:Hstep; [|discriminate].
    rewrite (IH t1 t' Hrun). rewrite (step_frame m t t1 Hstep).
    reflexivity.
Qed.


(** A turn of the submission thread taken move by move, with no other
    thread moving in between, is the turn [sendPointsThread_body]. *)
Lemma pump_moves_turn (g : Globals) (w : W) (ws : nat -> WorkerPc) :
  _running g = true ->
  let r := sendPointsThread_body g w in
  let reply := fst (ServerConnection_submitPoints (_id g) (_pointsCache g) w) in
  exists n : nat,
    run_moves (repeat (MovePump reply) n) (mkThreads g Free PumpHead ws)
    = Some (mkThreads (globals r) Free PumpHead ws).
Proof.
  intros Hrun. cbn zeta.
  destruct (threshold_met g) eqn:Ht.
  - destruct (ServerConnection_submitPoints (_id g) (_pointsCache g) w)
      as [[err|u] w'] eqn:Hs.
    + rewrite (sendPointsThread_body_failed g w w' err Ht Hs).
      exists 7%nat. cbn. unfold step_pump. cbn. rewrite Hrun. cbn.
      unfold threshold_met in Ht. rewrite Ht. reflexivity.
    + rewrite (sendPointsThread_body_sent g w w' u Ht Hs).
      exists 7%nat. cbn. unfold step_pump. cbn. rewrite Hrun. cbn.
      unfold threshold_met in Ht. rewrite Ht. reflexivity.
  - rewrite (sendPointsThread_body_below g w Ht).
    exists 5%nat. cbn. unfold step_pump. cbn. rewrite Hrun. cbn.
    unfold threshold_met in Ht. rewrite Ht. reflexivity.
Qed.

(** A delivery of a candidate taken move by move, with no other thread
    moving in between, is the callback [pointFoundCallback]. *)
Lemma callback_moves_turn (p : CallbackParameters.t) (i : nat) (w : W)
  (t : Threads) :
  mutex t = Free ->
  workers t i = WorkerIdle ->
  let r := pointFoundCallback p (shared t) w in
  exists (ms : list Move) (t' : Threads),
    run_moves (MoveCallback i p :: ms) t = Some t'
    /\ shared t' = globals r
    /\ mutex t' = Free
    /\ pump t' = pump t
    /\ forall j : nat, workers t' j = workers t j.
Proof.
  intros Hfree Hidle. cbn zeta.
  destruct (candidate_valid (shared t) p) eqn:Hv.
  - rewrite (pointFoundCallback_valid p (shared t) w Hv).
    exists [MoveWorker i; MoveWorker i; MoveWorker i]. eexists.
    cbn. unfold step_callback. rewrite Hidle.
    unfold candidate_valid in Hv. rewrite Hv. cbn.
    unfold step_worker. cbn. rewrite !set_worker_same, Hfree. cbn.
    rewrite !set_worker_same. cbn. rewrite !set_worker_same.
    split; [reflexivity|]. cbn. repeat split.
    intros j. unfold set_worker.
    destruct (Nat.eqb_spec j i); [now subst|reflexivity].
  - rewrite (pointFoundCallback_invalid p (shared t) w Hv).
    exists []. exists t. cbn. unfold step_callback. rewrite Hidle.
    unfold candidate_valid in Hv. rewrite Hv. cbn. repeat split.
    exact Hfree.
Qed.


(** ** The callback, alone and among the threads *)

(** C3. The check the callback makes is the curve-membership test on the
    candidate's (x, y).  A candidate that fails it leaves the cache
    as it was, contents and size, and is logged with its coefficients,
    coordinates and length; a candidate that passes it is appended: the
    cache is the old cache followed by the point built from
    (aStart, bStart, x, y, length), its size is one more, and that point is
    its last element.  Taken statement by statement among the moves of the
    other threads: a worker that has pushed its point and is about to
    release the lock owns the lock, and the cache is the cache it found at
    its grab followed by its point. *)
Theorem pointFoundCallback_cache (p : CallbackParameters.t) (g : Globals)
  (w : W) :
  let r := pointFoundCallback p g w in
  value (verifyPoint (CallbackParameters.x p) (CallbackParameters.y p) g w)
  = candidate_valid g p
  /\
  (if candidate_valid g p then
    _pointsCache (globals r) = _pointsCache g ++ [point_of p]
    /\ List.length (_pointsCache (globals r))
       = S (List.length (_pointsCache g))
    /\ last (_pointsCache (globals r)) (point_of p) = point_of p
    /\ nth_error (_pointsCache (globals r)) (List.length (_pointsCache g))
       = Some (point_of p)
  else
    _pointsCache (globals r) = _pointsCache g
    /\ List.length (_pointsCache (globals r)) = List.length (_pointsCache g)
    /\ events r
       = [EvLogInfo "INVALID POINT\n" [];
          EvLogInfo "a: %s" [ArgBig (CallbackParameters.aStart p) (Some 16)];
          EvLogInfo "b: %s" [ArgBig (CallbackParameters.bStart p) (Some 16)];
          EvLogInfo "x: %s" [ArgBig (CallbackParameters.x p) (Some 16)];
          EvLogInfo "y: %s" [ArgBig (CallbackParameters.y p) (Some 16)];
          EvLogInfo "length: %d" [ArgInt (CallbackParameters.length p)]])
  /\ (forall (ms : list Move) (t : Threads) (i : nat)
             (d : DistinguishedPoint.t) (held : list DistinguishedPoint.t),
        run_moves ms (initial_threads g) = Some t ->
        workers t i = WorkerRelease d held ->
        mutex t = HeldByWorker i
        /\ _pointsCache (shared t) = held ++ [d]).
Proof.
  intros r. subst r. split; [reflexivity|]. split.
  2:{ intros ms t i d held Hrun Hpc.
      pose proof (run_moves_inv ms _ _ (lock_inv_initial g) Hrun) as [_ Hw].
      specialize (Hw i). unfold worker_inv in Hw. now rewrite Hpc in Hw. }
  destruct (candidate_valid g p) eqn:Hv.
  - rewrite (pointFoundCallback_valid p g w Hv). cbn.
    repeat split.
    + rewrite length_app. cbn. lia.
    + apply last_last.
    + rewrite nth_error_app2 by lia. rewrite Nat.sub_diag. reflexivity.
  - rewrite (pointFoundCallback_invalid p g w Hv). cbn. repeat split.
Qed.

(** C10. Whatever the candidate, accepted or rejected, the callback
    changes no global but the points cache: the problem parameters, both
    jump-table arrays, the engine handle, the problem id, the
    configuration, the running flag, the server connection and the thread
    handle are what they were, and so is the world of the collaborators.
    The same holds statement by statement: whatever moves the workers and
    the submission thread make, the globals differ from the initial ones
    in the cache only. *)
Theorem pointFoundCallback_frame (p : CallbackParameters.t) (g : Globals)
  (w : W) :
  let r := pointFoundCallback p g w in
  _params (globals r) = _params g
  /\ _rx (globals r) = _rx g
  /\ _ry (globals r) = _ry g
  /\ _context (globals r) = _context g
  /\ _id (globals r) = _id g
  /\ _config (globals r) = _config g
  /\ _running (globals r) = _running g
  /\ _serverConnection (globals r) = _serverConnection g
  /\ _ecdlThread (globals r) = _ecdlThread g
  /\ world r = w
  /\ globals r = set_pointsCache (_pointsCache (globals r)) g
  /\ (forall (ms : list Move) (t : Threads),
        run_moves ms (initial_threads g) = Some t ->
        shared t = set_pointsCache (_pointsCache (shared t)) g).
Proof.
  intros r. subst r.
  assert (Hmoves : forall (ms : list Move) (t : Threads),
             run_moves ms (initial_threads g) = Some t ->
             shared t = set_pointsCache (_pointsCache (shared t)) g)
    by (intros ms t Hrun; exact (run_moves_frame ms _ _ Hrun)).
  destruct (candidate_valid g p) eqn:Hv.
  - rewrite (pointFoundCallback_valid p g w Hv). cbn.
    repeat split. exact Hmoves.
  - rewrite (pointFoundCallback_invalid p g w Hv). cbn.
    do 10 (split; [reflexivity|]). split; [now destruct g|exact Hmoves].
Qed.

(** ** Schedules *)

Lemma seq_ret {A B : Type} (m : M A) (c : B) (g : Globals) (w : W) :
  bind m (fun _ => ret c) g w
  = mkResult c (globals (m g w)) (world (m g w)) (events (m g w)).
Proof.
  unfold bind, ret. destruct (m g w). cbn. now rewrite app_nil_r.
Qed.

Lemma run_schedule_cons (a : Action) (s : list Action) (g : Globals)
  (w : W) :
  run_schedule build (a :: s) g w
  = match value (run_action build a g w) with
    | Break =>
        mkResult Break (globals (run_action build a g w))
          (world (run_action build a g w)) (events (run_action build a g w))
    | Continue =>
        after_events (events (run_action build a g w))
          (run_schedule build s (globals (run_action build a g w))
             (world (run_action build a g w)))
    end.
Proof.
  cbn [run_schedule]. unfold bind, after_events.
  destruct (run_action build a g w) as [c g1 w1 e1]. cbn.
  destruct c; cbn.
  - now destruct (run_schedule build s g1 w1).
  - now rewrite app_nil_r.
Qed.

(** No action changes the id, the configuration or the flag; an action
    other than a turn of the submission thread only appends to the
    cache. *)
Lemma run_action_frame (a : Action) (g : Globals) (w : W) :
  let r := run_action build a g w in
  _id (globals r) = _id g
  /\ _config (globals r) = _config g
  /\ _running (globals r) = _running g
  /\ (is_pump a = false ->
      exists added : list DistinguishedPoint.t,
        _pointsCache (globals r) = _pointsCache g ++ added).
Proof.
  destruct a as [p| |]; cbn [run_action is_pump]; cbn zeta.
  - rewrite seq_ret. cbn [globals].
    destruct (candidate_valid g p) eqn:Hv.
    + rewrite (pointFoundCallback_valid p g w Hv). cbn.
      repeat split. eauto.
    + rewrite (pointFoundCallback_invalid p g w Hv). cbn.
      repeat split. intros _. exists []. now rewrite app_nil_r.
  - rewrite seq_ret. cbn [globals].
    destruct (sendPointsThread_body_turn g w); cbn; repeat split;
      discriminate.
  - pose proof (poll_frame g w) as Hf. cbn zeta in Hf.
    destruct Hf as (Hc & Hid & Hcfg & Hrun & _).
    repeat split; try assumption. intros _. exists [].
    now rewrite app_nil_r.
Qed.

Lemma run_schedule_frame (s : list Action) :
  forall (g : Globals) (w : W),
    let r := run_schedule build s g w in
    _id (globals r) = _id g
    /\ _config (globals r) = _config g
    /\ _running (globals r) = _running g
    /\ (forallb (fun a => negb (is_pump a)) s = true ->
        exists added : list DistinguishedPoint.t,
          _pointsCache (globals r) = _pointsCache g ++ added).
Proof.
  induction s as [|a s IH]; intros g w; cbn zeta.
  - cbn. repeat split. intros _. exists []. now rewrite app_nil_r.
  - rewrite run_schedule_cons.
    pose proof (run_action_frame a g w) as Ha. cbn zeta in Ha.
    destruct Ha as (Hid & Hcfg & Hrun & Hcache).
    destruct (run_action build a g w) as [c g1 w1 e1].
    cbn [value globals world events] in *.
    specialize (IH g1 w1). cbn zeta in IH.
    destruct IH as (IHid & IHcfg & IHrun & IHcache).
    destruct c; cbn [after_events globals].
    + repeat split; try congruence.
      cbn [forallb]. intros Hs. apply andb_prop in Hs as [Hp Hs].
      apply negb_true_iff in Hp.
      destruct (Hcache Hp) as [added1 H1].
      destruct (IHcache Hs) as [added2 H2].
      exists (added1 ++ added2). now rewrite H2, H1, app_assoc.
    + repeat split; try congruence.
      cbn [forallb]. intros Hs. apply andb_prop in Hs as [Hp Hs].
      apply negb_true_iff in Hp. exact (Hcache Hp).
Qed.


(** ** The submission thread at the threshold, on failure and on success *)

Lemma pump_turn_submits (g : Globals) (w : W) :
  threshold_met g = true ->
  exists reply : Thrown unit,
    In (EvSubmitPoints (_id g) (_pointsCache g) reply)
      (events (sendPointsThread_body g w)).
Proof.
  intros Ht. destruct (sendPointsThread_body_turn g w); try congruence;
    eexists; cbn; eauto 6.
Qed.

Lemma pump_turn_at_least (g : Globals) (w : W) :
  Forall (submits_at_least (ClientConfig.pointCacheSize (_config g)))
    (events (sendPointsThread_body g w)).
Proof.
  destruct (sendPointsThread_body_turn g w) as [Ht|u w' Ht Hs|err w' Ht Hs];
    cbn [events]; repeat constructor; cbn;
    unfold threshold_met in Ht; now apply N.leb_le.
Qed.

Lemma pump_loop_at_least (fuel : nat) :
  forall (g : Globals) (w : W),
    Forall (submits_at_least (ClientConfig.pointCacheSize (_config g)))
      (events (sendPointsThread fuel g w)).
Proof.
  unfold sendPointsThread.
  induction fuel as [|k IH]; intros g w.
  - rewrite while_running_O. constructor.
  - destruct (_running g) eqn:Hrun.
    2:{ rewrite while_running_flag by assumption. constructor. }
    rewrite while_running_turn by assumption. rewrite seq_ret.
    cbn [value globals world events after_events].
    apply Forall_app. split; [apply pump_turn_at_least|].
    assert (Hcfg : _config (globals (sendPointsThread_body g w)) = _config g)
      by (destruct (sendPointsThread_body_turn g w); reflexivity).
    rewrite <- Hcfg. apply IH.
Qed.

(** C4. A turn of the submission thread calls [submitPoints] only when the
    cache holds at least [pointCacheSize] points.  Below the threshold the
    turn grabs and releases the lock and sleeps, makes no call to the
    server and changes nothing; at or above it the turn makes exactly one
    call.  Over any number of turns every submission carries at least
    [pointCacheSize] points. *)
Theorem submission_only_at_threshold (g : Globals) (w : W) :
  let r := sendPointsThread_body g w in
  let threshold := ClientConfig.pointCacheSize (_config g) in
  let size := N.of_nat (List.length (_pointsCache g)) in
  (forall (id : string) (points : list DistinguishedPoint.t)
          (reply : Thrown unit),
     In (EvSubmitPoints id points reply) (events r) ->
     (threshold <= size)%N)
  /\ ((size < threshold)%N ->
      count_events is_server_call (events r) = 0%nat
      /\ events r = [EvMutexGrab; EvMutexRelease; EvSleep 30]
      /\ globals r = g
      /\ world r = w)
  /\ ((threshold <= size)%N ->
      count_events is_server_call (events r) = 1%nat
      /\ count_events is_submit (events r) = 1%nat)
  /\ (forall fuel : nat,
        Forall (submits_at_least threshold)
          (events (sendPointsThread fuel g w))).
Proof.
  cbn zeta. split; [|split; [|split]].
  - intros id points reply Hin.
    destruct (threshold_met g) eqn:Ht.
    + unfold threshold_met in Ht. now apply N.leb_le.
    + rewrite (sendPointsThread_body_below g w Ht) in Hin. cbn in Hin.
      repeat (destruct Hin as [Hin|Hin]; try discriminate). contradiction.
  - intros Hlt.
    assert (Ht : threshold_met g = false)
      by (unfold threshold_met; now apply N.leb_gt).
    rewrite (sendPointsThread_body_below g w Ht). cbn. repeat split.
  - intros Hle.
    assert (Ht : threshold_met g = true)
      by (unfold threshold_met; now apply N.leb_le).
    destruct (sendPointsThread_body_turn g w); try congruence;
      cbn; split; reflexivity.
  - intros fuel. apply pump_loop_at_least.
Qed.

Lemma threshold_met_grows (g g' : Globals)
  (added : list DistinguishedPoint.t) :
  threshold_met g = true ->
  _config g' = _config g ->
  _pointsCache g' = _pointsCache g ++ added ->
  threshold_met g' = true.
Proof.
  unfold threshold_met. intros Ht Hcfg Hc. rewrite Hcfg, Hc.
  apply N.leb_le in Ht. apply N.leb_le. rewrite length_app. lia.
Qed.

(** What a failed submission in the trace of a turn tells. *)
Lemma pump_turn_failed_inv (g : Globals) (w : W) (id : string)
  (points : list DistinguishedPoint.t) (err : string) :
  In (EvSubmitPoints id points (inl err))
    (events (sendPointsThread_body g w)) ->
  threshold_met g = true
  /\ id = _id g
  /\ points = _pointsCache g
  /\ exists w' : W,
       ServerConnection_submitPoints (_id g) (_pointsCache g) w = (inl err, w').
Proof.
  intros Hin.
  destruct (sendPointsThread_body_turn g w) as [Ht|u w' Ht Hs|err' w' Ht Hs];
    cbn in Hin;
    repeat (destruct Hin as [Hin|Hin]; try discriminate);
    try contradiction.
  inversion Hin; subst. eauto.
Qed.

(** What a successful submission in the trace of a turn tells. *)
Lemma pump_turn_sent_inv (g : Globals) (w : W) (id : string)
  (points : list DistinguishedPoint.t) (u : unit) :
  In (EvSubmitPoints id points (inr u)) (events (sendPointsThread_body g w)) ->
  threshold_met g = true
  /\ id = _id g
  /\ points = _pointsCache g
  /\ exists w' : W,
       ServerConnection_submitPoints (_id g) (_pointsCache g) w = (inr u, w').
Proof.
  intros Hin.
  destruct (sendPointsThread_body_turn g w) as [Ht|u' w' Ht Hs|err' w' Ht Hs];
    cbn in Hin;
    repeat (destruct Hin as [Hin|Hin]; try discriminate);
    try contradiction.
  inversion Hin; subst. eauto.
Qed.

(** C1. When the submission of a turn fails, the turn changes no global:
    the cache after the attempt is the cache before it, which is the list
    that was submitted.  The failure is logged and the lock released.  The
    next turn submits the same points again; if candidates were delivered
    or the poll loop turned in between, it submits the same points followed
    by the points appended since. *)
Theorem failed_submission_keeps_cache (g : Globals) (w : W) (id : string)
  (points : list DistinguishedPoint.t) (err : string) :
  let r := sendPointsThread_body g w in
  In (EvSubmitPoints id points (inl err)) (events r) ->
  _pointsCache (globals r) = _pointsCache g
  /\ globals r = g
  /\ points = _pointsCache g
  /\ events r
     = [EvMutexGrab;
        EvLogInfo "Sending %d points to server"
          [ArgInt (Z.of_nat (List.length (_pointsCache g)))];
        EvLogInfo "Sending to server\n" [];
        EvSubmitPoints id points (inl err);
        EvLogInfo "Error sending points to server: %s. Will try again later\n"
          [ArgStr err];
        EvMutexRelease; EvSleep 30]
  /\ (exists reply : Thrown unit,
        In (EvSubmitPoints id points reply)
          (events (sendPointsThread_body (globals r) (world r))))
  /\ (forall s : list Action,
        forallb (fun a => negb (is_pump a)) s = true ->
        let r2 := run_schedule build s (globals r) (world r) in
        exists (added : list DistinguishedPoint.t) (reply : Thrown unit),
          _pointsCache (globals r2) = points ++ added
          /\ In (EvSubmitPoints id (points ++ added) reply)
               (events (sendPointsThread_body (globals r2) (world r2)))).
Proof.
  cbn zeta. intros Hin.
  destruct (pump_turn_failed_inv g w id points err Hin)
    as (Ht & -> & -> & w' & Hs).
  rewrite (sendPointsThread_body_failed g w w' err Ht Hs).
  cbn [globals world events].
  do 4 (split; [reflexivity|]). split.
  - now apply pump_turn_submits.
  - intros s Hs_nopump.
    pose proof (run_schedule_frame s g w') as Hf. cbn zeta in Hf.
    destruct Hf as (Hid & Hcfg & _ & Hcache).
    destruct (Hcache Hs_nopump) as [added Hadd].
    exists added.
    destruct (pump_turn_submits (globals (run_schedule build s g w'))
                (world (run_schedule build s g w'))) as [reply Hrep].
    + eapply threshold_met_grows; eassumption.
    + exists reply. split; [assumption|]. now rewrite <- Hid, <- Hadd.
Qed.


(** C2. When the submission of a turn succeeds, what was submitted is the
    whole cache as it stood, the cache is empty afterwards and no other
    global changes: the old cache is the submitted list followed by the
    remaining (empty) cache, so no point is lost and none is submitted
    twice, and the turn made exactly one call.  Taken statement by
    statement among the moves of the workers: in every state the threads
    can reach in which the server has replied and the thread is about to
    clear, the thread owns the lock, the snapshot it sent is the cache as
    it was at the grab and as it is now, and its next statement leaves the
    cache empty on success and untouched on failure. *)
Theorem successful_submission_clears_snapshot (g : Globals) (w : W)
  (id : string) (points : list DistinguishedPoint.t) (u : unit) :
  let r := sendPointsThread_body g w in
  In (EvSubmitPoints id points (inr u)) (events r) ->
  points = _pointsCache g
  /\ id = _id g
  /\ _pointsCache (globals r) = []
  /\ _pointsCache g = points ++ _pointsCache (globals r)
  /\ globals r = set_pointsCache [] g
  /\ count_events is_submit (events r) = 1%nat
  /\ events r
     = [EvMutexGrab;
        EvLogInfo "Sending %d points to server"
          [ArgInt (Z.of_nat (List.length (_pointsCache g)))];
        EvLogInfo "Sending to server\n" [];
        EvSubmitPoints id points (inr u);
        EvMutexRelease; EvSleep 30]
  /\ (forall (ms : list Move) (t : Threads)
             (held snapshot : list DistinguishedPoint.t) (success : bool),
        run_moves ms (initial_threads g) = Some t ->
        pump t = PumpAfter held snapshot success ->
        mutex t = HeldByPump
        /\ snapshot = held
        /\ _pointsCache (shared t) = snapshot
        /\ forall (reply : Thrown unit) (t' : Threads),
             step_pump reply t = Some t' ->
             _pointsCache (shared t') = (if success then [] else snapshot)).
Proof.
  cbn zeta. intros Hin.
  destruct (pump_turn_sent_inv g w id points u Hin)
    as (Ht & -> & -> & w' & Hs).
  rewrite (sendPointsThread_body_sent g w w' u Ht Hs).
  cbn [globals world events set_pointsCache _pointsCache].
  split; [reflexivity|]. split; [reflexivity|]. split; [reflexivity|].
  split; [now rewrite app_nil_r|]. split; [reflexivity|].
  split; [reflexivity|]. split; [reflexivity|].
  intros ms t held snapshot success Hrun Hpc.
  pose proof (run_moves_inv ms _ _ (lock_inv_initial g) Hrun) as [Hp _].
  unfold pump_inv in Hp. rewrite Hpc in Hp.
  destruct Hp as (Hm & Hc & Hsnap). subst snapshot.
  repeat split; try assumption.
  intros reply t' Hstep. unfold step_pump in Hstep. rewrite Hpc in Hstep.
  destruct success; inversion Hstep; subst; cbn; auto.
Qed.


(** ** Program entry *)

#[local] Arguments device_check : simpl never.

(** [cudaInit] changes no global and makes no call to the server, starts
    no thread and runs no benchmark. *)
Lemma cudaInit_quiet (g : Globals) (w : W) :
  let r := cudaInit g w in
  globals r = g
  /\ count_events is_server_call (events r) = 0%nat
  /\ count_events is_thread_start (events r) = 0%nat
  /\ count_events is_engine_action (events r) = 0%nat
  /\ count_events is_benchmark (events r) = 0%nat.
Proof.
  unfold cudaInit. run_monad.
  destruct (CUDA_getDeviceCount w) as [n w1]. cbn.
  destruct (n =? 0); cbn; [repeat split|].
  destruct (CUDA_getDeviceInfo (ClientConfig.device (_config g)) w1)
    as [[e|info] w2]; cbn; repeat split.
Qed.

Lemma device_check_quiet (g : Globals) (w : W) :
  let r := device_check build g w in
  globals r = g
  /\ count_events is_server_call (events r) = 0%nat
  /\ count_events is_thread_start (events r) = 0%nat
  /\ count_events is_engine_action (events r) = 0%nat
  /\ count_events is_benchmark (events r) = 0%nat.
Proof.
  unfold device_check. destruct build.
  - apply cudaInit_quiet.
  - cbn. repeat split.
Qed.

(** On the CUDA build the check fails when no device is detected or the
    device information cannot be read. *)
Lemma cudaInit_no_device (g : Globals) (w w1 : W) :
  CUDA_getDeviceCount w = (0, w1) ->
  cudaInit g w
  = mkResult false g w1
      [EvCudaGetDeviceCount 0; EvLogError "No CUDA devices detected\n" []].
Proof.
  intros Hn. unfold cudaInit. run_monad. rewrite Hn. reflexivity.
Qed.

Lemma cudaInit_no_info (g : Globals) (w w1 w2 : W) (n : Z) (e : string) :
  CUDA_getDeviceCount w = (n, w1) ->
  n <> 0 ->
  CUDA_getDeviceInfo (ClientConfig.device (_config g)) w1 = (inl e, w2) ->
  cudaInit g w
  = mkResult false g w2
      [EvCudaGetDeviceCount n;
       EvCudaGetDeviceInfo (ClientConfig.device (_config g)) (inl e);
       EvLogError "Error getting info for device %d: %s\n"
         [ArgInt (ClientConfig.device (_config g)); ArgStr e]].
Proof.
  intros Hn Hn0 Hi. unfold cudaInit. run_monad. rewrite Hn. cbn.
  apply Z.eqb_neq in Hn0. rewrite Hn0. cbn. rewrite Hi. reflexivity.
Qed.

Lemma main_config_failed (fuel : nat) (argv : list string) (g : Globals)
  (w w0 w1 : W) (t : Z) (err : string) :
  util_getSystemTime w = (t, w0) ->
  loadConfig "settings.json" w0 = (inl err, w1) ->
  main build fuel argv g w
  = mkResult (Some 1) g w1
      [EvSrand t; EvLoadConfig "settings.json" (inl err);
       EvLogError ("Error loading settings: " ++ err) []].
Proof.
  intros Ht Hc. unfold main. run_monad. rewrite Ht. cbn. rewrite Hc.
  reflexivity.
Qed.

(** [main] once the configuration is loaded: the device check, then the
    arguments. *)
Lemma main_config_loaded (fuel : nat) (argv : list string) (g : Globals)
  (w w0 w1 : W) (t : Z) (cfg : ClientConfig.t) :
  util_getSystemTime w = (t, w0) ->
  loadConfig "settings.json" w0 = (inr cfg, w1) ->
  let d := device_check build (set_config cfg g) w1 in
  main build fuel argv g w
  = after_events
      ([EvSrand t; EvLoadConfig "settings.json" (inr cfg)] ++ events d)
      (if negb (value d) then mkResult (Some 1) (set_config cfg g) (world d) []
       else if (2 <=? Z.of_nat (List.length argv))
               && String.eqb (nth 1 argv "") "-b"
       then mkResult (Some 0) (set_config cfg g) (world d) [EvDoBenchmark]
       else if Z.of_nat (List.length argv) <? 2
       then mkResult (Some 0) (set_config cfg g) (world d)
              [EvLogInfo "usage: [options] id\n" []]
       else
         let e :=
           enterEventLoop build fuel
             (set_id (nth 1 argv "") (set_config cfg g)) (world d) in
         mkResult
           (match value e with Unfinished => None | _ => Some 0 end)
           (globals e) (world e) (events e)).
Proof.
  intros Ht Hc. cbn zeta.
  pose proof (device_check_quiet (set_config cfg g) w1) as Hq.
  cbn zeta in Hq. destruct Hq as (Hg & _).
  unfold main, after_events.
  change (match build with _CUDA => cudaInit | _CPU => ret true end)
    with (device_check build).
  run_monad. rewrite Ht. cbn. rewrite Hc. cbn.
  destruct (device_check build (set_config cfg g) w1) as [ok gd wd ed].
  cbn [value globals world events] in *. subst gd. cbn.
  destruct ok; cbn; [|now rewrite app_nil_r].
  destruct ((2 <=? Z.of_nat (List.length argv))
            && String.eqb (nth 1 argv "") "-b"); cbn; [reflexivity|].
  destruct (Z.of_nat (List.length argv) <? 2); cbn; [reflexivity|].
  destruct (enterEventLoop build fuel _ wd) as [e ge we ee]. cbn.
  destruct e; cbn; now rewrite ?app_nil_r.
Qed.


(** ** The running flag *)

Lemma poll_loop_running (fuel : nat) :
  forall (g : Globals) (w : W),
    _running (globals (while_running fuel (pollConnections_body build) g w))
    = _running g.
Proof.
  induction fuel as [|k IH]; intros g w.
  - now rewrite while_running_O.
  - destruct (_running g) eqn:Hrun.
    2:{ now rewrite while_running_flag. }
    rewrite while_running_turn by assumption.
    pose proof (poll_frame g w) as Hf. cbn zeta in Hf.
    destruct Hf as (_ & _ & _ & Hr & _).
    destruct (value (pollConnections_body build g w)).
    + cbn. rewrite IH. congruence.
    + cbn. congruence.
Qed.

Lemma pollConnections_running (fuel : nat) (g : Globals) (w : W) :
  _running (globals (pollConnections build fuel g w)) = true.
Proof.
  rewrite pollConnections_run. cbn. now rewrite poll_loop_running.
Qed.

Lemma enterEventLoop_running (fuel : nat) (g : Globals) (w : W) :
  _running g = true ->
  _running (globals (enterEventLoop build fuel g w)) = true.
Proof.
  intros Hrun. unfold enterEventLoop. run_monad.
  destruct (ServerConnection_new _ _ w) as [[err|conn] w1]; cbn.
  - assumption.
  - pose proof (pollConnections_running fuel
                  (set_serverConnection (Some conn) g) w1) as Hp.
    now destruct (pollConnections build fuel _ w1).
Qed.

Lemma main_running (fuel : nat) (argv : list string) (g : Globals) (w : W) :
  _running g = true ->
  _running (globals (main build fuel argv g w)) = true.
Proof.
  intros Hrun.
  destruct (util_getSystemTime w) as [t w0] eqn:Ht.
  destruct (loadConfig "settings.json" w0) as [[err|cfg] w1] eqn:Hc.
  - now rewrite (main_config_failed fuel argv g w w0 w1 t err Ht Hc).
  - rewrite (main_config_loaded fuel argv g w w0 w1 t cfg Ht Hc).
    cbn [after_events globals].
    repeat match goal with
           | |- context [if ?b then _ else _] => destruct b
           end; cbn; try assumption.
    now apply enterEventLoop_running.
Qed.

(** With the flag set the submission thread takes every turn it is given
    and does not return. *)
Lemma pump_loop_unfinished (fuel : nat) :
  forall (g : Globals) (w : W),
    _running g = true ->
    value (sendPointsThread fuel g w) = Unfinished
    /\ count_events is_pump_sleep (events (sendPointsThread fuel g w)) = fuel.
Proof.
  unfold sendPointsThread.
  induction fuel as [|k IH]; intros g w Hrun.
  - now rewrite while_running_O.
  - rewrite while_running_turn by assumption. rewrite seq_ret.
    cbn [value globals world events after_events].
    assert (Hr : _running (globals (sendPointsThread_body g w)) = true)
      by (destruct (sendPointsThread_body_turn g w); assumption).
    destruct (IH _ (world (sendPointsThread_body g w)) Hr) as [IHv IHc].
    split; [assumption|].
    rewrite count_events_app, IHc.
    destruct (sendPointsThread_body_turn g w); reflexivity.
Qed.

Lemma run_moves_not_returned (ms : list Move) :
  forall t t' : Threads,
    _running (shared t) = true ->
    pump t <> PumpReturned ->
    run_moves ms t = Some t' ->
    pump t' <> PumpReturned /\ _running (shared t') = true.
Proof.
  induction ms as [|m ms IH]; intros t t' Hrun Hpc Hms; cbn in Hms.
  - now inversion Hms; subst.
  - destruct (step m t) as [t1|] eqn:Hstep; [|discriminate].
    apply (IH t1 t'); [| |assumption].
    + rewrite (step_frame m t t1 Hstep). exact Hrun.
    + destruct m as [reply|i p|i]; cbn in Hstep.
      * unfold step_pump in Hstep. rewrite Hrun in Hstep.
        destruct (pump t); try discriminate;
          repeat match type of Hstep with
                 | context [if ?b then _ else _] => destruct b
                 end;
          inversion Hstep; subst; cbn; discriminate.
      * unfold step_callback in Hstep.
        destruct (workers t i); try discriminate.
        destruct (negb _); inversion Hstep; subst; assumption.
      * unfold step_worker in Hstep.
        destruct (workers t i); try discriminate;
          repeat match type of Hstep with
                 | context [if ?b then _ else _] => destruct b
                 end;
          inversion Hstep; subst; assumption.
Qed.

(** C8. The flag is true in the initial globals and after the entry of
    [pollConnections]; no callback, turn of the submission thread or turn
    of the poll loop changes it, in any order, and [main] leaves it true;
    so the submission thread's loop condition holds at every turn: the
    thread takes every turn it is given and does not return, and in the
    statement-by-statement threads it never reaches its return. *)
Theorem running_flag_never_cleared :
  _running initial_globals = true
  /\ (forall (fuel : nat) (g : Globals) (w : W),
        _running (globals (pollConnections build fuel g w)) = true)
  /\ (forall (a : Action) (g : Globals) (w : W),
        _running (globals (run_action build a g w)) = _running g)
  /\ (forall (s : list Action) (g : Globals) (w : W),
        _running (globals (run_schedule build s g w)) = _running g)
  /\ (forall (fuel : nat) (argv : list string) (g : Globals) (w : W),
        _running g = true ->
        _running (globals (main build fuel argv g w)) = true)
  /\ (forall (fuel : nat) (g : Globals) (w : W),
        _running g = true ->
        value (sendPointsThread fuel g w) = Unfinished
        /\ count_events is_pump_sleep (events (sendPointsThread fuel g w))
           = fuel)
  /\ (forall (ms : list Move) (g : Globals) (t : Threads),
        _running g = true ->
        run_moves ms (initial_threads g) = Some t ->
        pump t <> PumpReturned /\ _running (shared t) = true).
Proof.
  split; [reflexivity|]. split; [apply pollConnections_running|].
  split.
  { intros a g w. now destruct (run_action_frame a g w) as (_ & _ & H & _). }
  split.
  { intros s g w.
    now destruct (run_schedule_frame s g w) as (_ & _ & H & _). }
  split; [apply main_running|].
  split; [intros fuel g w; apply pump_loop_unfinished|].
  intros ms g t Hrun Hms.
  apply (run_moves_not_returned ms (initial_threads g) t); auto.
  cbn. discriminate.
Qed.


Lemma nth_error_flag (argv : list string) :
  nth_error argv 1 = Some "-b" ->
  (2 <=? Z.of_nat (List.length argv)) && String.eqb (nth 1 argv "") "-b"
  = true.
Proof.
  destruct argv as [|a0 [|a1 argv]]; cbn [nth_error]; try discriminate.
  intros H. inversion H; subst. apply andb_true_iff. split.
  - apply Z.leb_le. cbn [List.length]. lia.
  - reflexivity.
Qed.

Lemma short_argv (argv : list string) :
  (List.length argv < 2)%nat ->
  (2 <=? Z.of_nat (List.length argv)) && String.eqb (nth 1 argv "") "-b"
  = false
  /\ (Z.of_nat (List.length argv) <? 2) = true.
Proof.
  intros Hlen. split.
  - apply andb_false_iff. left. apply Z.leb_gt. lia.
  - apply Z.ltb_lt. lia.
Qed.

(** C9, as the code has it.  [main] loads the configuration and, on the
    CUDA build, checks the device before it looks at its arguments.  When
    the configuration fails to load, or the device check fails, the exit
    status is 1 and nothing else happens: no call to the server, no thread,
    no benchmark, no usage line.  When both pass: with no positional
    argument the usage line is printed and the exit status is 0, with "-b"
    as first argument the benchmark runs once and the exit status is 0; in
    both cases there is no call to the server, no thread and no engine
    action, and only the configuration has changed.  The CUDA check fails
    when no device is detected or the device information cannot be read;
    the CPU build has no check. *)
Theorem main_startup (fuel : nat) (argv : list string) (g : Globals)
  (w : W) :
  let r := main build fuel argv g w in
  let w0 := snd (util_getSystemTime w) in
  (forall (err : string) (w1 : W),
     loadConfig "settings.json" w0 = (inl err, w1) ->
     value r = Some 1
     /\ globals r = g
     /\ count_events is_server_call (events r) = 0%nat
     /\ count_events is_thread_start (events r) = 0%nat
     /\ count_events is_benchmark (events r) = 0%nat
     /\ count_events is_usage (events r) = 0%nat)
  /\ (forall (cfg : ClientConfig.t) (w1 : W),
        loadConfig "settings.json" w0 = (inr cfg, w1) ->
        let d := device_check build (set_config cfg g) w1 in
        (value d = false ->
         value r = Some 1
         /\ count_events is_server_call (events r) = 0%nat
         /\ count_events is_thread_start (events r) = 0%nat
         /\ count_events is_benchmark (events r) = 0%nat
         /\ count_events is_usage (events r) = 0%nat)
        /\ (value d = true ->
            (List.length argv < 2)%nat ->
            value r = Some 0
            /\ In (EvLogInfo "usage: [options] id\n" []) (events r)
            /\ globals r = set_config cfg g
            /\ count_events is_server_call (events r) = 0%nat
            /\ count_events is_thread_start (events r) = 0%nat
            /\ count_events is_engine_action (events r) = 0%nat
            /\ count_events is_benchmark (events r) = 0%nat)
        /\ (value d = true ->
            nth_error argv 1 = Some "-b" ->
            value r = Some 0
            /\ count_events is_benchmark (events r) = 1%nat
            /\ globals r = set_config cfg g
            /\ count_events is_server_call (events r) = 0%nat
            /\ count_events is_thread_start (events r) = 0%nat
            /\ count_events is_engine_action (events r) = 0%nat)
        /\ (build = _CUDA ->
            fst (CUDA_getDeviceCount w1) = 0 ->
            value d = false)
        /\ (build = _CUDA ->
            forall e : string,
              fst (CUDA_getDeviceCount w1) <> 0 ->
              fst (CUDA_getDeviceInfo (ClientConfig.device cfg)
                     (snd (CUDA_getDeviceCount w1)))
              = inl e ->
              value d = false))
  /\ (build = _CPU ->
      forall (g' : Globals) (w' : W), value (device_check build g' w') = true).
Proof.
  cbn zeta. destruct (util_getSystemTime w) as [t w0] eqn:Ht. cbn [snd].
  split; [|split].
  - intros err w1 Hc.
    rewrite (main_config_failed fuel argv g w w0 w1 t err Ht Hc).
    cbn. repeat split.
  - intros cfg w1 Hc.
    rewrite (main_config_loaded fuel argv g w w0 w1 t cfg Ht Hc).
    pose proof (device_check_quiet (set_config cfg g) w1) as Hq.
    cbn zeta in Hq. destruct Hq as (Hg & Hsrv & Hthr & Heng & Hben).
    assert (Huse : count_events is_usage
                     (events (device_check build (set_config cfg g) w1))
                   = 0%nat).
    { unfold device_check. destruct build; [|reflexivity].
      unfold cudaInit. run_monad.
      destruct (CUDA_getDeviceCount w1) as [n w2]. cbn.
      destruct (n =? 0); cbn; [reflexivity|].
      now destruct (CUDA_getDeviceInfo _ w2) as [[e|info] w3]. }
    split; [|split; [|split; [|split]]].
    + intros Hd. rewrite Hd. cbn [negb after_events value events].
      rewrite !count_events_app, Hsrv, Hthr, Hben, Huse.
      cbn. repeat split.
    + intros Hd Hlen. rewrite Hd. cbn [negb].
      destruct (short_argv argv Hlen) as [Hb Hu]. rewrite Hb, Hu.
      cbn [after_events value globals events].
      rewrite !count_events_app, Hsrv, Hthr, Hben, Heng.
      split; [reflexivity|]. split.
      * rewrite !in_app_iff. right. cbn. tauto.
      * cbn. repeat split.
    + intros Hd Hb. rewrite Hd. cbn [negb].
      rewrite (nth_error_flag argv Hb).
      cbn [after_events value globals events].
      rewrite !count_events_app, Hsrv, Hthr, Hben, Heng.
      cbn. repeat split.
    + intros Hbuild Hn. unfold device_check. rewrite Hbuild.
      destruct (CUDA_getDeviceCount w1) as [n w2] eqn:Hcount.
      cbn in Hn. subst n.
      now rewrite (cudaInit_no_device _ w1 w2 Hcount).
    + intros Hbuild e Hn Hi. unfold device_check. rewrite Hbuild.
      destruct (CUDA_getDeviceCount w1) as [n w2] eqn:Hcount.
      cbn [fst snd] in Hn, Hi.
      destruct (CUDA_getDeviceInfo (ClientConfig.device cfg) w2)
        as [r w3] eqn:Hinfo.
      cbn [fst] in Hi. subst r.
      now rewrite (cudaInit_no_info (set_config cfg g) w1 w2 w3 n e
                     Hcount Hn Hinfo).
  - intros Hbuild g' w'. unfold device_check. now rewrite Hbuild.
Qed.


(** * Further properties of main.cpp *)

(** ** The arrays of the random walk points *)

Lemma array_set_length {A : Type} (l : list A) :
  forall (i : nat) (v : A), List.length (array_set i v l) = List.length l.
Proof.
  induction l as [|h t IH]; intros [|i] v; cbn; auto.
Qed.

Lemma nth_array_set {A : Type} (l : list A) :
  forall (i j : nat) (v d : A),
    nth j (array_set i v l) d
    = if Nat.eqb j i && Nat.ltb j (List.length l) then v else nth j l d.
Proof.
  induction l as [|h t IH]; intros i j v d.
  - destruct i, j; cbn; rewrite ?andb_false_r; reflexivity.
  - destruct i as [|i], j as [|j]; cbn [array_set nth List.length];
      try reflexivity.
    rewrite IH. reflexivity.
Qed.

Lemma copy_R_points_S (k i : nat) (m : ParamsMsg.t)
  (rx ry : list BigInteger) :
  copy_R_points (S k) i m rx ry
  = copy_R_points k (S i) m
      (array_set i (nth i (ParamsMsg.rx m) 0) rx)
      (array_set i (nth i (ParamsMsg.ry m) 0) ry).
Proof. reflexivity. Qed.

(** After the copy loop an index it has passed holds the entry of the
    reply, any other index what it held. *)
Lemma copy_R_points_nth (m : ParamsMsg.t) :
  forall (count i : nat) (rx ry : list BigInteger) (j : nat),
    (i + count <= List.length rx)%nat ->
    (i + count <= List.length ry)%nat ->
    let out := copy_R_points count i m rx ry in
    List.length (fst out) = List.length rx
    /\ List.length (snd out) = List.length ry
    /\ nth j (fst out) 0
       = (if Nat.leb i j && Nat.ltb j (i + count)
          then nth j (ParamsMsg.rx m) 0 else nth j rx 0)
    /\ nth j (snd out) 0
       = (if Nat.leb i j && Nat.ltb j (i + count)
          then nth j (ParamsMsg.ry m) 0 else nth j ry 0).
Proof.
  induction count as [|k IH]; intros i rx ry j Hx Hy; cbn zeta.
  - change (copy_R_points 0 i m rx ry) with (rx, ry). cbn [fst snd].
    repeat split.
    + destruct (Nat.leb_spec i j), (Nat.ltb_spec j (i + 0)); cbn;
        try reflexivity; lia.
    + destruct (Nat.leb_spec i j), (Nat.ltb_spec j (i + 0)); cbn;
        try reflexivity; lia.
  - rewrite copy_R_points_S.
    specialize (IH (S i) (array_set i (nth i (ParamsMsg.rx m) 0) rx)
                  (array_set i (nth i (ParamsMsg.ry m) 0) ry) j).
    rewrite !array_set_length in IH. cbn zeta in IH.
    destruct IH as (Hlx & Hly & Hnx & Hny); try lia.
    split; [exact Hlx|]. split; [exact Hly|].
    rewrite Hnx, Hny, !nth_array_set.
    destruct (Nat.leb_spec (S i) j), (Nat.ltb_spec j (S i + k)),
      (Nat.leb_spec i j), (Nat.ltb_spec j (i + S k)),
      (Nat.eqb_spec j i), (Nat.ltb_spec j (List.length rx)),
      (Nat.ltb_spec j (List.length ry));
      cbn; subst; try reflexivity; try lia.
Qed.

Lemma nth_firstn_below {A : Type} (n : nat) (l : list A) (j : nat) (d : A) :
  (j < n)%nat -> nth j (firstn n l) d = nth j l d.
Proof.
  revert l j. induction n as [|n IH]; intros l j Hj; [lia|].
  destruct l as [|h t]; [now destruct j|].
  destruct j as [|j]; cbn; [reflexivity|]. apply IH. lia.
Qed.

(** Arrays of 32 entries are overwritten by the first 32 entries of the
    reply. *)
Lemma copy_R_points_all (m : ParamsMsg.t) (rx ry : list BigInteger) :
  List.length rx = 32%nat ->
  List.length ry = 32%nat ->
  (32 <= List.length (ParamsMsg.rx m))%nat ->
  (32 <= List.length (ParamsMsg.ry m))%nat ->
  copy_R_points 32 0 m rx ry
  = (firstn 32 (ParamsMsg.rx m), firstn 32 (ParamsMsg.ry m)).
Proof.
  intros Hx Hy Hmx Hmy.
  assert (Hn := fun j => copy_R_points_nth m 32 0 rx ry j
                           ltac:(lia) ltac:(lia)).
  cbn zeta in Hn.
  rewrite (surjective_pairing (copy_R_points 32 0 m rx ry)).
  unfold BigInteger in *. f_equal.
  - apply (nth_ext _ _ 0 0).
    + destruct (Hn 0%nat) as (Hl & _). rewrite Hl, length_firstn. lia.
    + intros j Hj. destruct (Hn j) as (Hl & _ & Hx' & _).
      rewrite Hx'. rewrite Hl, Hx in Hj.
      destruct (Nat.ltb_spec j (0 + 32)); [|lia]. cbn [Nat.leb andb].
      now rewrite nth_firstn_below.
  - apply (nth_ext _ _ 0 0).
    + destruct (Hn 0%nat) as (_ & Hl & _). rewrite Hl, length_firstn. lia.
    + intros j Hj. destruct (Hn j) as (_ & Hl & _ & Hy').
      rewrite Hy'. rewrite Hl, Hy in Hj.
      destruct (Nat.ltb_spec j (0 + 32)); [|lia]. cbn [Nat.leb andb].
      now rewrite nth_firstn_below.
Qed.


(** X1. [getParameters] called on arrays of 32 entries.  When the server
    call throws, the three reference arguments come back untouched with
    the value false, after one log line.  When it returns a reply with at
    least 32 entries in each array, the arguments come back as the reply's
    nine parameters and the first 32 entries of each of its arrays,
    whatever they held before, with the value true.  Either way the
    function makes one call to the server and changes no global itself. *)
Theorem getParameters_stores_reply (params : ECDLPParams.t)
  (rx ry : list BigInteger) (g : Globals) (w : W) :
  List.length rx = 32%nat ->
  List.length ry = 32%nat ->
  let r := getParameters params rx ry g w in
  match fst (ServerConnection_getParameters (_id g) w) with
  | inl e =>
      value r = mkParametersOut false params rx ry
      /\ events r
         = [EvGetParameters (_id g) (inl e);
            EvLogInfo "Error: %s\n" [ArgStr e]]
  | inr m =>
      events r = [EvGetParameters (_id g) (inr m)]
      /\ ((32 <= List.length (ParamsMsg.rx m))%nat ->
          (32 <= List.length (ParamsMsg.ry m))%nat ->
          value r
          = mkParametersOut true
              (ECDLPParams.mk (ParamsMsg.p m) (ParamsMsg.n m)
                 (ParamsMsg.a m) (ParamsMsg.b m) (ParamsMsg.gx m)
                 (ParamsMsg.gy m) (ParamsMsg.qx m) (ParamsMsg.qy m)
                 (ParamsMsg.dBits m))
              (firstn 32 (ParamsMsg.rx m)) (firstn 32 (ParamsMsg.ry m)))
  end
  /\ globals r = g
  /\ world r = snd (ServerConnection_getParameters (_id g) w)
  /\ count_events is_server_call (events r) = 1%nat.
Proof.
  intros Hx Hy. cbn zeta.
  destruct (ServerConnection_getParameters (_id g) w) as [[e|m] w'] eqn:Hp;
    cbn [fst snd].
  - rewrite (getParameters_failed params rx ry g w w' e Hp).
    cbn. repeat split.
  - rewrite (getParameters_fetched params rx ry g w w' m Hp).
    cbn [value globals world events].
    split; [split; [reflexivity|]|repeat split].
    intros Hmx Hmy. rewrite (copy_R_points_all m rx ry Hx Hy Hmx Hmy).
    reflexivity.
Qed.

(** X2. The turn of the poll loop that launches the engine builds it from
    what it has just stored: the handle left in [_context] is an engine
    constructed from the configuration and from the very parameters and
    arrays now in [_params], [_rx] and [_ry], with 32 as the number of
    points, and the parameters are those of the reply.  The fetch comes
    first, then the construction, the initialisation and the launch of
    that same engine, then the sleep. *)
Theorem launched_engine_matches_globals (g : Globals) (w w1 w2 : W)
  (m : ParamsMsg.t) :
  ServerConnection_getStatus (_id g) w = (inr SERVER_STATUS_RUNNING, w1) ->
  _context g = None ->
  ServerConnection_getParameters (_id g) w1 = (inr m, w2) ->
  let r := pollConnections_body build g w in
  let g' := globals r in
  let cfg := _config g in
  let ctx :=
    match build with
    | _CUDA =>
        ECDLCudaContext (ClientConfig.device cfg) (ClientConfig.blocks cfg)
          (ClientConfig.threads cfg) (ClientConfig.pointsPerThread cfg)
          (_params g') (_rx g') (_ry g') 32
    | _CPU =>
        ECDLCpuContext (ClientConfig.threads cfg)
          (ClientConfig.pointsPerThread cfg) (_params g') (_rx g') (_ry g') 32
    end in
  _context g' = Some ctx
  /\ _params g'
     = ECDLPParams.mk (ParamsMsg.p m) (ParamsMsg.n m) (ParamsMsg.a m)
         (ParamsMsg.b m) (ParamsMsg.gx m) (ParamsMsg.gy m) (ParamsMsg.qx m)
         (ParamsMsg.qy m) (ParamsMsg.dBits m)
  /\ _config g' = cfg
  /\ exists before : list Event,
       events r
       = before
         ++ [EvNewContext ctx; EvContextInit ctx;
             EvThreadStart runningThread_entry; EvSleep 300]
       /\ In (EvGetParameters (_id g) (inr m)) before
       /\ count_events is_engine_action before = 0%nat.
Proof.
  intros Hs Hc Hp. cbn zeta.
  rewrite (poll_running_fetched g w w1 w2 m Hs Hc Hp).
  cbn [globals events].
  split; [unfold built_context; destruct build; reflexivity|].
  split; [reflexivity|]. split; [reflexivity|].
  eexists. split.
  - rewrite !app_assoc. f_equal.
  - split.
    + rewrite !in_app_iff. left. left. cbn. auto.
    + count_now.
Qed.


(** ** Whole runs of the loops *)

(** A property of the way a loop ended and of its trace holds of every run
    when it holds of the empty runs, of a turn that breaks, and is carried
    by a turn that continues; [I] is what the turns keep of the globals. *)
Lemma while_running_run (body : M LoopCtl) (I : Globals -> Prop)
  (Q : LoopExit -> list Event -> Prop) :
  (forall (g : Globals) (w : W), I g -> I (globals (body g w))) ->
  Q Unfinished [] ->
  Q ExitFlag [] ->
  (forall (g : Globals) (w : W),
     I g -> value (body g w) = Break -> Q ExitBreak (events (body g w))) ->
  (forall (g : Globals) (w : W) (x : LoopExit) (evs : list Event),
     I g -> value (body g w) = Continue -> Q x evs ->
     Q x (events (body g w) ++ evs)) ->
  forall (fuel : nat) (g : Globals) (w : W),
    I g ->
    Q (value (while_running fuel body g w))
      (events (while_running fuel body g w)).
Proof.
  intros Hkeep Hun Hflag Hbreak Hcont.
  induction fuel as [|k IH]; intros g w Hg.
  - now rewrite while_running_O.
  - destruct (_running g) eqn:Hrun.
    2:{ now rewrite while_running_flag. }
    rewrite while_running_turn by assumption.
    destruct (value (body g w)) eqn:Hv.
    + cbn [after_events value events]. apply Hcont; try assumption.
      apply IH. now apply Hkeep.
    + cbn [value events]. now apply Hbreak.
Qed.

Lemma count_events_none (f : Event -> bool) (evs : list Event) (e : Event) :
  count_events f evs = 0%nat -> In e evs -> f e = false.
Proof.
  unfold count_events. induction evs as [|a evs IH]; cbn; [tauto|].
  destruct (f a) eqn:Hfa; cbn; [discriminate|].
  intros H0 [->|Hin]; auto.
Qed.

(** Proves a property of every event of an explicit trace. *)
Ltac each_event :=
  rewrite ?Forall_app; unfold parameters_log, built_context_log;
  try destruct build; repeat split;
  repeat first [apply Forall_nil | apply Forall_cons; [cbn; auto|]].

(** X3. A turn of the poll loop that observes RUNNING while there is an
    engine that reports it is not running launches the run of that engine
    once more, on a new thread, and does nothing else to it: no engine is
    created or initialised, no parameters are fetched, no global changes.
    Over any number of turns, the launches of the run are as many as the
    engines created plus the polls that found the engine not running. *)
Theorem dead_engine_is_relaunched (g : Globals) (w : W) :
  (forall (w1 w2 : W) (ctx : ECDLContext),
     ServerConnection_getStatus (_id g) w = (inr SERVER_STATUS_RUNNING, w1) ->
     _context g = Some ctx ->
     ECDLContext_isRunning ctx w1 = (false, w2) ->
     let r := pollConnections_body build g w in
     count_events is_run_launch (events r) = 1%nat
     /\ count_events is_new_context (events r) = 0%nat
     /\ count_events is_init (events r) = 0%nat
     /\ count_events is_fetch (events r) = 0%nat
     /\ globals r = g
     /\ value r = Continue)
  /\ (forall fuel : nat,
        let evs := events (pollConnections build fuel g w) in
        count_events is_run_launch evs
        = (count_events is_new_context evs
           + count_events is_dead_reply evs)%nat).
Proof.
  split.
  - intros w1 w2 ctx Hs Hc Hr. cbn zeta.
    rewrite (poll_running_relaunch g w w1 w2 ctx Hs Hc Hr).
    cbn [events globals value]. repeat split; count_now.
  - intros fuel. cbn zeta. rewrite pollConnections_run.
    cbn [after_events events]. rewrite !count_events_app.
    change (count_events is_run_launch [EvThreadStart sendPointsThread_entry])
      with 0%nat.
    change (count_events is_new_context
              [EvThreadStart sendPointsThread_entry]) with 0%nat.
    change (count_events is_dead_reply
              [EvThreadStart sendPointsThread_entry]) with 0%nat.
    cbn [Nat.add].
    apply (while_running_run (pollConnections_body build) (fun _ => True)
             (fun _ evs =>
                count_events is_run_launch evs
                = (count_events is_new_context evs
                   + count_events is_dead_reply evs)%nat));
      try reflexivity; auto.
    + intros g0 w0 _ _. poll_cases g0 w0; count_now.
    + intros g0 w0 x evs _ _ IH. rewrite !count_events_app, IH.
      assert (Hturn : count_events is_run_launch
                        (events (pollConnections_body build g0 w0))
                      = (count_events is_new_context
                           (events (pollConnections_body build g0 w0))
                         + count_events is_dead_reply
                             (events (pollConnections_body build g0 w0)))%nat)
        by (poll_cases g0 w0; count_now).
      lia.
Qed.



(** X13. The poll loop does nothing after it has deleted the engine.  In
    every run, when the engine is deleted the loop has ended by its break,
    the deletion is the last action of the run and the stop of the same
    engine comes right before it; an engine is deleted at most once. *)
Theorem engine_deleted_last (fuel : nat) (g : Globals) (w : W)
  (ctx : ECDLContext) :
  let r := while_running fuel (pollConnections_body build) g w in
  In (EvContextDelete ctx) (events r) ->
  value r = ExitBreak
  /\ exists before : list Event,
       events r = before ++ [EvContextStop ctx; EvContextDelete ctx]
       /\ count_events is_delete before = 0%nat
       /\ count_events is_stop before = 0%nat.
Proof.
  cbn zeta.
  apply (while_running_run (pollConnections_body build) (fun _ => True)
           (fun x evs =>
              In (EvContextDelete ctx) evs ->
              x = ExitBreak
              /\ exists before : list Event,
                   evs = before ++ [EvContextStop ctx; EvContextDelete ctx]
                   /\ count_events is_delete before = 0%nat
                   /\ count_events is_stop before = 0%nat));
    auto; try (cbn; tauto).
  - intros g0 w0 _. poll_cases g0 w0; cbn [value events];
      try discriminate; intros _ Hin; cbn in Hin;
      repeat (destruct Hin as [Hin|Hin]; try discriminate);
      try contradiction.
    inversion Hin; subst. split; [reflexivity|].
    eexists [_; _; _; _]. cbn. repeat split.
  - intros g0 w0 x evs _ Hv IH Hin.
    assert (Hturn : count_events is_delete
                      (events (pollConnections_body build g0 w0)) = 0%nat
                    /\ count_events is_stop
                         (events (pollConnections_body build g0 w0))
                       = 0%nat).
    { revert Hv. poll_cases g0 w0; cbn [value events];
        try discriminate; intros _; split; count_now. }
    destruct Hturn as [Hd Hs].
    apply in_app_or in Hin. destruct Hin as [Hin|Hin].
    + pose proof (count_events_none _ _ _ Hd Hin). discriminate.
    + destruct (IH Hin) as (Hx & before & Hev & Hd' & Hs').
      split; [assumption|].
      exists (events (pollConnections_body build g0 w0) ++ before).
      rewrite Hev, app_assoc, !count_events_app. repeat split; lia.
Qed.

(** X5. [pollConnections] starts the submission thread once, first of
    all, and never again: in every run the first action is the start of
    that thread and no later action starts it; nor does any turn of the
    loop, a callback or a turn of the submission thread itself. *)
Theorem submission_thread_started_once (fuel : nat) (g : Globals) (w : W) :
  (exists rest : list Event,
     events (pollConnections build fuel g w)
     = EvThreadStart sendPointsThread_entry :: rest
     /\ count_events is_pump_start rest = 0%nat)
  /\ (forall (s : list Action),
        count_events is_pump_start (events (run_schedule build s g w))
        = 0%nat).
Proof.
  split.
  - rewrite pollConnections_run. cbn [after_events events app].
    eexists. split; [reflexivity|].
    apply (while_running_run (pollConnections_body build) (fun _ => True)
             (fun _ evs => count_events is_pump_start evs = 0%nat)); auto.
    + intros g0 w0 _ _. poll_cases g0 w0; count_now.
    + intros g0 w0 x evs _ _ IH. rewrite count_events_app, IH.
      poll_cases g0 w0; count_now.
  - intros s. revert g w. induction s as [|a s IH]; intros g w.
    + reflexivity.
    + rewrite run_schedule_cons.
      assert (Ha : count_events is_pump_start
                     (events (run_action build a g w)) = 0%nat).
      { destruct a as [p| |]; cbn [run_action]; rewrite ?seq_ret;
          cbn [events].
        - destruct (candidate_valid g p) eqn:Hv.
          + now rewrite (pointFoundCallback_valid p g w Hv).
          + now rewrite (pointFoundCallback_invalid p g w Hv).
        - now destruct (sendPointsThread_body_turn g w).
        - poll_cases g w; count_now. }
      destruct (value (run_action build a g w)).
      * cbn [after_events events]. now rewrite count_events_app, Ha, IH.
      * exact Ha.
Qed.

Lemma enterEventLoop_failed (fuel : nat) (g : Globals) (w w2 : W)
  (err : string) :
  ServerConnection_new (ClientConfig.serverHost (_config g))
    (ClientConfig.serverPort (_config g)) w
  = (inl err, w2) ->
  enterEventLoop build fuel g w
  = mkResult NotEntered g w2
      [EvNewServerConnection (ClientConfig.serverHost (_config g))
         (ClientConfig.serverPort (_config g)) (inl err);
       EvLogError "Error: %s" [ArgStr err]].
Proof.
  intros Hn. unfold enterEventLoop. run_monad. rewrite Hn. reflexivity.
Qed.

Lemma enterEventLoop_connected (fuel : nat) (g : Globals) (w w2 : W)
  (conn : ServerConnection.t) :
  ServerConnection_new (ClientConfig.serverHost (_config g))
    (ClientConfig.serverPort (_config g)) w
  = (inr conn, w2) ->
  enterEventLoop build fuel g w
  = after_events
      [EvNewServerConnection (ClientConfig.serverHost (_config g))
         (ClientConfig.serverPort (_config g)) (inr conn)]
      (pollConnections build fuel (set_serverConnection (Some conn) g) w2).
Proof.
  intros Hn. unfold enterEventLoop, after_events. run_monad. rewrite Hn.
  cbn. now destruct (pollConnections build fuel _ w2).
Qed.

(** The calls of a turn of the poll loop name the id in [_id]. *)
Lemma poll_uses_id (g : Globals) (w : W) :
  Forall (uses_id (_id g)) (events (pollConnections_body build g w)).
Proof. poll_cases g w; each_event. Qed.

(** X6. The problem id is set once and every call that names a problem
    names it.  In every run of [main] whose first argument is [id], every
    status call and every fetch of the parameters names [id]; and from any
    globals, whatever the candidates delivered and the turns of the two
    loops, every status call, fetch and submission names the id in [_id],
    which no action changes. *)
Theorem every_call_names_the_id (id : string) :
  (forall (fuel : nat) (argv : list string) (g : Globals) (w : W),
     nth_error argv 1 = Some id ->
     Forall (uses_id id) (events (main build fuel argv g w)))
  /\ (forall (s : list Action) (g : Globals) (w : W),
        _id g = id ->
        Forall (uses_id id) (events (run_schedule build s g w))
        /\ _id (globals (run_schedule build s g w)) = id).
Proof.
  assert (Hloop : forall (fuel : nat) (g : Globals) (w : W),
             _id g = id ->
             Forall (uses_id id)
               (events (while_running fuel (pollConnections_body build) g w))).
  { intros fuel g w Hid.
    apply (while_running_run (pollConnections_body build)
             (fun g0 => _id g0 = id) (fun _ evs => Forall (uses_id id) evs));
      auto.
    - intros g0 w0 Hg0.
      pose proof (poll_frame g0 w0) as Hf. cbn zeta in Hf.
      destruct Hf as (_ & Hf & _). congruence.
    - intros g0 w0 Hg0 _. rewrite <- Hg0. apply poll_uses_id.
    - intros g0 w0 x evs Hg0 _ IH. apply Forall_app. split; [|exact IH].
      rewrite <- Hg0. apply poll_uses_id. }
  split.
  - intros fuel argv g w Harg.
    destruct (util_getSystemTime w) as [t w0] eqn:Ht.
    destruct (loadConfig "settings.json" w0) as [[err|cfg] w1] eqn:Hc.
    + rewrite (main_config_failed fuel argv g w w0 w1 t err Ht Hc).
      each_event.
    + rewrite (main_config_loaded fuel argv g w w0 w1 t cfg Ht Hc).
      cbn [after_events events].
      assert (Hdev : Forall (uses_id id)
                       (events (device_check build (set_config cfg g) w1))).
      { unfold device_check. destruct build; [|constructor].
        unfold cudaInit. run_monad.
        destruct (CUDA_getDeviceCount w1) as [n w2]. cbn.
        destruct (n =? 0); cbn; [each_event|].
        destruct (CUDA_getDeviceInfo _ w2) as [[e|info] w3]; cbn;
          each_event. }
      rewrite !Forall_app. split; [split; [each_event|exact Hdev]|].
      destruct (negb _); [constructor|].
      destruct (_ && _); [each_event|].
      destruct (_ <? _); [each_event|].
      cbn [events].
      assert (Hnth : nth 1 argv "" = id).
      { destruct argv as [|a0 [|a1 argv]]; cbn in *; congruence. }
      rewrite Hnth.
      destruct (ServerConnection_new
                  (ClientConfig.serverHost
                     (_config (set_id id (set_config cfg g))))
                  (ClientConfig.serverPort
                     (_config (set_id id (set_config cfg g))))
                  (world (device_check build (set_config cfg g) w1)))
        as [[err|conn] w2] eqn:Hn.
      * rewrite (enterEventLoop_failed fuel _ _ w2 err Hn). each_event.
      * rewrite (enterEventLoop_connected fuel _ _ w2 conn Hn).
        rewrite pollConnections_run. cbn [after_events events].
        rewrite !Forall_app. split; [each_event|]. split; [each_event|].
        now apply Hloop.
  - intros s. induction s as [|a s IH]; intros g w Hid.
    + split; [constructor|exact Hid].
    + rewrite run_schedule_cons.
      assert (Ha : Forall (uses_id id) (events (run_action build a g w))).
      { destruct a as [p| |]; cbn [run_action]; rewrite ?seq_ret;
          cbn [events].
        - destruct (candidate_valid g p) eqn:Hv.
          + rewrite (pointFoundCallback_valid p g w Hv). each_event.
          + rewrite (pointFoundCallback_invalid p g w Hv). each_event.
        - destruct (sendPointsThread_body_turn g w); each_event.
        - rewrite <- Hid. apply poll_uses_id. }
      pose proof (run_action_frame a g w) as Hf. cbn zeta in Hf.
      destruct Hf as (Hid' & _).
      destruct (value (run_action build a g w)).
      * cbn [after_events events globals].
        destruct (IH (globals (run_action build a g w))
                    (world (run_action build a g w)))
          as [IHf IHi]; [congruence|].
        split; [apply Forall_app; now split|exact IHi].
      * cbn [events globals]. split; [exact Ha|congruence].
Qed.


(** ** Program entry and the connection *)

Lemma poll_loop_connection (fuel : nat) :
  forall (g : Globals) (w : W),
    _serverConnection
      (globals (while_running fuel (pollConnections_body build) g w))
    = _serverConnection g
    /\ _id (globals (while_running fuel (pollConnections_body build) g w))
       = _id g
    /\ _config
         (globals (while_running fuel (pollConnections_body build) g w))
       = _config g.
Proof.
  induction fuel as [|k IH]; intros g w.
  - now rewrite while_running_O.
  - destruct (_running g) eqn:Hrun.
    2:{ now rewrite while_running_flag. }
    rewrite while_running_turn by assumption.
    pose proof (poll_frame g w) as Hf. cbn zeta in Hf.
    destruct Hf as (_ & Hid & Hcfg & _ & Hconn & _).
    destruct (value (pollConnections_body build g w)).
    + cbn [after_events globals].
      destruct (IH (globals (pollConnections_body build g w))
                  (world (pollConnections_body build g w)))
        as (IHc & IHi & IHcfg).
      repeat split; congruence.
    + cbn [globals]. repeat split; assumption.
Qed.

(** X4. The exit status of [main] and the connection to the server.  The
    status is 1 exactly when settings.json fails to load or the device
    check fails.  With the configuration loaded, the check passed and a
    first argument other than "-b": when the connection to the host and
    port of the configuration cannot be made, the error is logged and the
    exit status is 0, without a status call, a thread or a change to
    [_serverConnection]; when it is made, it is stored in
    [_serverConnection] and the poll loop is entered, with the first
    argument in [_id], the loaded configuration in [_config] and the flag
    set, and [main] ends with status 0 if the loop ends. *)
Theorem main_exit_status (fuel : nat) (argv : list string) (g : Globals)
  (w : W) :
  let r := main build fuel argv g w in
  let w0 := snd (util_getSystemTime w) in
  let loaded := loadConfig "settings.json" w0 in
  (value r = Some 1 <->
   match fst loaded with
   | inl _ => True
   | inr cfg =>
       value (device_check build (set_config cfg g) (snd loaded)) = false
   end)
  /\ (forall (cfg : ClientConfig.t) (id : string),
        fst loaded = inr cfg ->
        let d := device_check build (set_config cfg g) (snd loaded) in
        let connected :=
          ServerConnection_new (ClientConfig.serverHost cfg)
            (ClientConfig.serverPort cfg) (world d) in
        value d = true ->
        nth_error argv 1 = Some id ->
        id <> "-b" ->
        match fst connected with
        | inl err =>
            value r = Some 0
            /\ In (EvLogError "Error: %s" [ArgStr err]) (events r)
            /\ count_events is_status_poll (events r) = 0%nat
            /\ count_events is_thread_start (events r) = 0%nat
            /\ _serverConnection (globals r) = _serverConnection g
        | inr conn =>
            _serverConnection (globals r) = Some conn
            /\ _id (globals r) = id
            /\ _config (globals r) = cfg
            /\ _running (globals r) = true
            /\ count_events is_pump_start (events r) = 1%nat
            /\ (value r = Some 0 \/ value r = None)
        end).
Proof.
  cbn zeta. destruct (util_getSystemTime w) as [t w0] eqn:Ht. cbn [snd].
  destruct (loadConfig "settings.json" w0) as [[err|cfg] w1] eqn:Hc;
    cbn [fst snd].
  - rewrite (main_config_failed fuel argv g w w0 w1 t err Ht Hc).
    cbn [value]. split; [tauto|]. intros cfg id Hcfg. discriminate.
  - rewrite (main_config_loaded fuel argv g w w0 w1 t cfg Ht Hc).
    cbn [after_events value globals events].
    split.
    + destruct (value (device_check build (set_config cfg g) w1));
        cbn [negb value]; [|tauto].
      split; [|discriminate].
      repeat match goal with
             | |- context [if ?b then _ else _] => destruct b
             end; cbn [value]; try discriminate.
      destruct (value (enterEventLoop _ _ _ _)); discriminate.
    + intros cfg' id Hcfg Hd Harg Hnb. inversion Hcfg; subst cfg'.
      rewrite Hd. cbn [negb].
      assert (Hnth : nth 1 argv "" = id).
      { destruct argv as [|a0 [|a1 argv]]; cbn in *; congruence. }
      assert (Hlen : (Z.of_nat (List.length argv) <? 2) = false).
      { apply Z.ltb_ge.
        destruct argv as [|a0 [|a1 argv]]; cbn in Harg; try discriminate.
        cbn [List.length]. lia. }
      rewrite Hnth, Hlen.
      assert (Hb : String.eqb id "-b" = false) by now apply String.eqb_neq.
      rewrite Hb, andb_false_r. cbn [value globals world events].
      assert (Hq := device_check_quiet (set_config cfg g) w1).
      cbn zeta in Hq. destruct Hq as (_ & Hsrv & Hthr & _).
      destruct (ServerConnection_new (ClientConfig.serverHost cfg)
                  (ClientConfig.serverPort cfg)
                  (world (device_check build (set_config cfg g) w1)))
        as [[err|conn] w2] eqn:Hn; cbn [fst].
      * rewrite (enterEventLoop_failed fuel
                   (set_id id (set_config cfg g)) _ w2 err Hn).
        cbn [value globals events].
        split; [reflexivity|]. split.
        { rewrite !in_app_iff. right. cbn. auto. }
        rewrite !count_events_app, Hthr.
        assert (Hpoll : count_events is_status_poll
                          (events (device_check build (set_config cfg g) w1))
                        = 0%nat).
        { clear - Hsrv. revert Hsrv. unfold count_events.
          induction (events _) as [|e l IHl]; [reflexivity|].
          cbn. destruct e; cbn; try discriminate; auto. }
        rewrite Hpoll. cbn. repeat split.
      * rewrite (enterEventLoop_connected fuel
                   (set_id id (set_config cfg g)) _ w2 conn Hn).
        rewrite pollConnections_run.
        cbn [after_events value globals events].
        destruct (poll_loop_connection fuel
                    (set_running true
                       (set_serverConnection (Some conn)
                          (set_id id (set_config cfg g)))) w2)
          as (Hconn & Hid & Hcfg').
        split; [exact Hconn|]. split; [exact Hid|]. split; [exact Hcfg'|].
        split; [now rewrite poll_loop_running|].
        split.
        { rewrite !count_events_app.
          assert (Hdev : count_events is_pump_start
                           (events (device_check build (set_config cfg g) w1))
                         = 0%nat).
          { revert Hthr. unfold count_events. clear.
            induction (events _) as [|e l IHl]; [reflexivity|].
            cbn. destruct e; cbn; try discriminate; auto. }
          assert (Hloop : count_events is_pump_start
                            (events
                               (while_running fuel
                                  (pollConnections_body build)
                                  (set_running true
                                     (set_serverConnection (Some conn)
                                        (set_id id (set_config cfg g))))
                                  w2))
                          = 0%nat).
          { apply (while_running_run (pollConnections_body build)
                     (fun _ => True)
                     (fun _ evs => count_events is_pump_start evs = 0%nat));
              auto.
            - intros g0 w3 _ _. poll_cases g0 w3; count_now.
            - intros g0 w3 x evs _ _ IH. rewrite count_events_app, IH.
              poll_cases g0 w3; count_now. }
          rewrite Hdev, Hloop. reflexivity. }
        destruct (value (while_running _ _ _ _)); auto.
Qed.

(** X7. [cudaInit] returns true exactly when a device is counted and the
    information of the configured device can be read; it then logs the
    memory of the device divided by 2^20, the quotient truncated.  It
    never changes a global. *)
Theorem cudaInit_accepts_readable_device (g : Globals) (w : W) :
  let r := cudaInit g w in
  let counted := CUDA_getDeviceCount w in
  let read :=
    CUDA_getDeviceInfo (ClientConfig.device (_config g)) (snd counted) in
  (value r = true <->
   fst counted <> 0 /\ exists info : DeviceInfo.t, fst read = inr info)
  /\ (forall info : DeviceInfo.t,
        fst counted <> 0 ->
        fst read = inr info ->
        In (EvLogInfo "Memory:   %lldMB"
              [ArgInt (Z.quot (DeviceInfo.globalMemory info) 1048576)])
          (events r))
  /\ globals r = g.
Proof.
  cbn zeta. unfold cudaInit. run_monad.
  destruct (CUDA_getDeviceCount w) as [n w1]. cbn.
  destruct (Z.eqb_spec n 0) as [->|Hn]; cbn.
  - split; [|split; [|reflexivity]].
    + split; [discriminate|]. intros [H _]. now elim H.
    + intros info H. now elim H.
  - destruct (CUDA_getDeviceInfo (ClientConfig.device (_config g)) w1)
      as [[e|info] w2]; cbn.
    + split; [|split; [|reflexivity]].
      * split; [discriminate|]. intros [_ [info H]]. discriminate.
      * intros info _ H. discriminate.
    + split; [|split; [|reflexivity]].
      * split; [eauto|reflexivity].
      * intros info' _ H. inversion H; subst info'.
        change (Z.shiftl 2 19) with 1048576. auto 10.
Qed.


(** ** The cache over many deliveries and turns *)

Lemma accepted_params (g g' : Globals) (s : list Action) :
  _params g' = _params g -> accepted g' s = accepted g s.
Proof.
  intros Hp. unfold accepted, candidate_valid. now rewrite Hp.
Qed.

(** X10. Deliveries compose.  After any sequence of candidates delivered
    to the callback, the cache is the old cache followed by the points of
    the candidates that are on the curve, in the order of delivery, one
    point per delivery: a candidate delivered twice is cached twice, and a
    candidate off the curve leaves no trace in the cache.  Nothing else
    changes and no call is made to the server. *)
Theorem deliveries_append_in_order (ps : list CallbackParameters.t) :
  forall (g : Globals) (w : W),
    let r := run_schedule build (map ActCallback ps) g w in
    _pointsCache (globals r)
    = _pointsCache g ++ map point_of (filter (candidate_valid g) ps)
    /\ globals r = set_pointsCache (_pointsCache (globals r)) g
    /\ world r = w
    /\ value r = Continue
    /\ count_events is_server_call (events r) = 0%nat.
Proof.
  induction ps as [|p ps IH]; intros g w; cbn zeta.
  - cbn. rewrite app_nil_r. now destruct g.
  - cbn [map]. rewrite run_schedule_cons. cbn [run_action].
    rewrite seq_ret. cbn [value after_events globals world events filter].
    destruct (candidate_valid g p) eqn:Hv.
    + rewrite (pointFoundCallback_valid p g w Hv).
      cbn [globals world events].
      specialize (IH (set_pointsCache (_pointsCache g ++ [point_of p]) g) w).
      cbn zeta in IH. destruct IH as (Hc & Hg & Hw & Hval & Hn).
      assert (Hf : filter
                     (candidate_valid
                        (set_pointsCache (_pointsCache g ++ [point_of p]) g))
                     ps
                   = filter (candidate_valid g) ps) by reflexivity.
      rewrite Hf in Hc. cbn [set_pointsCache _pointsCache] in Hc.
      split; [rewrite Hc, <- app_assoc; reflexivity|].
      split; [rewrite Hg at 1; reflexivity|].
      split; [exact Hw|]. split; [exact Hval|].
      rewrite count_events_app, Hn. reflexivity.
    + rewrite (pointFoundCallback_invalid p g w Hv).
      cbn [globals world events].
      specialize (IH g w). cbn zeta in IH.
      destruct IH as (Hc & Hg & Hw & Hval & Hn).
      split; [exact Hc|]. split; [exact Hg|]. split; [exact Hw|].
      split; [exact Hval|].
      rewrite count_events_app, Hn. reflexivity.
Qed.

(** X11. No point is lost and none is sent twice with success.  After
    any sequence of deliveries and turns of the submission thread, some of
    whose submissions may fail, the points of the accepted submissions, in
    order, followed by the cache, are the initial cache followed by the
    points of the candidates on the curve, in the order of delivery. *)
Theorem points_are_conserved (s : list Action) :
  forall (g : Globals) (w : W),
    forallb (fun a => negb (is_poll a)) s = true ->
    let r := run_schedule build s g w in
    sent_ok (events r) ++ _pointsCache (globals r)
    = _pointsCache g ++ accepted g s.
Proof.
  assert (Hsent : forall a b, sent_ok (a ++ b) = sent_ok a ++ sent_ok b)
    by (intros a b; unfold sent_ok; apply flat_map_app).
  induction s as [|a s IH]; intros g w Hs; cbn zeta.
  - cbn. now rewrite app_nil_r.
  - cbn [forallb] in Hs. apply andb_prop in Hs as [Ha Hs].
    rewrite run_schedule_cons.
    destruct a as [p| |]; [| |discriminate]; cbn [run_action];
      rewrite seq_ret; cbn [value after_events globals world events].
    + (* a delivery *)
      change (accepted g (ActCallback p :: s))
        with ((if candidate_valid g p then [point_of p] else [])
              ++ accepted g s).
      destruct (candidate_valid g p) eqn:Hv.
      * rewrite (pointFoundCallback_valid p g w Hv).
        cbn [globals world events].
        rewrite Hsent, <- app_assoc, (IH _ w Hs).
        cbn [sent_ok flat_map app set_pointsCache _pointsCache].
        rewrite (accepted_params g) by reflexivity.
        now rewrite <- app_assoc.
      * rewrite (pointFoundCallback_invalid p g w Hv).
        cbn [globals world events].
        rewrite Hsent, <- app_assoc, (IH g w Hs). reflexivity.
    + (* a turn of the submission thread *)
      change (accepted g (ActPump :: s)) with (accepted g s).
      destruct (sendPointsThread_body_turn g w) as [Ht|u w' Ht Hu|err w' Ht Hu];
        cbn [globals world events]; rewrite Hsent, <- app_assoc.
      * rewrite (IH g w Hs). reflexivity.
      * rewrite (IH _ w' Hs).
        cbn [sent_ok flat_map app set_pointsCache _pointsCache].
        rewrite (accepted_params g) by reflexivity.
        now rewrite !app_nil_r.
      * rewrite (IH g w' Hs). reflexivity.
Qed.

(** X14. With a threshold of 0 the submission thread submits at every
    turn, the empty list when the cache is empty: over any number of turns
    taken with the flag set there are as many submissions as turns. *)
Theorem zero_threshold_submits_every_turn (fuel : nat) :
  forall (g : Globals) (w : W),
    ClientConfig.pointCacheSize (_config g) = 0%N ->
    _running g = true ->
    count_events is_submit (events (sendPointsThread fuel g w)) = fuel
    /\ (_pointsCache g = [] ->
        exists reply : Thrown unit,
          In (EvSubmitPoints (_id g) [] reply)
            (events (sendPointsThread_body g w))).
Proof.
  unfold sendPointsThread.
  induction fuel as [|k IH]; intros g w Hzero Hrun.
  - rewrite while_running_O. split; [reflexivity|].
    intros Hc. rewrite <- Hc. apply pump_turn_submits.
    unfold threshold_met. rewrite Hzero. apply N.leb_le. lia.
  - assert (Ht : threshold_met g = true)
      by (unfold threshold_met; rewrite Hzero; apply N.leb_le; lia).
    split.
    + rewrite while_running_turn by assumption. rewrite seq_ret.
      cbn [value globals world events after_events].
      rewrite count_events_app.
      destruct (sendPointsThread_body_turn g w) as [Hb|u w' _ Hu|err w' _ Hu];
        [congruence| |]; cbn [globals world events].
      * now rewrite (proj1 (IH (set_pointsCache [] g) w' Hzero Hrun)).
      * now rewrite (proj1 (IH g w' Hzero Hrun)).
    + intros Hc. rewrite <- Hc. now apply pump_turn_submits.
Qed.

(** X15. Each activity keeps to its own calls.  The callback makes no
    call to the server and never sleeps; a turn of the submission thread
    makes no status call and no fetch and acts on no engine; a turn of
    the poll loop makes no submission, never takes the lock and does not
    touch the cache. *)
Theorem activities_keep_to_their_calls (g : Globals) (w : W) :
  (forall p : CallbackParameters.t,
     let r := pointFoundCallback p g w in
     count_events is_server_call (events r) = 0%nat
     /\ count_events is_sleep (events r) = 0%nat
     /\ count_events is_engine_action (events r) = 0%nat)
  /\ (let r := sendPointsThread_body g w in
      count_events is_status_poll (events r) = 0%nat
      /\ count_events is_fetch (events r) = 0%nat
      /\ count_events is_engine_action (events r) = 0%nat
      /\ _context (globals r) = _context g
      /\ _params (globals r) = _params g)
  /\ (let r := pollConnections_body build g w in
      count_events is_submit (events r) = 0%nat
      /\ count_events is_lock_action (events r) = 0%nat
      /\ _pointsCache (globals r) = _pointsCache g).
Proof.
  split; [|split].
  - intros p. cbn zeta. destruct (candidate_valid g p) eqn:Hv.
    + rewrite (pointFoundCallback_valid p g w Hv). repeat split.
    + rewrite (pointFoundCallback_invalid p g w Hv). repeat split.
  - cbn zeta. destruct (sendPointsThread_body_turn g w); repeat split.
  - cbn zeta. poll_cases g w; cbn [events globals]; repeat split;
      count_now.
Qed.


(** ** The lock among the threads *)

(** X8. Mutual exclusion.  In every state the submission thread and the
    workers can reach, at most one thread stands between its grab and its
    release of [_pointsMutex]: two workers never do, a worker and the
    submission thread never do, and the mutex is free exactly when no
    thread does. *)
Theorem one_thread_in_the_critical_section (ms : list Move) (g : Globals)
  (t : Threads) :
  run_moves ms (initial_threads g) = Some t ->
  (forall i j : nat,
     worker_in_section (workers t i) = true ->
     worker_in_section (workers t j) = true ->
     i = j)
  /\ (pump_in_section (pump t) = true ->
      forall i : nat, worker_in_section (workers t i) = false)
  /\ (mutex t = Free <->
      pump_in_section (pump t) = false
      /\ forall i : nat, worker_in_section (workers t i) = false).
Proof.
  intros Hrun.
  pose proof (run_moves_inv ms _ _ (lock_inv_initial g) Hrun) as [Hp Hw].
  assert (Hworker : forall i : nat,
             worker_in_section (workers t i) = true ->
             mutex t = HeldByWorker i).
  { intros i Hi. specialize (Hw i). unfold worker_inv in Hw.
    destruct (workers t i); try discriminate; tauto. }
  assert (Hpump : pump_in_section (pump t) = true -> mutex t = HeldByPump).
  { intros Hi. unfold pump_inv in Hp.
    destruct (pump t); try discriminate; tauto. }
  split; [|split].
  - intros i j Hi Hj. apply Hworker in Hi, Hj. congruence.
  - intros Hi i. apply Hpump in Hi.
    apply Bool.not_true_is_false. intros Hwi.
    apply Hworker in Hwi. congruence.
  - split.
    + intros Hfree. split.
      * apply Bool.not_true_is_false. intros Hi.
        apply Hpump in Hi. congruence.
      * intros i. apply Bool.not_true_is_false. intros Hwi.
        apply Hworker in Hwi. congruence.
    + intros [Hnp Hnw]. destruct (mutex t) as [| |i] eqn:Hm; [reflexivity| |].
      * unfold pump_inv in Hp. rewrite Hm in Hp.
        destruct (pump t); try discriminate; congruence.
      * specialize (Hw i). specialize (Hnw i). unfold worker_inv in Hw.
        rewrite Hm in Hw. destruct (workers t i); try discriminate;
          congruence.
Qed.

(** X9. The lock is never held for long, provided the server call
    returns.  In every state the threads can reach in which the mutex is
    held, the thread that holds it is not blocked: by moves of that thread
    alone, at most two for a worker and at most four for the submission
    thread, the mutex is free again. *)
Theorem holder_frees_the_lock (ms : list Move) (g : Globals) (t : Threads) :
  run_moves ms (initial_threads g) = Some t ->
  mutex t <> Free ->
  exists (own : list Move) (t' : Threads),
    run_moves own t = Some t'
    /\ mutex t' = Free
    /\ Forall (move_of_owner (mutex t)) own
    /\ (List.length own
        <= match mutex t with HeldByWorker _ => 2 | _ => 4 end)%nat.
Proof.
  intros Hrun Hheld.
  pose proof (run_moves_inv ms _ _ (lock_inv_initial g) Hrun) as [Hp Hw].
  destruct (mutex t) as [| |i] eqn:Hm; [congruence| |].
  - unfold pump_inv in Hp. rewrite Hm in Hp.
    destruct (pump t) as [| |held|held points|held points success| | |] eqn:Hpc;
      try congruence.
    + destruct (threshold_met (shared t)) eqn:Ht.
      * exists (repeat (MovePump (inr tt)) 4). eexists.
        cbn. unfold step_pump at 1. rewrite Hpc.
        unfold threshold_met in Ht. rewrite Ht. cbn.
        repeat split; repeat constructor.
      * exists (repeat (MovePump (inr tt)) 2). eexists.
        cbn. unfold step_pump at 1. rewrite Hpc.
        unfold threshold_met in Ht. rewrite Ht. cbn.
        repeat split; repeat constructor.
    + exists (repeat (MovePump (inr tt)) 3). eexists.
      cbn. unfold step_pump at 1. rewrite Hpc. cbn.
      repeat split; repeat constructor.
    + destruct success; exists (repeat (MovePump (inr tt)) 2); eexists;
        cbn; unfold step_pump at 1; rewrite Hpc; cbn;
        repeat split; repeat constructor.
    + exists [MovePump (inr tt)]. eexists.
      cbn. unfold step_pump. rewrite Hpc.
      repeat split; repeat constructor.
  - pose proof (Hw i) as Hwi. unfold worker_inv in Hwi. rewrite Hm in Hwi.
    destruct (workers t i) as [|p|p held|p held] eqn:Hpc; try congruence.
    + exists [MoveWorker i; MoveWorker i]. eexists.
      cbn. unfold step_worker at 1. rewrite Hpc.
      unfold step_worker. cbn. rewrite set_worker_same.
      repeat split; repeat constructor.
    + exists [MoveWorker i]. eexists.
      cbn. unfold step_worker. rewrite Hpc.
      repeat split; repeat constructor.
Qed.


Lemma lock_pairs_app (n k : nat) :
  lock_pairs n ++ lock_pairs k = lock_pairs (n + k).
Proof.
  unfold lock_pairs. now rewrite repeat_app, concat_app.
Qed.

(** X16. The lock is released on every path.  A turn of the submission
    thread grabs the mutex first and releases it last before its sleep,
    whether it submitted or not and whether the submission failed or not;
    the call to the server, when there is one, lies between the two, and
    the sleep outside.  In the trace of any sequence of deliveries and
    turns, the lock actions are grabs each followed at once by its
    release. *)
Theorem lock_released_on_every_path (g : Globals) (w : W) :
  (exists inside : list Event,
     events (sendPointsThread_body g w)
     = EvMutexGrab :: inside ++ [EvMutexRelease; EvSleep 30]
     /\ count_events is_lock_action inside = 0%nat
     /\ count_events is_sleep inside = 0%nat
     /\ count_events is_server_call inside
        = count_events is_server_call (events (sendPointsThread_body g w)))
  /\ (forall s : list Action,
        exists n : nat,
          filter is_lock_action (events (run_schedule build s g w))
          = lock_pairs n).
Proof.
  split.
  - destruct (sendPointsThread_body_turn g w); cbn [events].
    + exists []. repeat split.
    + eexists [_; _; _]. repeat split.
    + eexists [_; _; _; _]. repeat split.
  - intros s. revert g w. induction s as [|a s IH]; intros g w.
    + exists 0%nat. reflexivity.
    + rewrite run_schedule_cons.
      assert (Ha : exists n : nat,
                 filter is_lock_action (events (run_action build a g w))
                 = lock_pairs n).
      { destruct a as [p| |]; cbn [run_action]; rewrite ?seq_ret;
          cbn [events].
        - destruct (candidate_valid g p) eqn:Hv.
          + rewrite (pointFoundCallback_valid p g w Hv). now exists 1%nat.
          + rewrite (pointFoundCallback_invalid p g w Hv). now exists 0%nat.
        - destruct (sendPointsThread_body_turn g w); now exists 1%nat.
        - exists 0%nat.
          poll_cases g w; cbn [events]; rewrite ?filter_app;
            unfold parameters_log, built_context_log;
            try destruct build; reflexivity. }
      destruct Ha as [n Hn].
      destruct (value (run_action build a g w)).
      * cbn [after_events events].
        destruct (IH (globals (run_action build a g w))
                    (world (run_action build a g w))) as [k Hk].
        exists (n + k)%nat. now rewrite filter_app, Hn, Hk, lock_pairs_app.
      * exists n. exact Hn.
Qed.

End Properties.

(** * Runs on the scripted world *)

Section Runs.

#[local] Existing Instance Script.scripted.

(** ** Scenarios *)

(** Threshold 5; four verified points arrive; the submission thread turns:
    no submission, four points in the cache. *)
Example scenario_four_points :
  let r :=
    run_schedule _CPU
      (map ActCallback (firstn 4 Script.candidates) ++ [ActPump])
      (Script.globals97 []) Script.accepting in
  count_events is_submit (events r) = 0%nat
  /\ _pointsCache (globals r) = firstn 4 Script.five_points.
Proof. vm_compute. split; reflexivity. Qed.

(** A fifth verified point arrives; the next turn submits the five points
    once and, the server accepting, the cache is empty. *)
Example scenario_fifth_point :
  let r :=
    run_schedule _CPU (map ActCallback Script.candidates ++ [ActPump])
      (Script.globals97 []) Script.accepting in
  filter is_submit (events r)
  = [EvSubmitPoints "ecp97" Script.five_points (inr tt)]
  /\ _pointsCache (globals r) = [].
Proof. vm_compute. split; reflexivity. Qed.

(** The same with a server that refuses: the five points stay, and the
    following turn submits them again. *)
Example scenario_refused :
  let r1 :=
    run_schedule _CPU (map ActCallback Script.candidates ++ [ActPump])
      (Script.globals97 []) Script.refusing in
  let r2 := run_action _CPU ActPump (globals r1) (world r1) in
  filter is_submit (events r1)
  = [EvSubmitPoints "ecp97" Script.five_points (inl "refused")]
  /\ _pointsCache (globals r1) = Script.five_points
  /\ filter is_submit (events r2)
     = [EvSubmitPoints "ecp97" Script.five_points (inr tt)]
  /\ _pointsCache (globals r2) = [].
Proof. vm_compute. repeat split; reflexivity. Qed.

(** A candidate off the curve: the cache is unchanged and the candidate is
    logged. *)
Example scenario_off_curve :
  let r :=
    pointFoundCallback Script.bad_candidate
      (Script.globals97 Script.five_points) Script.quiet in
  _pointsCache (globals r) = Script.five_points
  /\ events r
     = [EvLogInfo "INVALID POINT\n" [];
        EvLogInfo "a: %s" [ArgBig 1 (Some 16)];
        EvLogInfo "b: %s" [ArgBig 0 (Some 16)];
        EvLogInfo "x: %s" [ArgBig 3 (Some 16)];
        EvLogInfo "y: %s" [ArgBig 7 (Some 16)];
        EvLogInfo "length: %d" [ArgInt 17]].
Proof. vm_compute. split; reflexivity. Qed.

(** An unrecognised status: nothing changes and the loop sleeps the
    nominal five minutes. *)
Example scenario_unknown_status :
  let r :=
    pollConnections_body _CPU (Script.globals97 []) Script.paused in
  globals r = Script.globals97 []
  /\ value r = Continue
  /\ events r
     = [EvLogInfo "Connecting to server..." [];
        EvGetStatus "ecp97" (inr Script.PAUSED);
        EvLogInfo "Status = %d\n" [ArgInt Script.PAUSED];
        EvSleep 300].
Proof. vm_compute. repeat split; reflexivity. Qed.

(** A whole session: RUNNING, RUNNING with the engine alive, STOPPED. *)
Example session_run_then_stop :
  let r :=
    main _CPU 3 ["client"; "ecp97"] initial_globals Script.session in
  value r = Some 0
  /\ count_events is_fetched (events r) = 1%nat
  /\ count_events is_new_context (events r) = 1%nat
  /\ count_events is_init (events r) = 1%nat
  /\ count_events is_run_launch (events r) = 1%nat
  /\ count_events is_stop (events r) = 1%nat
  /\ _rx (globals r) = map Z.of_nat (seq 1 32)
  /\ _ry (globals r) = map Z.of_nat (seq 33 32).
Proof. vm_compute. repeat split; reflexivity. Qed.

(** The threads statement by statement: a worker that has the lock keeps
    the submission thread out. *)
Example pump_blocked_by_worker :
  run_moves
    [MoveCallback 0 Script.good_candidate; MoveWorker 0;
     MovePump (inr tt); MovePump (inr tt)]
    (initial_threads (Script.globals97 []))
  = None.
Proof. reflexivity. Qed.

(** ** The properties on concrete runs *)

(** A candidate on the curve is appended, and a worker that has pushed it
    holds the lock over a cache that ends with it. *)
Lemma pointFoundCallback_cache_witness :
  let g := Script.globals97 (firstn 4 Script.five_points) in
  let r := pointFoundCallback Script.good_candidate g Script.quiet in
  let t :=
    mkThreads
      (set_pointsCache
         (firstn 4 Script.five_points ++ [point_of Script.good_candidate]) g)
      (HeldByWorker 0) PumpHead
      (set_worker 0
         (WorkerRelease (point_of Script.good_candidate)
            (firstn 4 Script.five_points))
         (set_worker 0
            (WorkerPush (point_of Script.good_candidate)
               (firstn 4 Script.five_points))
            (set_worker 0 (WorkerGrab (point_of Script.good_candidate))
               (fun _ => WorkerIdle)))) in
  candidate_valid g Script.good_candidate = true
  /\ List.length (_pointsCache (globals r)) = 5%nat
  /\ run_moves
       [MoveCallback 0 Script.good_candidate; MoveWorker 0; MoveWorker 0]
       (initial_threads g)
     = Some t
  /\ _pointsCache (shared t)
     = firstn 4 Script.five_points ++ [point_of Script.good_candidate].
Proof.
  cbn zeta.
  destruct (pointFoundCallback_cache Script.good_candidate
              (Script.globals97 (firstn 4 Script.five_points)) Script.quiet)
    as (_ & Hvalid & Hmoves).
  assert (Hv : candidate_valid (Script.globals97 (firstn 4 Script.five_points))
                 Script.good_candidate = true) by reflexivity.
  rewrite Hv in Hvalid. destruct Hvalid as (_ & Hlen & _).
  split; [exact Hv|]. split; [exact Hlen|].
  match goal with
  | |- ?run = Some ?t /\ _ =>
      assert (Hrun : run = Some t) by reflexivity;
      split; [exact Hrun|];
      exact (proj2 (Hmoves _ t 0%nat _ _ Hrun eq_refl))
  end.
Defined.

(** A candidate off the curve and one on it: the parameters, the
    configuration and the flag stay. *)
Lemma pointFoundCallback_frame_witness :
  let g := Script.globals97 Script.five_points in
  _params (globals (pointFoundCallback Script.bad_candidate g Script.quiet))
  = Script.params97
  /\ _config
       (globals (pointFoundCallback Script.good_candidate g Script.quiet))
     = Script.config5
  /\ shared
       (mkThreads g HeldByPump (PumpTest Script.five_points)
          (fun _ => WorkerIdle))
     = set_pointsCache Script.five_points g.
Proof.
  cbn zeta. split; [|split].
  - exact (proj1 (pointFoundCallback_frame Script.bad_candidate
                    (Script.globals97 Script.five_points) Script.quiet)).
  - destruct (pointFoundCallback_frame Script.good_candidate
                (Script.globals97 Script.five_points) Script.quiet)
      as (_ & _ & _ & _ & _ & Hcfg & _).
    exact Hcfg.
  - destruct (pointFoundCallback_frame Script.good_candidate
                (Script.globals97 Script.five_points) Script.quiet)
      as (_ & _ & _ & _ & _ & _ & _ & _ & _ & _ & _ & Hmoves).
    exact (Hmoves [MovePump (inr tt); MovePump (inr tt)] _ eq_refl).
Defined.

(** Five points, a server that refuses them: they stay in the cache. *)
Lemma failed_submission_witness :
  let g := Script.globals97 Script.five_points in
  let r := sendPointsThread_body g Script.refusing in
  In (EvSubmitPoints "ecp97" Script.five_points (inl "refused")) (events r)
  /\ _pointsCache (globals r) = Script.five_points
  /\ globals r = g.
Proof.
  cbn zeta.
  assert (Hin : In (EvSubmitPoints "ecp97" Script.five_points (inl "refused"))
                  (events (sendPointsThread_body
                             (Script.globals97 Script.five_points)
                             Script.refusing)))
    by (vm_compute; auto 10).
  split; [exact Hin|].
  destruct (failed_submission_keeps_cache _CPU
              (Script.globals97 Script.five_points) Script.refusing
              "ecp97" Script.five_points "refused" Hin)
    as (Hc & Hg & _).
  split; [exact Hc|exact Hg].
Defined.

(** Five points, a server that accepts them: the cache is emptied. *)
Lemma successful_submission_witness :
  let g := Script.globals97 Script.five_points in
  let r := sendPointsThread_body g Script.accepting in
  In (EvSubmitPoints "ecp97" Script.five_points (inr tt)) (events r)
  /\ _pointsCache (globals r) = []
  /\ _pointsCache g = Script.five_points ++ _pointsCache (globals r).
Proof.
  cbn zeta.
  assert (Hin : In (EvSubmitPoints "ecp97" Script.five_points (inr tt))
                  (events (sendPointsThread_body
                             (Script.globals97 Script.five_points)
                             Script.accepting)))
    by (vm_compute; auto 10).
  split; [exact Hin|].
  destruct (successful_submission_clears_snapshot
              (Script.globals97 Script.five_points) Script.accepting
              "ecp97" Script.five_points tt Hin)
    as (_ & _ & Hc & Hsplit & _).
  split; [exact Hc|exact Hsplit].
Defined.

(** Four points under threshold 5: no call to the server. *)
Lemma submission_threshold_witness :
  let g := Script.globals97 (firstn 4 Script.five_points) in
  let r := sendPointsThread_body g Script.accepting in
  (N.of_nat (List.length (_pointsCache g))
   < ClientConfig.pointCacheSize (_config g))%N
  /\ count_events is_server_call (events r) = 0%nat
  /\ globals r = g.
Proof.
  cbn zeta.
  assert (Hlt : (N.of_nat (List.length
                             (_pointsCache
                                (Script.globals97
                                   (firstn 4 Script.five_points))))
                 < ClientConfig.pointCacheSize
                     (_config (Script.globals97
                                 (firstn 4 Script.five_points))))%N)
    by (vm_compute; reflexivity).
  split; [exact Hlt|].
  destruct (submission_only_at_threshold
              (Script.globals97 (firstn 4 Script.five_points))
              Script.accepting)
    as (_ & Hbelow & _).
  destruct (Hbelow Hlt) as (Hn & _ & Hg & _).
  split; [exact Hn|exact Hg].
Defined.

(** The four observations of the poll loop, one turn each. *)
Lemma poll_lifecycle_witness :
  (let g := Script.globals97 [] in
   let r :=
     pollConnections_body _CPU g Script.launch in
   count_events is_new_context (events r) = 1%nat
   /\ count_events is_init (events r) = 1%nat
   /\ count_events is_run_launch (events r) = 1%nat)
  /\ (let g := Script.globals97_engine in
      let r := pollConnections_body _CPU g Script.alive in
      count_events is_engine_action (events r) = 0%nat /\ globals r = g)
  /\ (let g := Script.globals97_engine in
      let r := pollConnections_body _CPU g Script.stop in
      count_events is_stop (events r) = 1%nat /\ value r = Break)
  /\ (let g := Script.globals97_engine in
      let r := pollConnections_body _CPU g Script.paused in
      globals r = g /\ value r = Continue).
Proof.
  cbn zeta. split; [|split; [|split]].
  - destruct (poll_loop_lifecycle _CPU (Script.globals97 []) Script.launch)
      as (Hlaunch & _).
    destruct (Hlaunch Script.launch_polled Script.spent Script.msg97
                eq_refl eq_refl eq_refl)
      as (Hn & Hi & Hr & _).
    split; [exact Hn|]. split; [exact Hi|exact Hr].
  - destruct (poll_loop_lifecycle _CPU Script.globals97_engine Script.alive)
      as (_ & Halive & _).
    destruct (Halive Script.alive_polled Script.spent
                Script.engine97 eq_refl eq_refl eq_refl)
      as (Hn & Hg & _).
    split; [exact Hn|exact Hg].
  - destruct (poll_loop_lifecycle _CPU Script.globals97_engine Script.stop)
      as (_ & _ & Hstop & _).
    destruct (Hstop Script.spent eq_refl)
      as (Hn & _ & _ & _ & _ & Hv & _).
    split; [exact Hn|exact Hv].
  - destruct (poll_loop_lifecycle _CPU Script.globals97_engine Script.paused)
      as (_ & _ & _ & Hother & _).
    assert (H70 : Script.PAUSED <> SERVER_STATUS_RUNNING)
      by (vm_compute; discriminate).
    assert (H71 : Script.PAUSED <> SERVER_STATUS_STOPPED)
      by (vm_compute; discriminate).
    destruct (Hother Script.spent Script.PAUSED eq_refl H70 H71)
      as (Hg & _ & Hv & _).
    split; [exact Hg|exact Hv].
Defined.

(** A failed fetch and its retry, a successful fetch, and a turn with an
    engine. *)
Lemma parameters_fetch_witness :
  (let g := Script.globals97 [] in
   let r :=
     pollConnections_body _CPU g Script.busy in
   globals r = g
   /\ count_events is_fetch
        (events (pollConnections_body _CPU (globals r) (world r)))
      = 1%nat)
  /\ (let g := Script.globals97 [] in
      let r :=
        pollConnections_body _CPU g Script.launch in
      _context (globals r) <> None
      /\ _params (globals r) = Script.params97)
  /\ count_events is_fetch
       (events (pollConnections_body _CPU Script.globals97_engine
                  Script.launch))
     = 0%nat.
Proof.
  cbn zeta. split; [|split].
  - destruct (parameters_fetched_at_most_once _CPU (Script.globals97 [])
                Script.busy)
      as (_ & _ & Hfail & _).
    destruct (Hfail Script.busy_polled Script.launch "busy"
                eq_refl eq_refl eq_refl)
      as (_ & Hg & _ & _ & _ & Hretry).
    split; [exact Hg|].
    exact (Hretry Script.launch_polled eq_refl).
  - destruct (parameters_fetched_at_most_once _CPU (Script.globals97 [])
                Script.launch)
      as (_ & _ & _ & Hok).
    destruct (Hok Script.launch_polled Script.spent Script.msg97
                eq_refl eq_refl eq_refl)
      as (Hc & Hp & _).
    split; [exact Hc|exact Hp].
  - destruct (parameters_fetched_at_most_once _CPU Script.globals97_engine
                Script.launch)
      as (_ & Hengine & _).
    apply Hengine. vm_compute. discriminate.
Defined.

(** A process that is told to stop at its first poll ends without having
    fetched the parameters, and one whose fetches all fail has attempted
    two and completed none. *)
Lemma parameters_never_fetched :
  (let r :=
     main _CPU 1 ["client"; "ecp97"] initial_globals Script.stop in
   value r = Some 0
   /\ count_events is_fetch (events r) = 0%nat
   /\ count_events is_fetched (events r) <> 1%nat)
  /\ (let r :=
        main _CPU 3 ["client"; "ecp97"] initial_globals Script.always_busy in
      value r = Some 0
      /\ count_events is_fetch (events r) = 2%nat
      /\ count_events is_fetched (events r) <> 1%nat).
Proof. vm_compute. repeat split; discriminate. Qed.

(** A server that cannot be reached at the first poll. *)
Lemma poll_transport_failure_witness :
  let g := Script.globals97_engine in
  let w := Script.unreachable in
  let r := pollConnections_body _CPU g w in
  ServerConnection_getStatus (_id g) w
  = (inl "connection refused", Script.alive)
  /\ globals r = g
  /\ value r = Continue
  /\ count_events is_engine_action (events r) = 0%nat.
Proof.
  cbn zeta.
  assert (Hs : ServerConnection_getStatus (_id Script.globals97_engine)
                 Script.unreachable
               = (inl "connection refused", Script.alive))
    by reflexivity.
  split; [exact Hs|].
  destruct (poll_transport_failure _CPU Script.globals97_engine
              Script.unreachable Script.alive "connection refused" Hs)
    as (_ & Hg & _ & Hv & Hn & _).
  split; [exact Hg|]. split; [exact Hv|exact Hn].
Defined.

(** Three turns of the submission thread, and it has not returned. *)
Lemma running_flag_witness :
  _running (Script.globals97 []) = true
  /\ value (sendPointsThread 3 (Script.globals97 []) Script.quiet)
     = Unfinished.
Proof.
  split; [reflexivity|].
  destruct (running_flag_never_cleared (W := Script.World) _CPU)
    as (_ & _ & _ & _ & _ & Hpump & _).
  exact (proj1 (Hpump 3%nat (Script.globals97 []) Script.quiet eq_refl)).
Defined.

(** No argument, the benchmark flag, no settings, no CUDA device. *)
Lemma main_startup_witness :
  (let r := main _CPU 0 ["client"] initial_globals Script.quiet in
   value r = Some 0 /\ In (EvLogInfo "usage: [options] id\n" []) (events r))
  /\ (let r := main _CPU 0 ["client"; "-b"] initial_globals Script.quiet in
      value r = Some 0 /\ count_events is_benchmark (events r) = 1%nat)
  /\ value (main _CPU 0 ["client"; "ecp97"] initial_globals
              Script.no_settings)
     = Some 1
  /\ value (main _CUDA 0 ["client"; "ecp97"] initial_globals Script.no_device)
     = Some 1.
Proof.
  cbn zeta. split; [|split; [|split]].
  - destruct (main_startup _CPU 0 ["client"] initial_globals Script.quiet)
      as (_ & Hloaded & _).
    destruct (Hloaded Script.config5 Script.quiet eq_refl)
      as (_ & Husage & _).
    assert (Hlen : (List.length ["client"] < 2)%nat) by (cbn; lia).
    destruct (Husage eq_refl Hlen) as (Hv & Hin & _).
    split; [exact Hv|exact Hin].
  - destruct (main_startup _CPU 0 ["client"; "-b"] initial_globals
                Script.quiet)
      as (_ & Hloaded & _).
    destruct (Hloaded Script.config5 Script.quiet eq_refl)
      as (_ & _ & Hbench & _).
    destruct (Hbench eq_refl eq_refl) as (Hv & Hn & _).
    split; [exact Hv|exact Hn].
  - destruct (main_startup _CPU 0 ["client"; "ecp97"] initial_globals
                Script.no_settings)
      as (Hfailed & _).
    exact (proj1 (Hfailed "cannot open settings.json" Script.no_settings
                    eq_refl)).
  - destruct (main_startup _CUDA 0 ["client"; "ecp97"] initial_globals
                Script.no_device)
      as (_ & Hloaded & _).
    destruct (Hloaded Script.config5 Script.no_device eq_refl)
      as (Hdev & _ & _ & Hcuda & _).
    exact (proj1 (Hdev (Hcuda eq_refl eq_refl))).
Defined.

(** Without a loadable settings.json an invocation with no positional
    argument exits with status 1 and prints no usage line, and an
    invocation with "-b" exits with status 1 and runs no benchmark. *)
Lemma usage_needs_settings :
  (let r := main _CPU 0 ["client"] initial_globals Script.no_settings in
   (List.length ["client"] < 2)%nat
   /\ value r = Some 1
   /\ value r <> Some 0
   /\ ~ In (EvLogInfo "usage: [options] id\n" []) (events r))
  /\ (let r :=
        main _CPU 0 ["client"; "-b"] initial_globals Script.no_settings in
      value r = Some 1
      /\ value r <> Some 0
      /\ count_events is_benchmark (events r) = 0%nat).
Proof.
  vm_compute. repeat split; try discriminate; try lia.
  intros [H|[H|[H|[]]]]; discriminate.
Qed.


(** ** The further properties on concrete runs *)

(** A reply with 32 points overwrites arrays of zeros. *)
Lemma getParameters_stores_reply_witness :
  let r :=
    getParameters ECDLPParams.zero (repeat 0 32) (repeat 0 32)
      (Script.globals97 []) Script.launch_polled in
  List.length (repeat 0 32) = 32%nat
  /\ out_ok (value r) = true
  /\ out_params (value r) = Script.params97
  /\ out_rx (value r) = ParamsMsg.rx Script.msg97.
Proof.
  cbn zeta. split; [reflexivity|].
  destruct (getParameters_stores_reply ECDLPParams.zero (repeat 0 32)
              (repeat 0 32) (Script.globals97 []) Script.launch_polled
              eq_refl eq_refl)
    as (Hreply & _).
  assert (H32x : (32 <= List.length (ParamsMsg.rx Script.msg97))%nat)
    by (vm_compute; repeat constructor).
  assert (H32y : (32 <= List.length (ParamsMsg.ry Script.msg97))%nat)
    by (vm_compute; repeat constructor).
  destruct Hreply as (_ & Hvalue).
  rewrite (Hvalue H32x H32y). repeat split.
Defined.

(** The engine launched on the CPU build carries the parameters of the
    reply. *)
Lemma launched_engine_witness :
  let r := pollConnections_body _CPU (Script.globals97 []) Script.launch in
  _context (globals r)
  = Some (ECDLCpuContext 2 16 Script.params97 (ParamsMsg.rx Script.msg97)
            (ParamsMsg.ry Script.msg97) 32)
  /\ _params (globals r) = Script.params97.
Proof.
  cbn zeta.
  assert (Hs : ServerConnection_getStatus (_id (Script.globals97 []))
                 Script.launch
               = (inr SERVER_STATUS_RUNNING, Script.launch_polled))
    by reflexivity.
  assert (Hf : ServerConnection_getParameters (_id (Script.globals97 []))
                 Script.launch_polled
               = (inr Script.msg97, Script.spent))
    by reflexivity.
  destruct (launched_engine_matches_globals _CPU (Script.globals97 [])
              Script.launch Script.launch_polled Script.spent Script.msg97
              Hs eq_refl Hf)
    as (Hctx & Hparams & _).
  split; [exact Hctx|exact Hparams].
Defined.

(** An engine that is not running is launched again. *)
Lemma dead_engine_witness :
  let r := pollConnections_body _CPU Script.globals97_engine Script.dead in
  count_events is_run_launch (events r) = 1%nat
  /\ count_events is_new_context (events r) = 0%nat.
Proof.
  cbn zeta.
  destruct (dead_engine_is_relaunched _CPU Script.globals97_engine
              Script.dead)
    as (Hturn & _).
  assert (Hs : ServerConnection_getStatus (_id Script.globals97_engine)
                 Script.dead
               = (inr SERVER_STATUS_RUNNING, Script.dead_polled))
    by reflexivity.
  assert (Hr : ECDLContext_isRunning Script.engine97 Script.dead_polled
               = (false, Script.spent))
    by reflexivity.
  destruct (Hturn Script.dead_polled Script.spent Script.engine97
              Hs eq_refl Hr)
    as (Hl & Hn & _).
  split; [exact Hl|exact Hn].
Defined.

(** A server that cannot be connected to: exit status 0. *)
Lemma main_exit_status_witness :
  let r :=
    main _CPU 3 ["client"; "ecp97"] initial_globals Script.unconnected in
  value r = Some 0
  /\ count_events is_status_poll (events r) = 0%nat.
Proof.
  cbn zeta.
  destruct (main_exit_status _CPU 3 ["client"; "ecp97"] initial_globals
              Script.unconnected)
    as (_ & Hconn).
  assert (Hid : "ecp97" <> "-b") by discriminate.
  specialize (Hconn Script.config5 "ecp97").
  cbn zeta in Hconn.
  assert (Hfail := fun Hc Hd => Hconn Hc Hd eq_refl Hid).
  specialize (Hfail ltac:(reflexivity) ltac:(reflexivity)).
  destruct Hfail as (Hv & _ & Hp & _).
  split; [exact Hv|exact Hp].
Defined.

(** A worker in its critical section keeps the submission thread out. *)
Lemma critical_section_witness :
  let t :=
    mkThreads (Script.globals97 []) (HeldByWorker 0) PumpGrab
      (set_worker 0
         (WorkerPush (point_of Script.good_candidate) [])
         (set_worker 0 (WorkerGrab (point_of Script.good_candidate))
            (fun _ => WorkerIdle))) in
  run_moves
    [MoveCallback 0 Script.good_candidate; MovePump (inr tt); MoveWorker 0]
    (initial_threads (Script.globals97 []))
  = Some t
  /\ forall j : nat, worker_in_section (workers t j) = true -> 0%nat = j.
Proof.
  cbn zeta.
  match goal with
  | |- ?run = Some ?t /\ _ =>
      assert (Hrun : run = Some t) by reflexivity;
      split; [exact Hrun|];
      destruct (one_thread_in_the_critical_section _ _ _ Hrun)
        as (Htwo & _);
      intros j Hj; exact (Htwo 0%nat j eq_refl Hj)
  end.
Defined.

(** A worker that holds the lock frees it by its own moves. *)
Lemma holder_frees_the_lock_witness :
  let t :=
    mkThreads (Script.globals97 []) (HeldByWorker 0) PumpGrab
      (set_worker 0
         (WorkerPush (point_of Script.good_candidate) [])
         (set_worker 0 (WorkerGrab (point_of Script.good_candidate))
            (fun _ => WorkerIdle))) in
  mutex t <> Free
  /\ exists (own : list Move) (t' : Threads),
       run_moves own t = Some t'
       /\ mutex t' = Free
       /\ Forall (move_of_owner (mutex t)) own
       /\ (List.length own <= 2)%nat.
Proof.
  cbn zeta.
  assert (Hheld : HeldByWorker 0 <> Free) by discriminate.
  split; [exact Hheld|].
  exact (holder_frees_the_lock
           [MoveCallback 0 Script.good_candidate; MovePump (inr tt);
            MoveWorker 0]
           (Script.globals97 []) _ eq_refl Hheld).
Defined.

(** Five deliveries, a refused submission, an accepted one. *)
Lemma points_are_conserved_witness :
  let s := map ActCallback Script.candidates ++ [ActPump; ActPump] in
  let r := run_schedule _CPU s (Script.globals97 []) Script.refusing in
  forallb (fun a => negb (is_poll a)) s = true
  /\ sent_ok (events r) ++ _pointsCache (globals r)
     = accepted (Script.globals97 []) s.
Proof.
  cbn zeta. split; [reflexivity|].
  exact (points_are_conserved _CPU
           (map ActCallback Script.candidates ++ [ActPump; ActPump])
           (Script.globals97 []) Script.refusing eq_refl).
Defined.

(** The run that stops the engine ends with its deletion. *)
Lemma engine_deleted_last_witness :
  let r :=
    while_running 3 (pollConnections_body _CPU) Script.globals97_engine
      Script.stop in
  In (EvContextDelete Script.engine97) (events r)
  /\ value r = ExitBreak.
Proof.
  cbn zeta.
  assert (Hin : In (EvContextDelete Script.engine97)
                  (events (while_running 3 (pollConnections_body _CPU)
                             Script.globals97_engine Script.stop)))
    by (vm_compute; auto 10).
  split; [exact Hin|].
  exact (proj1 (engine_deleted_last _CPU 3 Script.globals97_engine
                  Script.stop Script.engine97 Hin)).
Defined.

(** Threshold 0: three turns, three submissions. *)
Lemma zero_threshold_witness :
  ClientConfig.pointCacheSize (_config Script.globals_zero) = 0%N
  /\ count_events is_submit
       (events (sendPointsThread 3 Script.globals_zero Script.accepting))
     = 3%nat.
Proof.
  split; [reflexivity|].
  exact (proj1 (zero_threshold_submits_every_turn 3 Script.globals_zero
                  Script.accepting eq_refl eq_refl)).
Defined.

End Runs.
